(** * Reminders gateway: data access, normalization, query and mutation layer

    A shallow embedding of
      - the native EventKit helper (Swift: [sortReminders],
        [operationListReminders], [operationCountReminders],
        [operationCreateReminder], [locateReminderByName],
        [operationUpdateReminder], [operationDeleteReminder],
        [operationListLists], [operationCreateList], [operationDeleteList],
        [ensureAccess], [run] and the top level),
      - the TypeScript service in front of it ([parseDate], [mapReminder],
        [parseEnvelope], [runHelper]),
      - the [reminders_list] tool handler and its input schema, and the
        [reminders_search] tool handler,
      - the quoting of the AppleScript service ([escapeAppleScriptString],
        [runAppleScript]),
    followed by the properties of ordering, pagination, counting, mutation,
    envelope decoding, lists, searching and quoting that hold of them. *)

From Stdlib Require Import ZArith List String Ascii Bool Lia.
From Stdlib Require Import Sorted Permutation.
Import ListNotations.

Local Open Scope Z_scope.

(* ================================================================= *)
(** ** Errors *)

(** [enum HelperError: Error { case message(String) }] *)
Inductive HelperError : Type :=
| message (text : string).

(** A throwing Swift function returns either the error it threw or its
    value. *)
Definition Result (A : Type) : Type := (HelperError + A)%type.

Definition ok {A : Type} (a : A) : Result A := inr a.
Definition throw {A : Type} (e : HelperError) : Result A := inl e.

Definition bind {A B : Type} (m : Result A) (k : A -> Result B) : Result B :=
  match m with
  | inl e => inl e
  | inr a => k a
  end.

Notation "'let*' x ':=' m 'in' k" := (bind m (fun x => k))
  (at level 10, x name, m at level 100, k at level 200).

(* ================================================================= *)
(** ** Platform types *)

(** A point in time.  Only the order of instants and their equality are ever
    used; the unit is the millisecond since the Unix epoch. *)
Definition Date : Type := Z.

(** [Date.distantPast], 0001-01-01T00:00:00Z. *)
Definition Date_distantPast : Date := -62135596800000.

(** [DateComponents]: every component is optional. *)
Record DateComponents : Type := mkDateComponents {
  year : option Z;
  month : option Z;
  day : option Z;
  hour : option Z;
  minute : option Z;
  second : option Z
}.

(** The calendar units a caller can ask [Calendar.dateComponents] for. *)
Inductive CalendarUnit : Type :=
| unitYear | unitMonth | unitDay | unitHour | unitMinute | unitSecond.

Definition CalendarUnit_eqb (a b : CalendarUnit) : bool :=
  match a, b with
  | unitYear, unitYear | unitMonth, unitMonth | unitDay, unitDay
  | unitHour, unitHour | unitMinute, unitMinute | unitSecond, unitSecond => true
  | _, _ => false
  end.

(** What Foundation provides to the helper: the two ISO 8601 formatters, the
    all-day formatter, the current calendar and the localized string
    comparison.  [calendarField] is the value the current calendar gives a
    unit at an instant. *)
Class Foundation : Type := {
  (** [isoFormatterWithFractionalSeconds.date(from:)] *)
  isoFormatterWithFractionalSeconds_date : string -> option Date;
  (** [isoFormatterWithoutFractionalSeconds.date(from:)] *)
  isoFormatterWithoutFractionalSeconds_date : string -> option Date;
  (** [isoFormatterWithFractionalSeconds.string(from:)] *)
  isoFormatterWithFractionalSeconds_string : Date -> string;
  (** [allDayDateFormatter.date(from:)] *)
  allDayDateFormatter_date : string -> option Date;
  (** the value of one unit at an instant in [Calendar.current] *)
  calendarField : CalendarUnit -> Date -> Z;
  (** [Calendar.current.date(from:)] *)
  calendarDate : DateComponents -> option Date;
  (** [String.localizedCaseInsensitiveCompare]; [Lt] is [.orderedAscending],
      [Eq] is [.orderedSame], [Gt] is [.orderedDescending] *)
  localizedCaseInsensitiveCompare : string -> string -> comparison;
  (** the [localizedDescription] of the error [JSONDecoder] throws for a
      number that is not an [Int] *)
  decodingErrorDescription : string;
  (** [trimmingCharacters(in: .whitespacesAndNewlines)] *)
  trimmingWhitespacesAndNewlines : string -> string
}.

(** [Calendar.current.dateComponents(units, from: date)]: exactly the
    requested units are filled in. *)
Definition calendarDateComponents `{F : Foundation}
    (units : list CalendarUnit) (date : Date) : DateComponents :=
  let field u :=
    if existsb (CalendarUnit_eqb u) units
    then Some (calendarField u date) else None in
  {| year := field unitYear; month := field unitMonth; day := field unitDay;
     hour := field unitHour; minute := field unitMinute;
     second := field unitSecond |}.

(** [value.trimmingCharacters(in: .whitespacesAndNewlines).isEmpty] *)
Definition allWhitespace `{F : Foundation} (value : string) : bool :=
  match trimmingWhitespacesAndNewlines value with
  | EmptyString => true
  | String _ _ => false
  end.

(** [Sequence.sorted(by:)].  The standard library's sort is stable, and a
    stable sort has one possible result; it is computed here by insertion
    from the right, an element going in front of the first element that is
    not strictly before it. *)
Section Sorted.
Context {A : Type} (areInIncreasingOrder : A -> A -> bool).

Fixpoint insertSorted (x : A) (l : list A) : list A :=
  match l with
  | [] => [x]
  | y :: rest =>
      if areInIncreasingOrder y x then y :: insertSorted x rest
      else x :: y :: rest
  end.

Definition sorted (l : list A) : list A :=
  fold_right insertSorted [] l.

End Sorted.

(** [Sequence.first(where:)] *)
Definition first {A : Type} (p : A -> bool) (l : list A) : option A :=
  find p l.

(** [dropFirst(k)] and [prefix(k)], called with [k >= 0]. *)
Definition dropFirst {A : Type} (k : Z) (l : list A) : list A :=
  skipn (Z.to_nat k) l.

Definition prefix {A : Type} (k : Z) (l : list A) : list A :=
  firstn (Z.to_nat k) l.

Definition count {A : Type} (l : list A) : Z := Z.of_nat (List.length l).

(** [a ?? b] *)
Definition orElse {A : Type} (a : option A) (b : A) : A :=
  match a with
  | Some v => v
  | None => b
  end.

Definition orElseOpt {A : Type} (a b : option A) : option A :=
  match a with
  | Some v => Some v
  | None => b
  end.

(** A date text that is given can be read by [parse]. *)
Definition parseable (parse : string -> option Date) (field : option string)
    : Prop :=
  forall text, field = Some text -> parse text <> None.

(** A three-way comparison that behaves as one: swapping the arguments
    swaps the answer, and "not after" is transitive. *)
Record Lawful {A : Type} (cmp : A -> A -> comparison) : Prop := mkLawful {
  lawful_swap : forall a b, cmp b a = CompOpp (cmp a b);
  lawful_trans : forall a b c, cmp a b <> Gt -> cmp b c <> Gt -> cmp a c <> Gt
}.

(** Comparison by a first criterion, then by a second one. *)
Definition thenBy (c1 c2 : comparison) : comparison :=
  match c1 with
  | Eq => c2
  | _ => c1
  end.

Definition isLt (c : comparison) : bool :=
  match c with
  | Lt => true
  | _ => false
  end.

(* ================================================================= *)
(** ** The native helper *)

(** [T: Decodable] with [JSONDecoder().decode(T.self, from:)]: the payload a
    text decodes to, or the error the decoder throws. *)
Class Decodable (T : Type) : Type := {
  decode : string -> Result T
}.

Module Helper.

(** *** The EventKit store *)

Record EKCalendar : Type := mkCalendar {
  calendarIdentifier : string;
  calendarTitle : string
}.

(** An alarm fires at an absolute date or relative to the due date; only the
    former has an [absoluteDate]. *)
Inductive EKAlarm : Type :=
| EKAlarm_absoluteDate (absoluteDate : Date)
| EKAlarm_relativeOffset (offset : Z).

Definition absoluteDate (a : EKAlarm) : option Date :=
  match a with
  | EKAlarm_absoluteDate d => Some d
  | EKAlarm_relativeOffset _ => None
  end.

Record EKReminder : Type := mkReminder {
  calendarItemIdentifier : string;
  calendar : EKCalendar;
  title : string;
  notes : option string;
  isCompleted : bool;
  completionDate : option Date;
  dueDateComponents : option DateComponents;
  alarms : option (list EKAlarm);
  priority : Z;
  creationDate : option Date;
  lastModifiedDate : option Date
}.

(** The store: its reminder calendars and its reminders, in the order a
    fetch reports them. *)
Record EKEventStore : Type := mkStore {
  calendars : list EKCalendar;
  reminders : list EKReminder
}.

(** Assignments to the properties of a reminder object. *)
Definition set_title (v : string) (r : EKReminder) : EKReminder :=
  mkReminder (calendarItemIdentifier r) (calendar r) v (notes r)
    (isCompleted r) (completionDate r) (dueDateComponents r) (alarms r)
    (priority r) (creationDate r) (lastModifiedDate r).

Definition set_notes (v : option string) (r : EKReminder) : EKReminder :=
  mkReminder (calendarItemIdentifier r) (calendar r) (title r) v
    (isCompleted r) (completionDate r) (dueDateComponents r) (alarms r)
    (priority r) (creationDate r) (lastModifiedDate r).

Definition set_isCompleted (v : bool) (r : EKReminder) : EKReminder :=
  mkReminder (calendarItemIdentifier r) (calendar r) (title r) (notes r)
    v (completionDate r) (dueDateComponents r) (alarms r)
    (priority r) (creationDate r) (lastModifiedDate r).

Definition set_completionDate (v : option Date) (r : EKReminder) : EKReminder :=
  mkReminder (calendarItemIdentifier r) (calendar r) (title r) (notes r)
    (isCompleted r) v (dueDateComponents r) (alarms r)
    (priority r) (creationDate r) (lastModifiedDate r).

Definition set_dueDateComponents (v : option DateComponents) (r : EKReminder)
    : EKReminder :=
  mkReminder (calendarItemIdentifier r) (calendar r) (title r) (notes r)
    (isCompleted r) (completionDate r) v (alarms r)
    (priority r) (creationDate r) (lastModifiedDate r).

Definition set_alarms (v : option (list EKAlarm)) (r : EKReminder) : EKReminder :=
  mkReminder (calendarItemIdentifier r) (calendar r) (title r) (notes r)
    (isCompleted r) (completionDate r) (dueDateComponents r) v
    (priority r) (creationDate r) (lastModifiedDate r).

Definition set_priority (v : Z) (r : EKReminder) : EKReminder :=
  mkReminder (calendarItemIdentifier r) (calendar r) (title r) (notes r)
    (isCompleted r) (completionDate r) (dueDateComponents r) (alarms r)
    v (creationDate r) (lastModifiedDate r).

(** [EKReminder(eventStore:)] followed by [reminder.calendar = calendar]: a
    new object, with the identifier EventKit gives it. *)
Definition newReminder (identifier : string) (cal : EKCalendar) : EKReminder :=
  mkReminder identifier cal EmptyString None false None None None 0 None None.

Definition sameItem (a b : EKReminder) : bool :=
  String.eqb (calendarItemIdentifier a) (calendarItemIdentifier b).

(** [store.save(reminder, commit: true)], for a store that takes the write:
    the stored reminder with this identifier is replaced; a reminder that is
    not stored yet is added.  The dates EventKit stamps on what it saves are
    left as the reminder has them. *)
Fixpoint saveInto (reminder : EKReminder) (l : list EKReminder)
    : list EKReminder :=
  match l with
  | [] => [reminder]
  | r :: rest =>
      if sameItem r reminder then reminder :: rest
      else r :: saveInto reminder rest
  end.

Definition save (store : EKEventStore) (reminder : EKReminder) : EKEventStore :=
  mkStore (calendars store) (saveInto reminder (reminders store)).

(** [store.remove(reminder, commit: true)], for a store that takes the
    write. *)
Definition remove (store : EKEventStore) (reminder : EKReminder) : EKEventStore :=
  mkStore (calendars store)
    (filter (fun r => negb (sameItem r reminder)) (reminders store)).

(** The stored reminder with a given identifier. *)
Definition reminderWithIdentifier (store : EKEventStore) (identifier : string)
    : option EKReminder :=
  find (fun r => String.eqb (calendarItemIdentifier r) identifier)
    (reminders store).

(** [store.saveCalendar(calendar, commit: true)] for a calendar that is new
    and a store that takes the write.  Where EventKit puts the calendar
    among the others is not the helper's doing; here it comes after them. *)
Definition saveCalendar (store : EKEventStore) (cal : EKCalendar)
    : EKEventStore :=
  mkStore (calendars store ++ [cal]) (reminders store).

Definition inCalendar (cal : EKCalendar) (r : EKReminder) : bool :=
  String.eqb (calendarIdentifier (calendar r)) (calendarIdentifier cal).

(** [store.removeCalendar(calendar, commit: true)], for a store that takes
    the write: the calendar goes, and with it the reminders it holds. *)
Definition removeCalendar (store : EKEventStore) (cal : EKCalendar)
    : EKEventStore :=
  mkStore
    (filter (fun c => negb (String.eqb (calendarIdentifier c)
                                       (calendarIdentifier cal)))
       (calendars store))
    (filter (fun r => negb (inCalendar cal r)) (reminders store)).

(** The accounts of the store.  The model of a calendar keeps its identifier
    and its title; the source a new calendar is given decides only whether
    the calendar can be made. *)
Inductive EKSourceType : Type :=
| EKSourceType_local
| EKSourceType_exchange
| EKSourceType_calDAV
| EKSourceType_mobileMe
| EKSourceType_subscribed
| EKSourceType_birthdays.

Record EKSource : Type := mkSource {
  sourceIdentifier : string;
  sourceType : EKSourceType
}.

(** [store.defaultCalendarForNewReminders()?.source] and [store.sources]. *)
Record EKSources : Type := mkSources {
  defaultCalendarSource : option EKSource;
  sources : list EKSource
}.

(** [EKEventStore.authorizationStatus(for: .reminder)]; [unknownStatus] is a
    status the [switch] reaches under [@unknown default]. *)
Inductive EKAuthorizationStatus : Type :=
| notDetermined
| restricted
| denied
| fullAccess
| writeOnly
| unknownStatus.

(** What becomes of [store.requestFullAccessToReminders] within the twenty
    seconds the helper waits: no answer, or the two arguments the completion
    handler is called with.  An error of the system is kept as the
    [HelperError] with its [localizedDescription], the text the helper
    prints for either. *)
Inductive AccessRequest : Type :=
| requestTimedOut
| requestAnswered (granted : bool) (requestError : option HelperError).

(** *** Wire records and payloads *)

Record ReminderListRecord : Type := mkReminderListRecord {
  list_id : string;
  list_name : string
}.

Record ReminderRecord : Type := mkReminderRecord {
  rec_id : string;
  rec_name : string;
  rec_body : option string;
  rec_completed : bool;
  rec_completionDate : option string;
  rec_dueDate : option string;
  rec_allDayDueDate : option string;
  rec_remindMeDate : option string;
  rec_priority : Z;
  rec_creationDate : option string;
  rec_modificationDate : option string;
  rec_listName : string
}.

Inductive EmptyResult : Type := mkEmptyResult.

Record ListRemindersResult : Type := mkListRemindersResult {
  res_total : Z;
  res_reminders : list ReminderRecord
}.

Record CountResult : Type := mkCountResult {
  res_count : Z
}.

Record CreateIdResult : Type := mkCreateIdResult {
  res_id : string
}.

Record ListRemindersPayload : Type := mkListRemindersPayload {
  lr_listName : option string;
  lr_completed : option bool;
  lr_limit : option Z;
  lr_offset : option Z
}.

Record CountRemindersPayload : Type := mkCountRemindersPayload {
  cr_listName : option string;
  cr_completed : option bool
}.

Record CreateReminderPayload : Type := mkCreateReminderPayload {
  c_name : string;
  c_listName : string;
  c_body : option string;
  c_dueDate : option string;
  c_allDayDueDate : option string;
  c_remindMeDate : option string;
  c_priority : option Z
}.

Record UpdateReminderPayload : Type := mkUpdateReminderPayload {
  u_listName : string;
  u_reminderName : string;
  u_newName : option string;
  u_body : option string;
  u_dueDate : option string;
  u_allDayDueDate : option string;
  u_remindMeDate : option string;
  u_priority : option Z;
  u_completed : option bool
}.

Record DeleteReminderPayload : Type := mkDeleteReminderPayload {
  d_listName : string;
  d_reminderName : string
}.

Record CreateListPayload : Type := mkCreateListPayload {
  cl_name : string
}.

Record DeleteListPayload : Type := mkDeleteListPayload {
  dl_name : string
}.

(** The [result] of a [SuccessEnvelope], for each type the helper emits one
    with. *)
Inductive Response : Type :=
| listsResponse (result : list ReminderListRecord)
| remindersResponse (result : ListRemindersResult)
| countResponse (result : CountResult)
| idResponse (result : CreateIdResult)
| emptyResponse (result : EmptyResult).

(** What the helper prints: [SuccessEnvelope] or [ErrorEnvelope]. *)
Inductive Envelope : Type :=
| SuccessEnvelope (result : Response)
| ErrorEnvelope (error : string).

(** What one run of the helper meets: [CommandLine.arguments], the state of
    the permission, the identifier EventKit gives a new object, the current
    date, and the accounts. *)
Record Process : Type := mkProcess {
  arguments : list string;
  authorizationStatus : EKAuthorizationStatus;
  accessRequest : AccessRequest;
  newIdentifier : string;
  currentDate : Date;
  accounts : EKSources
}.

Section Operations.
Context `{F : Foundation}.

(** *** Dates *)

Definition parseISODate (value : string) : option Date :=
  match isoFormatterWithFractionalSeconds_date value with
  | Some parsed => Some parsed
  | None =>
      match isoFormatterWithoutFractionalSeconds_date value with
      | Some parsed => Some parsed
      | None => None
      end
  end.

Definition isoString (value : option Date) : option string :=
  match value with
  | None => None
  | Some value => Some (isoFormatterWithFractionalSeconds_string value)
  end.

Definition dateComponentsFromISO (value : string) : Result DateComponents :=
  match parseISODate value with
  | None => throw (message ("Invalid ISO 8601 date: " ++ value))
  | Some date =>
      ok (calendarDateComponents
            [unitYear; unitMonth; unitDay; unitHour; unitMinute; unitSecond]
            date)
  end.

Definition dateComponentsFromAllDay (value : string) : Result DateComponents :=
  match allDayDateFormatter_date value with
  | None =>
      throw (message
        ("Invalid all-day date format (expected YYYY-MM-DD): " ++ value))
  | Some date => ok (calendarDateComponents [unitYear; unitMonth; unitDay] date)
  end.

Definition dueDate (reminder : EKReminder) : option Date :=
  match dueDateComponents reminder with
  | None => None
  | Some components => calendarDate components
  end.

Definition isNil {A : Type} (o : option A) : bool :=
  match o with
  | None => true
  | Some _ => false
  end.

Definition isAllDayDueDate (reminder : EKReminder) : bool :=
  match dueDateComponents reminder with
  | None => false
  | Some components =>
      isNil (hour components) && isNil (minute components)
      && isNil (second components)
  end.

(** [compactMap] *)
Fixpoint compactMap {A B : Type} (f : A -> option B) (l : list A) : list B :=
  match l with
  | [] => []
  | a :: rest =>
      match f a with
      | Some b => b :: compactMap f rest
      | None => compactMap f rest
      end
  end.

Definition remindMeDate (reminder : EKReminder) : option Date :=
  match alarms reminder with
  | None => None
  | Some alarms => hd_error (sorted Z.ltb (compactMap absoluteDate alarms))
  end.

Definition mapReminder (reminder : EKReminder) : ReminderRecord :=
  let due := dueDate reminder in
  let allDayDue := if isAllDayDueDate reminder then due else None in
  {| rec_id := calendarItemIdentifier reminder;
     rec_name := title reminder;
     rec_body := notes reminder;
     rec_completed := isCompleted reminder;
     rec_completionDate := isoString (completionDate reminder);
     rec_dueDate := isoString due;
     rec_allDayDueDate := isoString allDayDue;
     rec_remindMeDate := isoString (remindMeDate reminder);
     rec_priority := priority reminder;
     rec_creationDate := isoString (creationDate reminder);
     rec_modificationDate := isoString (lastModifiedDate reminder);
     rec_listName := calendarTitle (calendar reminder) |}.

(** *** Sorting *)

(** [lhs.lastModifiedDate ?? lhs.creationDate ?? Date.distantPast] *)
Definition modificationKey (r : EKReminder) : Date :=
  orElse (orElseOpt (lastModifiedDate r) (creationDate r)) Date_distantPast.

(** The first part of the closure of [sortReminders]: the [switch] on the two
    due dates either returns, or falls through to the tie-breakers. *)
Definition compareDue (lhsDue rhsDue : option Date) : option bool :=
  match lhsDue, rhsDue with
  | Some l, Some r => if negb (l =? r) then Some (l <? r) else None
  | None, Some _ => Some false
  | Some _, None => Some true
  | None, None => None
  end.

(** The closure handed to [sorted]. *)
Definition areInIncreasingOrder (lhs rhs : EKReminder) : bool :=
  let lhsDue := dueDate lhs in
  let rhsDue := dueDate rhs in
  match compareDue lhsDue rhsDue with
  | Some answer => answer
  | None =>
      let lhsMod := modificationKey lhs in
      let rhsMod := modificationKey rhs in
      if negb (lhsMod =? rhsMod) then lhsMod >? rhsMod
      else
        match localizedCaseInsensitiveCompare (title lhs) (title rhs) with
        | Lt => true
        | _ => false
        end
  end.

Definition sortReminders (reminders : list EKReminder) : list EKReminder :=
  sorted areInIncreasingOrder reminders.

(** *** Reading *)

Definition allReminderCalendars (store : EKEventStore) : list EKCalendar :=
  calendars store.

Definition calendarByName (name : string) (calendars : list EKCalendar)
    : option EKCalendar :=
  first (fun c => String.eqb (calendarTitle c) name) calendars.

Definition inCalendars (cals : list EKCalendar) (r : EKReminder) : bool :=
  existsb
    (fun c => String.eqb (calendarIdentifier c)
                         (calendarIdentifier (calendar r)))
    cals.

(** [fetchReminders]: the reminders of the given calendars, or of all
    calendars for [nil].  The store is taken to answer within the 55 seconds
    the helper waits for it. *)
Definition fetchReminders (store : EKEventStore)
    (calendars : option (list EKCalendar)) : Result (list EKReminder) :=
  match calendars with
  | None => ok (reminders store)
  | Some cals => ok (filter (inCalendars cals) (reminders store))
  end.

Definition selectCalendars (listName : option string)
    (allCalendars : list EKCalendar) : Result (option (list EKCalendar)) :=
  match listName with
  | None => ok None
  | Some listName =>
      match calendarByName listName allCalendars with
      | None => throw (message ("List '" ++ listName ++ "' not found"))
      | Some calendar => ok (Some [calendar])
      end
  end.

Definition filterCompleted (completed : option bool)
    (reminders : list EKReminder) : list EKReminder :=
  match completed with
  | Some completed =>
      filter (fun r => Bool.eqb (isCompleted r) completed) reminders
  | None => reminders
  end.

Definition operationListReminders (store : EKEventStore)
    (payload : ListRemindersPayload) : Result ListRemindersResult :=
  let calendars := allReminderCalendars store in
  let* selectedCalendars := selectCalendars (lr_listName payload) calendars in
  let* reminders := fetchReminders store selectedCalendars in
  let reminders := filterCompleted (lr_completed payload) reminders in
  let reminders := sortReminders reminders in
  let total := count reminders in
  let safeOffset := Z.max 0 (orElse (lr_offset payload) 0) in
  let safeLimit := Z.max 1 (orElse (lr_limit payload) total) in
  let paged := prefix safeLimit (dropFirst safeOffset reminders) in
  let mapped := map mapReminder paged in
  ok {| res_total := total; res_reminders := mapped |}.

Definition operationCountReminders (store : EKEventStore)
    (payload : CountRemindersPayload) : Result CountResult :=
  let calendars := allReminderCalendars store in
  let* selectedCalendars := selectCalendars (cr_listName payload) calendars in
  let* reminders := fetchReminders store selectedCalendars in
  let reminders := filterCompleted (cr_completed payload) reminders in
  ok {| res_count := count reminders |}.

(** *** Writing *)

(** A mutating operation leaves the store as it was unless it reaches its
    [store.save] or [store.remove]: the outcome is paired with the store the
    operation leaves behind. *)
Definition committed {A : Type} (store : EKEventStore)
    (outcome : Result (A * EKEventStore)) : Result A * EKEventStore :=
  match outcome with
  | inl e => (inl e, store)
  | inr (a, store') => (inr a, store')
  end.

(** [if let v = field { reminder.property = v }] *)
Definition assignIfPresent {V : Type} (field : option V)
    (assign : V -> EKReminder -> EKReminder) (reminder : EKReminder)
    : EKReminder :=
  match field with
  | Some v => assign v reminder
  | None => reminder
  end.

(** [if let dueDate = payload.dueDate
       { reminder.dueDateComponents = try dateComponentsFromISO(dueDate) }] *)
Definition assignDueDate (field : option string) (reminder : EKReminder)
    : Result EKReminder :=
  match field with
  | Some dueDate =>
      let* components := dateComponentsFromISO dueDate in
      ok (set_dueDateComponents (Some components) reminder)
  | None => ok reminder
  end.

(** [if let allDayDueDate = payload.allDayDueDate
       { reminder.dueDateComponents = try dateComponentsFromAllDay(allDayDueDate) }] *)
Definition assignAllDayDueDate (field : option string) (reminder : EKReminder)
    : Result EKReminder :=
  match field with
  | Some allDayDueDate =>
      let* components := dateComponentsFromAllDay allDayDueDate in
      ok (set_dueDateComponents (Some components) reminder)
  | None => ok reminder
  end.

(** [if let remindMeDate = payload.remindMeDate { guard let absoluteDate = ...
       reminder.alarms = [EKAlarm(absoluteDate: absoluteDate)] }] *)
Definition assignRemindMeDate (field : option string) (reminder : EKReminder)
    : Result EKReminder :=
  match field with
  | Some remindMeDate =>
      match parseISODate remindMeDate with
      | None =>
          throw (message ("Invalid ISO 8601 remindMeDate: " ++ remindMeDate))
      | Some absoluteDate =>
          ok (set_alarms (Some [EKAlarm_absoluteDate absoluteDate]) reminder)
      end
  | None => ok reminder
  end.

(** [identifier] is the [calendarItemIdentifier] EventKit gives the new
    object. *)
Definition operationCreateReminder (identifier : string)
    (store : EKEventStore) (payload : CreateReminderPayload)
    : Result CreateIdResult * EKEventStore :=
  committed store (
    let calendars := allReminderCalendars store in
    match calendarByName (c_listName payload) calendars with
    | None =>
        throw (message ("List '" ++ c_listName payload ++ "' not found"))
    | Some calendar =>
        if allWhitespace (c_name payload)
        then throw (message "Reminder name cannot be empty")
        else
          let reminder := newReminder identifier calendar in
          let reminder := set_title (c_name payload) reminder in
          let reminder :=
            assignIfPresent (c_body payload)
              (fun body => set_notes (Some body)) reminder in
          let* reminder := assignDueDate (c_dueDate payload) reminder in
          let* reminder :=
            assignAllDayDueDate (c_allDayDueDate payload) reminder in
          let* reminder :=
            assignRemindMeDate (c_remindMeDate payload) reminder in
          let reminder :=
            assignIfPresent (c_priority payload) set_priority reminder in
          ok ({| res_id := calendarItemIdentifier reminder |},
              save store reminder)
    end).

Definition locateReminderByName (store : EKEventStore)
    (listName reminderName : string) : Result EKReminder :=
  let calendars := allReminderCalendars store in
  match calendarByName listName calendars with
  | None => throw (message ("List '" ++ listName ++ "' not found"))
  | Some calendar =>
      let* reminders := fetchReminders store (Some [calendar]) in
      match first (fun r => String.eqb (title r) reminderName) reminders with
      | None =>
          throw (message ("Reminder '" ++ reminderName
                          ++ "' not found in list '" ++ listName ++ "'"))
      | Some reminder => ok reminder
      end
  end.

(** The guard that opens [operationUpdateReminder]. *)
Definition noUpdates (payload : UpdateReminderPayload) : bool :=
  isNil (u_newName payload) && isNil (u_body payload)
  && isNil (u_dueDate payload) && isNil (u_allDayDueDate payload)
  && isNil (u_remindMeDate payload) && isNil (u_priority payload)
  && isNil (u_completed payload).

(** The assignments of [operationUpdateReminder] to the located object, in
    the order of the source; [now] is [Date()]. *)
Definition applyUpdates (now : Date) (payload : UpdateReminderPayload)
    (reminder : EKReminder) : Result EKReminder :=
  let reminder := assignIfPresent (u_newName payload) set_title reminder in
  let reminder :=
    assignIfPresent (u_body payload)
      (fun body => set_notes (Some body)) reminder in
  let* reminder := assignDueDate (u_dueDate payload) reminder in
  let* reminder := assignAllDayDueDate (u_allDayDueDate payload) reminder in
  let* reminder := assignRemindMeDate (u_remindMeDate payload) reminder in
  let reminder := assignIfPresent (u_priority payload) set_priority reminder in
  let reminder :=
    assignIfPresent (u_completed payload)
      (fun completed r =>
         set_completionDate (if completed then Some now else None)
           (set_isCompleted completed r))
      reminder in
  ok reminder.

Definition operationUpdateReminder (now : Date) (store : EKEventStore)
    (payload : UpdateReminderPayload) : Result EmptyResult * EKEventStore :=
  committed store (
    if noUpdates payload then throw (message "No updates provided")
    else
      let* reminder :=
        locateReminderByName store (u_listName payload)
          (u_reminderName payload) in
      let* reminder := applyUpdates now payload reminder in
      ok (mkEmptyResult, save store reminder)).

Definition operationDeleteReminder (store : EKEventStore)
    (payload : DeleteReminderPayload) : Result EmptyResult * EKEventStore :=
  committed store (
    let* reminder :=
      locateReminderByName store (d_listName payload)
        (d_reminderName payload) in
    ok (mkEmptyResult, remove store reminder)).

(** *** Lists *)

Definition operationListLists (store : EKEventStore)
    : Result (list ReminderListRecord) :=
  let calendars := allReminderCalendars store in
  ok (map (fun cal =>
             {| list_id := calendarIdentifier cal;
                list_name := calendarTitle cal |})
        calendars).

(** [$0.sourceType == .calDAV || $0.sourceType == .local
     || $0.sourceType == .exchange] *)
Definition holdsLists (source : EKSource) : bool :=
  match sourceType source with
  | EKSourceType_calDAV | EKSourceType_local | EKSourceType_exchange => true
  | _ => false
  end.

(** [identifier] is the [calendarIdentifier] EventKit gives the new
    calendar. *)
Definition operationCreateList (identifier : string) (accounts : EKSources)
    (store : EKEventStore) (payload : CreateListPayload)
    : Result CreateIdResult * EKEventStore :=
  committed store (
    let existing := allReminderCalendars store in
    if existsb (fun c => String.eqb (calendarTitle c) (cl_name payload))
         existing
    then throw (message ("List '" ++ cl_name payload ++ "' already exists"))
    else
      let cal := mkCalendar identifier (cl_name payload) in
      let* source :=
        match defaultCalendarSource accounts with
        | Some source => ok source
        | None =>
            match first holdsLists (sources accounts) with
            | Some source => ok source
            | None =>
                match hd_error (sources accounts) with
                | Some source => ok source
                | None =>
                    throw (message
                      "No reminder source available for creating lists")
                end
            end
        end in
      ok ({| res_id := calendarIdentifier cal |}, saveCalendar store cal)).

Definition operationDeleteList (store : EKEventStore)
    (payload : DeleteListPayload) : Result EmptyResult * EKEventStore :=
  committed store (
    let calendars := allReminderCalendars store in
    match calendarByName (dl_name payload) calendars with
    | None =>
        throw (message ("List '" ++ dl_name payload ++ "' not found"))
    | Some cal => ok (mkEmptyResult, removeCalendar store cal)
    end).

(** *** The run of the helper *)

Definition ensureAccess (status : EKAuthorizationStatus)
    (request : AccessRequest) : Result unit :=
  match status with
  | fullAccess => ok tt
  | denied | restricted =>
      throw (message
        "Reminders access denied. Grant full access in System Settings > Privacy & Security > Calendars")
  | notDetermined | writeOnly | unknownStatus =>
      match request with
      | requestTimedOut =>
          throw (message "Timed out waiting for Reminders permission response")
      | requestAnswered granted (Some requestError) => throw requestError
      | requestAnswered granted None =>
          if negb granted
          then throw (message "Reminders permission was not granted")
          else ok tt
      end
  end.

Definition parsePayload (T : Type) `{Decodable T} (json : option string)
    : Result T :=
  let raw := orElse json "{}"%string in
  decode raw.

(** [emitJSON(SuccessEnvelope(result: result))] for the result of an
    operation, with the store the operation leaves. *)
Definition emitting {A : Type} (wrap : A -> Response)
    (outcome : Result A * EKEventStore) : Result Response * EKEventStore :=
  match outcome with
  | (inl e, store) => (inl e, store)
  | (inr result, store) => (inr (wrap result), store)
  end.

(** [let payload = try parsePayload(T.self, from: payloadJSON)] before an
    operation. *)
Definition withPayload (T : Type) `{Decodable T} (payloadJSON : string)
    (store : EKEventStore)
    (operation : T -> Result Response * EKEventStore)
    : Result Response * EKEventStore :=
  match parsePayload T (Some payloadJSON) with
  | inl e => (inl e, store)
  | inr payload => operation payload
  end.

Section Run.
Context `{Decodable ListRemindersPayload} `{Decodable CountRemindersPayload}
  `{Decodable CreateReminderPayload} `{Decodable UpdateReminderPayload}
  `{Decodable DeleteReminderPayload} `{Decodable CreateListPayload}
  `{Decodable DeleteListPayload}.

Definition run (process : Process) (store : EKEventStore)
    : Result Response * EKEventStore :=
  match arguments process with
  | _ :: op :: rest =>
      let payloadJSON :=
        match rest with
        | json :: _ => json
        | [] => "{}"%string
        end in
      match ensureAccess (authorizationStatus process)
              (accessRequest process) with
      | inl e => (inl e, store)
      | inr _ =>
          if String.eqb op "listLists" then
            emitting listsResponse (operationListLists store, store)
          else if String.eqb op "listReminders" then
            withPayload ListRemindersPayload payloadJSON store (fun payload =>
              emitting remindersResponse
                (operationListReminders store payload, store))
          else if String.eqb op "countReminders" then
            withPayload CountRemindersPayload payloadJSON store (fun payload =>
              emitting countResponse
                (operationCountReminders store payload, store))
          else if String.eqb op "createReminder" then
            withPayload CreateReminderPayload payloadJSON store (fun payload =>
              emitting idResponse
                (operationCreateReminder (newIdentifier process) store
                   payload))
          else if String.eqb op "updateReminder" then
            withPayload UpdateReminderPayload payloadJSON store (fun payload =>
              emitting emptyResponse
                (operationUpdateReminder (currentDate process) store payload))
          else if String.eqb op "deleteReminder" then
            withPayload DeleteReminderPayload payloadJSON store (fun payload =>
              emitting emptyResponse (operationDeleteReminder store payload))
          else if String.eqb op "createList" then
            withPayload CreateListPayload payloadJSON store (fun payload =>
              emitting idResponse
                (operationCreateList (newIdentifier process)
                   (accounts process) store payload))
          else if String.eqb op "deleteList" then
            withPayload DeleteListPayload payloadJSON store (fun payload =>
              emitting emptyResponse (operationDeleteList store payload))
          else
            (throw (message ("Unsupported operation: " ++ op)), store)
      end
  | _ => (throw (message "Missing operation argument"), store)
  end.

(** The top level: what is printed, the exit status, and the store the run
    leaves. *)
Definition main (process : Process) (store : EKEventStore)
    : Envelope * Z * EKEventStore :=
  match run process store with
  | (inr response, store') => (SuccessEnvelope response, 0, store')
  | (inl (message text), store') => (ErrorEnvelope text, 1, store')
  end.

End Run.

(** The operations the helper dispatches on. *)
Definition operationNames : list string :=
  ["listLists"; "listReminders"; "countReminders"; "createReminder";
   "updateReminder"; "deleteReminder"; "createList"; "deleteList"]%string.

(** The titles of the lists, and the identifiers of the calendars. *)
Definition listTitles (store : EKEventStore) : list string :=
  map calendarTitle (calendars store).

Definition calendarIdentifiers (store : EKEventStore) : list string :=
  map calendarIdentifier (calendars store).

(** Every stored reminder belongs to a stored calendar. *)
Definition noOrphans (store : EKEventStore) : Prop :=
  forall r,
    In r (reminders store) ->
    In (calendarIdentifier (calendar r)) (calendarIdentifiers store).

(** *** Notions the properties are stated with *)

(** The reminders a (list, completion) filter selects, in the order of the
    fetch: the lines [operationListReminders] and [operationCountReminders]
    both start with. *)
Definition filteredReminders (store : EKEventStore)
    (listName : option string) (completed : option bool)
    : Result (list EKReminder) :=
  let calendars := allReminderCalendars store in
  let* selectedCalendars := selectCalendars listName calendars in
  let* reminders := fetchReminders store selectedCalendars in
  ok (filterCompleted completed reminders).

(** The sort order as its four rules word it: due dates first, a reminder
    with one before a reminder without and earlier before later; then the
    later modification first; then the titles. *)
Definition compareDueDates (lhsDue rhsDue : option Date) : comparison :=
  match lhsDue, rhsDue with
  | Some l, Some r => l ?= r
  | Some _, None => Lt
  | None, Some _ => Gt
  | None, None => Eq
  end.

Definition canonicalCompare (lhs rhs : EKReminder) : comparison :=
  thenBy (compareDueDates (dueDate lhs) (dueDate rhs))
    (thenBy (modificationKey rhs ?= modificationKey lhs)
       (localizedCaseInsensitiveCompare (title lhs) (title rhs))).

(** The lookup by name as the specification words it: the first reminder
    with the name among the reminders of the list in sort order. *)
Definition firstMatchInSortOrder (store : EKEventStore)
    (listName reminderName : string) : Result EKReminder :=
  let calendars := allReminderCalendars store in
  match calendarByName listName calendars with
  | None => throw (message ("List '" ++ listName ++ "' not found"))
  | Some calendar =>
      let* reminders := fetchReminders store (Some [calendar]) in
      match first (fun r => String.eqb (title r) reminderName)
              (sortReminders reminders) with
      | None =>
          throw (message ("Reminder '" ++ reminderName
                          ++ "' not found in list '" ++ listName ++ "'"))
      | Some reminder => ok reminder
      end
  end.

(** A stored reminder that a (list, completion) filter asks for: it belongs
    to the list of that name, if a name is given, and is in the completion
    state, if one is given. *)
Definition selects (store : EKEventStore) (listName : option string)
    (completed : option bool) (r : EKReminder) : Prop :=
  In r (reminders store)
  /\ (forall name,
        listName = Some name ->
        exists list,
          calendarByName name (allReminderCalendars store) = Some list
          /\ calendarIdentifier (calendar r) = calendarIdentifier list)
  /\ (forall state, completed = Some state -> isCompleted r = state).

(** The identifiers of the stored reminders. *)
Definition identifiers (store : EKEventStore) : list string :=
  map calendarItemIdentifier (reminders store).

(** [lhs] goes strictly before [rhs]; neither goes before the other. *)
Definition before (lhs rhs : EKReminder) : Prop :=
  areInIncreasingOrder lhs rhs = true.

Definition tied (lhs rhs : EKReminder) : Prop :=
  areInIncreasingOrder lhs rhs = false /\ areInIncreasingOrder rhs lhs = false.

(** A sequence in which no element goes strictly before an earlier one. *)
Definition inSortOrder (l : list EKReminder) : Prop :=
  StronglySorted (fun earlier later => areInIncreasingOrder later earlier = false) l.

End Operations.
End Helper.

(* ================================================================= *)
(** ** The TypeScript service in front of the helper *)

Set Warnings "-register-all".

(** A JavaScript value as [JSON.parse] produces it.  Numbers are the integers
    the envelopes carry. *)
Inductive JSValue : Type :=
| JNull
| JBool (b : bool)
| JNumber (n : Z)
| JString (s : string)
| JArray (items : list JSValue)
| JObject (fields : list (string * JSValue)).

(** What the JavaScript runtime provides to the service. *)
Class JSRuntime : Type := {
  (** [JSON.parse]; [None] is a thrown [SyntaxError] *)
  JSON_parse : string -> option JSValue;
  (** the time value of [new Date(value)]; [None] is [NaN] *)
  Date_parse : string -> option Date;
  (** [String(v)] for a value that is not a string *)
  ToString : JSValue -> string;
  (** the message of the [TypeError] for reading a property of [null] *)
  nullPropertyMessage : string;
  (** [String.prototype.trim] *)
  trim : string -> string
}.

(** Truthiness of a string: [!value] is [true] for the empty string. *)
Definition nonEmpty (s : string) : bool :=
  match s with
  | EmptyString => false
  | String _ _ => true
  end.

(** [String.prototype.toLowerCase] *)
Class JSString : Type := {
  toLowerCase : string -> string
}.

(** [String.prototype.includes], on the bytes of a string. *)
Fixpoint startsWith (text needle : string) : bool :=
  match needle, text with
  | EmptyString, _ => true
  | String _ _, EmptyString => false
  | String a needle', String b text' =>
      Ascii.eqb a b && startsWith text' needle'
  end.

Fixpoint includes (text needle : string) : bool :=
  startsWith text needle
  || match text with
     | EmptyString => false
     | String _ rest => includes rest needle
     end.

(** [Array.prototype.slice(start, end)] on integers: a negative index counts
    from the end, and both are clamped to the array. *)
Definition slice {A : Type} (start final : Z) (l : list A) : list A :=
  let len := count l in
  let k := if start <? 0 then Z.max (len + start) 0 else Z.min start len in
  let final := if final <? 0 then Z.max (len + final) 0 else Z.min final len in
  firstn (Z.to_nat (final - k)) (skipn (Z.to_nat k) l).

(** [needle] occurs in [text]. *)
Definition mentions (needle text : string) : Prop :=
  exists before after, text = (before ++ needle ++ after)%string.

Module Service.

(** A thrown error, with the [stdout] and [stderr] that [execFile] attaches
    to the error of a failed child process. *)
Record JSError : Type := mkJSError {
  err_message : string;
  err_stdout : option string;
  err_stderr : option string
}.

(** [new Error(message)] *)
Definition Error (msg : string) : JSError :=
  {| err_message := msg; err_stdout := None; err_stderr := None |}.

Definition Outcome (A : Type) : Type := (JSError + A)%type.

(** [interface HelperReminder]: the wire form of a reminder. *)
Record HelperReminder : Type := mkHelperReminder {
  h_id : string;
  h_name : string;
  h_body : option string;
  h_completed : bool;
  h_completionDate : option string;
  h_dueDate : option string;
  h_allDayDueDate : option string;
  h_remindMeDate : option string;
  h_priority : option Z;
  h_creationDate : option string;
  h_modificationDate : option string;
  h_listName : string
}.

(** [interface Reminder]: the canonical reminder. *)
Record Reminder : Type := mkCanonicalReminder {
  id : string;
  name : string;
  body : option string;
  completed : bool;
  completionDate : option Date;
  dueDate : option Date;
  allDayDueDate : option Date;
  remindMeDate : option Date;
  priority : Z;
  creationDate : Date;
  modificationDate : Date;
  listName : string
}.

Section Codec.
Context `{J : JSRuntime}.

Definition parseDate (value : option string) : option Date :=
  match value with
  | None => None
  | Some value => if nonEmpty value then Date_parse value else None
  end.

(** [reminder.body || undefined] *)
Definition nonEmptyOrUndefined (s : option string) : option string :=
  match s with
  | Some v => if nonEmpty v then Some v else None
  | None => None
  end.

(** [now] is [new Date()]. *)
Definition mapReminder (now : Date) (reminder : HelperReminder) : Reminder :=
  {| id := h_id reminder;
     name := h_name reminder;
     body := nonEmptyOrUndefined (h_body reminder);
     completed := h_completed reminder;
     completionDate := parseDate (h_completionDate reminder);
     dueDate := parseDate (h_dueDate reminder);
     allDayDueDate := parseDate (h_allDayDueDate reminder);
     remindMeDate := parseDate (h_remindMeDate reminder);
     priority := orElse (h_priority reminder) 0;
     creationDate := orElse (parseDate (h_creationDate reminder)) now;
     modificationDate := orElse (parseDate (h_modificationDate reminder)) now;
     listName := h_listName reminder |}.

(** Reading a property: [None] is [undefined]. *)
Fixpoint lookupField (key : string) (fields : list (string * JSValue))
    : option JSValue :=
  match fields with
  | [] => None
  | (k, v) :: rest =>
      match lookupField key rest with
      | Some later => Some later
      | None => if String.eqb k key then Some v else None
      end
  end.

(** [parsed.key] for one of the envelope's keys; reading a property of [null]
    throws. *)
Definition getProperty (key : string) (v : JSValue) : Outcome (option JSValue) :=
  match v with
  | JNull => inl (Error nullPropertyMessage)
  | JObject fields => inr (lookupField key fields)
  | _ => inr None
  end.

Definition truthy (v : option JSValue) : bool :=
  match v with
  | None => false
  | Some JNull => false
  | Some (JBool b) => b
  | Some (JNumber n) => negb (n =? 0)
  | Some (JString s) => nonEmpty s
  | Some (JArray _) => true
  | Some (JObject _) => true
  end.

(** The message of [new Error(v)]. *)
Definition messageOf (v : JSValue) : string :=
  match v with
  | JString s => s
  | _ => ToString v
  end.

Definition parseEnvelope (stdout : string) (op : string)
    : Outcome (option JSValue) :=
  let raw := trim stdout in
  if negb (nonEmpty raw)
  then inl (Error ("EventKit helper returned empty response for operation '"
                   ++ op ++ "'"))
  else
    match JSON_parse raw with
    | None =>
        inl (Error ("Failed to parse EventKit helper response for '"
                    ++ op ++ "': " ++ raw))
    | Some parsed =>
        match getProperty "ok" parsed with
        | inl e => inl e
        | inr okField =>
            if negb (truthy okField)
            then
              match getProperty "error" parsed with
              | inl e => inl e
              | inr errorField =>
                  match errorField with
                  | Some v =>
                      if truthy errorField then inl (Error (messageOf v))
                      else inl (Error ("EventKit helper failed for operation '"
                                       ++ op ++ "'"))
                  | None =>
                      inl (Error ("EventKit helper failed for operation '"
                                  ++ op ++ "'"))
                  end
              end
            else getProperty "result" parsed
        end
    end.

(** How [execFileAsync] settles: with the child's standard output when it
    exits with status zero, and with an error otherwise. *)
Inductive ExecOutcome : Type :=
| Resolved (stdout : string)
| Rejected (error : JSError).

(** [err.stdout?.trim()] and [err.stderr?.trim()] as conditions. *)
Definition trimmedNonEmpty (s : option string) : bool :=
  match s with
  | Some v => nonEmpty (trim v)
  | None => false
  end.

(** [runHelper], once the helper is built; [exec] is how the child process
    settles.  The [try] block holds both the [await] and the call of
    [parseEnvelope], so the [catch] block also sees what the latter throws. *)
Definition runHelper (operation : string) (exec : ExecOutcome)
    : Outcome (option JSValue) :=
  let attempt :=
    match exec with
    | Resolved stdout => parseEnvelope stdout operation
    | Rejected error => inl error
    end in
  match attempt with
  | inr result => inr result
  | inl err =>
      if trimmedNonEmpty (err_stdout err)
      then
        match parseEnvelope (orElse (err_stdout err) EmptyString) operation with
        | inr result => inr result
        | inl parseErr => inl (Error (err_message parseErr))
        end
      else
        let details :=
          if trimmedNonEmpty (err_stderr err)
          then trim (orElse (err_stderr err) EmptyString)
          else err_message err in
        inl (Error ("EventKit operation '" ++ operation ++ "' failed: "
                    ++ details))
  end.

(** A timestamp of the wire that is missing, empty, or not a date. *)
Definition absentOrUnparseable (value : option string) : Prop :=
  value = None
  \/ value = Some EmptyString
  \/ exists text, value = Some text /\ Date_parse text = None.

(** What is printed, if anything, is blank or is not JSON. *)
Definition blankOrNotJSON (stdout : string) : Prop :=
  trim stdout = EmptyString \/ JSON_parse (trim stdout) = None.

(** [err.stderr?.trim() || err.message] *)
Definition failureDetails (err : JSError) : string :=
  if trimmedNonEmpty (err_stderr err)
  then trim (orElse (err_stderr err) EmptyString)
  else err_message err.

End Codec.

(** *** The calls of the service into the helper *)

Section Calls.
Context `{F : Foundation} `{J : JSRuntime}.

(** The wire form of a record of the helper: [JSONEncoder] leaves out the
    fields that are [nil]. *)
Definition wire (r : Helper.ReminderRecord) : HelperReminder :=
  {| h_id := Helper.rec_id r;
     h_name := Helper.rec_name r;
     h_body := Helper.rec_body r;
     h_completed := Helper.rec_completed r;
     h_completionDate := Helper.rec_completionDate r;
     h_dueDate := Helper.rec_dueDate r;
     h_allDayDueDate := Helper.rec_allDayDueDate r;
     h_remindMeDate := Helper.rec_remindMeDate r;
     h_priority := Some (Helper.rec_priority r);
     h_creationDate := Helper.rec_creationDate r;
     h_modificationDate := Helper.rec_modificationDate r;
     h_listName := Helper.rec_listName r |}.

(** [Int] is a 64-bit integer: [parsePayload] throws on a number outside its
    range. *)
Definition Int_min : Z := - 2 ^ 63.
Definition Int_max : Z := 2 ^ 63 - 1.

Definition representable (n : Z) : bool :=
  (Int_min <=? n) && (n <=? Int_max).

Definition decodeInt (n : option Z) : Result (option Z) :=
  match n with
  | None => ok None
  | Some v =>
      if representable v then ok (Some v)
      else throw (message decodingErrorDescription)
  end.

(** What [runHelper] gives back for a helper that has access to the store: the
    helper prints the success envelope of its result, or prints the error
    envelope of the message it threw and exits with status 1, and [runHelper]
    returns the former's [result] and throws an [Error] with the latter's
    message, or with the message of [parseEnvelope] for an empty one. *)
Definition helperAnswer {A : Type} (operation : string) (r : Result A)
    : Outcome A :=
  match r with
  | inl (message text) =>
      inl (Error (if nonEmpty text then text
                  else "EventKit helper failed for operation '"
                       ++ operation ++ "'"))
  | inr a => inr a
  end.

(** [runHelper("listReminders", params)] against a store. *)
Definition runListReminders (store : Helper.EKEventStore)
    (listName : option string) (completed : option bool)
    (limit offset : option Z) : Outcome Helper.ListRemindersResult :=
  helperAnswer "listReminders" (
    let* limit := decodeInt limit in
    let* offset := decodeInt offset in
    Helper.operationListReminders store
      (Helper.mkListRemindersPayload listName completed limit offset)).

(** [runHelper("countReminders", params)] against a store. *)
Definition runCountReminders (store : Helper.EKEventStore)
    (listName : option string) (completed : option bool)
    : Outcome Helper.CountResult :=
  helperAnswer "countReminders" (
    Helper.operationCountReminders store
      (Helper.mkCountRemindersPayload listName completed)).



Definition getReminders (now : Date) (store : Helper.EKEventStore)
    (listName : option string) (completed : option bool)
    (limit offset : option Z) : Outcome (list Reminder) :=
  match runListReminders store listName completed limit offset with
  | inl e => inl e
  | inr result =>
      inr (map (fun r => mapReminder now (wire r))
               (Helper.res_reminders result))
  end.

Definition getReminderCount (store : Helper.EKEventStore)
    (listName : option string) (completed : option bool) : Outcome Z :=
  match runCountReminders store listName completed with
  | inl e => inl e
  | inr result => inr (Helper.res_count result)
  end.

(** The canonical reminder a stored reminder reaches the caller as: through
    the helper's [mapReminder], the wire, and the service's [mapReminder]. *)
Definition canonical (now : Date) (reminder : Helper.EKReminder) : Reminder :=
  mapReminder now (wire (Helper.mapReminder reminder)).

(** The dates of a stored reminder that the helper writes to the wire. *)
Definition wireDates (reminder : Helper.EKReminder) : list Date :=
  Helper.compactMap (fun d : option Date => d)
    [Helper.completionDate reminder; Helper.dueDate reminder;
     Helper.remindMeDate reminder; Helper.creationDate reminder;
     Helper.lastModifiedDate reminder].

(** The service reads back the text the helper writes for a date. *)
Definition survivesWire (date : Date) : Prop :=
  parseDate (Helper.isoString (Some date)) = Some date.

End Calls.
End Service.

(* ================================================================= *)
(** ** The [reminders_list] tool *)

Module Tools.






Section Handler.
Context `{F : Foundation} `{J : JSRuntime}.


End Handler.

(** The arguments of [reminders_search] after [SearchRemindersSchema]. *)
Record SearchRemindersParams : Type := mkSearchRemindersParams {
  s_query : string;
  s_listName : option string;
  s_completed : option bool;
  s_limit : Z;
  s_offset : Z
}.

Record SearchOutput : Type := mkSearchOutput {
  so_total : Z;
  so_count : Z;
  so_offset : Z;
  so_query : string;
  so_reminders : list Service.Reminder;
  so_hasMore : bool;
  so_nextOffset : option Z
}.

Section Search.
Context `{F : Foundation} `{J : JSRuntime} `{L : JSString}.

(** The handler of [reminders_search]: the [output] object it builds, or
    the text of the error answer it gives when the service throws.  How the
    output is then rendered is not part of it. *)
Definition reminders_search (now : Date) (store : Helper.EKEventStore)
    (params : SearchRemindersParams) : string + SearchOutput :=
  match Service.getReminders now store (s_listName params)
          (s_completed params) None None with
  | inl error =>
      inl ("Error searching reminders: " ++ Service.err_message error)%string
  | inr allReminders =>
      let queryLower := toLowerCase (s_query params) in
      let matchedReminders :=
        filter (fun r => includes (toLowerCase (Service.name r)) queryLower)
          allReminders in
      let total := count matchedReminders in
      let paginatedReminders :=
        slice (s_offset params) (s_offset params + s_limit params)
          matchedReminders in
      let hasMore := s_offset params + s_limit params <? total in
      inr {| so_total := total;
             so_count := count paginatedReminders;
             so_offset := s_offset params;
             so_query := s_query params;
             so_reminders := paginatedReminders;
             so_hasMore := hasMore;
             so_nextOffset :=
               if hasMore then Some (s_offset params + s_limit params)
               else None |}
  end.

(** A stored reminder whose name holds the query, whatever the case of the
    letters. *)
Definition matches (query : string) (reminder : Helper.EKReminder) : bool :=
  includes (toLowerCase (Helper.title reminder)) (toLowerCase query).

End Search.




End Tools.

(* ================================================================= *)
(** ** The AppleScript service *)

Module AppleScript.

Definition doubleQuote : ascii := "034"%char.
Definition singleQuote : ascii := "039"%char.
Definition backslash : ascii := "092"%char.

(** [str.replace(/c/g, replacement)] for a pattern that is one character
    and a replacement without [$]. *)
Fixpoint replaceAll (c : ascii) (replacement : string) (str : string)
    : string :=
  match str with
  | EmptyString => EmptyString
  | String x rest =>
      if Ascii.eqb x c then (replacement ++ replaceAll c replacement rest)%string
      else String x (replaceAll c replacement rest)
  end.

Definition escapeAppleScriptString (str : string) : string :=
  replaceAll doubleQuote (String backslash (String doubleQuote EmptyString))
    (replaceAll backslash (String backslash (String backslash EmptyString))
       str).

(** The command line [runAppleScript] hands to the shell. *)
Definition osascriptCommand (script : string) : string :=
  ("osascript -e '"
   ++ replaceAll singleQuote
        (String singleQuote
           (String backslash (String singleQuote (String singleQuote
              EmptyString))))
        script
   ++ "'")%string.

(** *** How the text is read back *)

(** An AppleScript string literal, from after its opening quote: the text
    up to the closing quote, and what follows the literal.  A backslash
    stands with the next character for a backslash, a quote, a line feed, a
    return or a tab. *)
Definition escaped (c : ascii) : option ascii :=
  if Ascii.eqb c backslash then Some backslash
  else if Ascii.eqb c doubleQuote then Some doubleQuote
  else if Ascii.eqb c "n"%char then Some "010"%char
  else if Ascii.eqb c "r"%char then Some "013"%char
  else if Ascii.eqb c "t"%char then Some "009"%char
  else None.

Definition after (c : ascii) (read : option (string * string))
    : option (string * string) :=
  match read with
  | Some (text, tail) => Some (String c text, tail)
  | None => None
  end.

Fixpoint readLiteral (s : string) : option (string * string) :=
  match s with
  | EmptyString => None
  | String c rest =>
      if Ascii.eqb c doubleQuote then Some (EmptyString, rest)
      else if Ascii.eqb c backslash then
        match rest with
        | EmptyString => None
        | String e rest' =>
            match escaped e with
            | Some c' => after c' (readLiteral rest')
            | None => None
            end
        end
      else after c (readLiteral rest)
  end.

(** The words the shell reads from a command line made of plain characters,
    blanks, single quotes and backslashes: between single quotes every
    character stands for itself; outside them a backslash makes the next
    character stand for itself and a blank ends a word.  [word] is the word
    being read, if one has begun.  A character with another meaning to the
    shell outside quotes is not read. *)
Definition plain (c : ascii) : bool :=
  let n := N_of_ascii c in
  ((48 <=? n) && (n <=? 57) || (65 <=? n) && (n <=? 90)
   || (97 <=? n) && (n <=? 122) || (n =? 45) || (n =? 95)
   || (n =? 46) || (n =? 47))%N.

Definition grown (word : option string) (c : ascii) : option string :=
  Some (orElse word EmptyString ++ String c EmptyString)%string.

Definition finished (word : option string) (words : list string)
    : list string :=
  match word with
  | Some w => words ++ [w]
  | None => words
  end.

Fixpoint readWords (quoted : bool) (words : list string)
    (word : option string) (s : string) : option (list string) :=
  match s with
  | EmptyString => if quoted then None else Some (finished word words)
  | String c rest =>
      if quoted then
        if Ascii.eqb c singleQuote then readWords false words word rest
        else readWords true words (grown word c) rest
      else if Ascii.eqb c singleQuote then
        readWords true words (Some (orElse word EmptyString)) rest
      else if Ascii.eqb c backslash then
        match rest with
        | EmptyString => None
        | String e rest' => readWords false words (grown word e) rest'
        end
      else if Ascii.eqb c " "%char then
        readWords false (finished word words) None rest
      else if plain c then readWords false words (grown word c) rest
      else None
  end.

End AppleScript.

(* ================================================================= *)
(** ** A reference platform

    One platform on which everything above runs: the proleptic Gregorian
    calendar in UTC, ISO 8601 texts with the [Z] designator, comparison of
    titles after folding ASCII letters, and a JSON reader for texts without
    escapes, fractions and exponents. *)

Module Reference.

(** *** Calendar arithmetic *)

Definition daysFromCivil (y m d : Z) : Z :=
  let y' := if m <=? 2 then y - 1 else y in
  let era := y' / 400 in
  let yoe := y' - era * 400 in
  let mp := (m + 9) mod 12 in
  let doy := (153 * mp + 2) / 5 + d - 1 in
  let doe := yoe * 365 + yoe / 4 - yoe / 100 + doy in
  era * 146097 + doe - 719468.

Definition civilFromDays (z : Z) : Z * Z * Z :=
  let z' := z + 719468 in
  let era := z' / 146097 in
  let doe := z' - era * 146097 in
  let yoe := (doe - doe / 1460 + doe / 36524 - doe / 146096) / 365 in
  let doy := doe - (365 * yoe + yoe / 4 - yoe / 100) in
  let mp := (5 * doy + 2) / 153 in
  let d := doy - (153 * mp + 2) / 5 + 1 in
  let m := if mp <? 10 then mp + 3 else mp - 9 in
  let y := yoe + era * 400 in
  (if m <=? 2 then y + 1 else y, m, d).

Definition instant (y m d h mi s ms : Z) : Date :=
  (((daysFromCivil y m d * 24 + h) * 60 + mi) * 60 + s) * 1000 + ms.

Definition field (u : CalendarUnit) (date : Date) : Z :=
  let secs := date / 1000 in
  let '(y, m, d) := civilFromDays (secs / 86400) in
  let rest := secs mod 86400 in
  match u with
  | unitYear => y
  | unitMonth => m
  | unitDay => d
  | unitHour => rest / 3600
  | unitMinute => (rest / 60) mod 60
  | unitSecond => rest mod 60
  end.

Definition dateOfComponents (c : DateComponents) : option Date :=
  Some (instant (orElse (year c) 1) (orElse (month c) 1) (orElse (day c) 1)
          (orElse (hour c) 0) (orElse (minute c) 0) (orElse (second c) 0) 0).

(** *** Reading and writing ISO 8601 *)

Definition isDigit (c : ascii) : bool :=
  let n := N_of_ascii c in (48 <=? n)%N && (n <=? 57)%N.

Definition digitValue (c : ascii) : Z := Z.of_N (N_of_ascii c) - 48.

Fixpoint digitsFrom (acc : Z) (s : string) : option Z :=
  match s with
  | EmptyString => Some acc
  | String c rest =>
      if isDigit c then digitsFrom (acc * 10 + digitValue c) rest else None
  end.

(** The number written in the [len] characters from [start], all of them
    digits. *)
Definition numberAt (start len : nat) (s : string) : option Z :=
  let part := substring start len s in
  if Nat.eqb (String.length part) len then digitsFrom 0 part else None.

Definition charAt (i : nat) (c : ascii) (s : string) : bool :=
  match get i s with
  | Some x => Ascii.eqb x c
  | None => false
  end.

Definition within (lo v hi : Z) : bool := (lo <=? v) && (v <=? hi).

Definition readDate (s : string) : option (Z * Z * Z) :=
  match numberAt 0 4 s, numberAt 5 2 s, numberAt 8 2 s with
  | Some y, Some m, Some d =>
      if charAt 4 "-" s && charAt 7 "-" s && within 1 m 12 && within 1 d 31
      then Some (y, m, d) else None
  | _, _, _ => None
  end.

Definition readTime (s : string) : option (Z * Z * Z) :=
  match numberAt 11 2 s, numberAt 14 2 s, numberAt 17 2 s with
  | Some h, Some mi, Some sec =>
      if charAt 10 "T" s && charAt 13 ":" s && charAt 16 ":" s
         && within 0 h 23 && within 0 mi 59 && within 0 sec 59
      then Some (h, mi, sec) else None
  | _, _, _ => None
  end.

(** [YYYY-MM-DDTHH:MM:SSZ] *)
Definition readInternetDateTime (s : string) : option Date :=
  match readDate s, readTime s with
  | Some (y, m, d), Some (h, mi, sec) =>
      if Nat.eqb (String.length s) 20 && charAt 19 "Z" s
      then Some (instant y m d h mi sec 0) else None
  | _, _ => None
  end.

(** [YYYY-MM-DDTHH:MM:SS.mmmZ] *)
Definition readFractionalDateTime (s : string) : option Date :=
  match readDate s, readTime s, numberAt 20 3 s with
  | Some (y, m, d), Some (h, mi, sec), Some ms =>
      if Nat.eqb (String.length s) 24 && charAt 19 "." s && charAt 23 "Z" s
      then Some (instant y m d h mi sec ms) else None
  | _, _, _ => None
  end.

(** [YYYY-MM-DD] *)
Definition readAllDay (s : string) : option Date :=
  match readDate s with
  | Some (y, m, d) =>
      if Nat.eqb (String.length s) 10 then Some (instant y m d 0 0 0 0)
      else None
  | None => None
  end.

Definition digitChar (v : Z) : ascii := ascii_of_N (Z.to_N (48 + v mod 10)).

Fixpoint padded (width : nat) (v : Z) (tail : string) : string :=
  match width with
  | O => tail
  | S w => padded w (v / 10) (String (digitChar v) tail)
  end.

Definition writeFractionalDateTime (date : Date) : string :=
  padded 4 (field unitYear date)
    ("-" ++ padded 2 (field unitMonth date)
    ("-" ++ padded 2 (field unitDay date)
    ("T" ++ padded 2 (field unitHour date)
    (":" ++ padded 2 (field unitMinute date)
    (":" ++ padded 2 (field unitSecond date)
    ("." ++ padded 3 (date mod 1000) "Z")))))).

(** *** Comparing titles *)

Definition foldCase (c : ascii) : ascii :=
  let n := N_of_ascii c in
  if (65 <=? n)%N && (n <=? 90)%N then ascii_of_N (n + 32) else c.

Fixpoint foldCaseString (s : string) : string :=
  match s with
  | EmptyString => EmptyString
  | String c rest => String (foldCase c) (foldCaseString rest)
  end.

Definition caseInsensitiveCompare (a b : string) : comparison :=
  String.compare (foldCaseString a) (foldCaseString b).

(** *** White space *)

(** The text whose UTF-8 bytes are given. *)
Fixpoint bytes (l : list N) : string :=
  match l with
  | [] => EmptyString
  | b :: rest => String (ascii_of_N b) (bytes rest)
  end.

(** The characters of the general categories Zs, Zl and Zp, and the
    controls U+0009 to U+000D. *)
Definition separators : list string :=
  map bytes
    [[9]; [10]; [11]; [12]; [13]; [32]; [194; 160]; [225; 154; 128];
     [226; 128; 128]; [226; 128; 129]; [226; 128; 130]; [226; 128; 131];
     [226; 128; 132]; [226; 128; 133]; [226; 128; 134]; [226; 128; 135];
     [226; 128; 136]; [226; 128; 137]; [226; 128; 138]; [226; 128; 168];
     [226; 128; 169]; [226; 128; 175]; [226; 129; 159]; [227; 128; 128]]%N.

(** [CharacterSet.whitespacesAndNewlines]: the separators and U+0085. *)
Definition whitespacesAndNewlines : list string :=
  bytes [194; 133]%N :: separators.

(** The white space and line terminators of JavaScript: the separators and
    U+FEFF. *)
Definition whiteSpace : list string :=
  bytes [239; 187; 191]%N :: separators.

Fixpoint withoutPrefix (p s : string) : option string :=
  match p, s with
  | EmptyString, _ => Some s
  | String _ _, EmptyString => None
  | String a p', String b s' =>
      if Ascii.eqb a b then withoutPrefix p' s' else None
  end.

Fixpoint withoutOne (set : list string) (s : string) : option string :=
  match set with
  | [] => None
  | p :: others =>
      match withoutPrefix p s with
      | Some rest => Some rest
      | None => withoutOne others s
      end
  end.

Fixpoint withoutLeading (set : list string) (fuel : nat) (s : string)
    : string :=
  match fuel with
  | O => s
  | S fuel' =>
      match withoutOne set s with
      | Some rest => withoutLeading set fuel' rest
      | None => s
      end
  end.

Fixpoint reversed (acc s : string) : string :=
  match s with
  | EmptyString => acc
  | String c rest => reversed (String c acc) rest
  end.

(** What is left of a text without the characters of [set] at its two
    ends. *)
Definition trimmed (set : list string) (s : string) : string :=
  let leading := withoutLeading set (String.length s) s in
  reversed EmptyString
    (withoutLeading (map (reversed EmptyString) set) (String.length leading)
       (reversed EmptyString leading)).

#[export] Instance utc : Foundation := {
  isoFormatterWithFractionalSeconds_date := readFractionalDateTime;
  isoFormatterWithoutFractionalSeconds_date := readInternetDateTime;
  isoFormatterWithFractionalSeconds_string := writeFractionalDateTime;
  allDayDateFormatter_date := readAllDay;
  calendarField := field;
  calendarDate := dateOfComponents;
  localizedCaseInsensitiveCompare := caseInsensitiveCompare;
  decodingErrorDescription :=
    "The data couldn't be read because it isn't in the correct format.";
  trimmingWhitespacesAndNewlines := trimmed whitespacesAndNewlines
}.

(** *** Reading JSON *)

Definition quote : ascii := "034"%char.

Definition isJSONSpace (c : ascii) : bool :=
  let n := N_of_ascii c in
  (n =? 32)%N || (n =? 9)%N || (n =? 10)%N || (n =? 13)%N.

Fixpoint skipSpaces (cs : list ascii) : list ascii :=
  match cs with
  | c :: rest => if isJSONSpace c then skipSpaces rest else cs
  | [] => []
  end.

(** The characters of a string literal after its opening quote. *)
Fixpoint readStringBody (cs : list ascii) : option (string * list ascii) :=
  match cs with
  | [] => None
  | c :: rest =>
      if Ascii.eqb c quote then Some (EmptyString, rest)
      else if Ascii.eqb c "\" || (N_of_ascii c <? 32)%N then None
      else
        match readStringBody rest with
        | Some (s, rest') => Some (String c s, rest')
        | None => None
        end
  end.

Fixpoint readDigits (acc : Z) (cs : list ascii) : Z * list ascii :=
  match cs with
  | c :: rest =>
      if isDigit c then readDigits (acc * 10 + digitValue c) rest
      else (acc, cs)
  | [] => (acc, [])
  end.

Definition startsWithDigit (cs : list ascii) : bool :=
  match cs with
  | c :: _ => isDigit c
  | [] => false
  end.

Fixpoint dropPrefix (word : list ascii) (cs : list ascii)
    : option (list ascii) :=
  match word, cs with
  | [], _ => Some cs
  | w :: word', c :: rest =>
      if Ascii.eqb w c then dropPrefix word' rest else None
  | _ :: _, [] => None
  end.

Fixpoint readValue (fuel : nat) (cs : list ascii)
    : option (JSValue * list ascii) :=
  match fuel with
  | O => None
  | S fuel' =>
      match skipSpaces cs with
      | [] => None
      | c :: rest =>
          if Ascii.eqb c "{" then
            match skipSpaces rest with
            | "}"%char :: rest' => Some (JObject [], rest')
            | _ => readMembers fuel' rest []
            end
          else if Ascii.eqb c "[" then
            match skipSpaces rest with
            | "]"%char :: rest' => Some (JArray [], rest')
            | _ => readItems fuel' rest []
            end
          else if Ascii.eqb c quote then
            match readStringBody rest with
            | Some (s, rest') => Some (JString s, rest')
            | None => None
            end
          else if Ascii.eqb c "-" then
            if startsWithDigit rest
            then let '(n, rest') := readDigits 0 rest in
                 Some (JNumber (- n), rest')
            else None
          else if isDigit c then
            let '(n, rest') := readDigits 0 (c :: rest) in
            Some (JNumber n, rest')
          else
            match dropPrefix (list_ascii_of_string "true") (c :: rest) with
            | Some rest' => Some (JBool true, rest')
            | None =>
            match dropPrefix (list_ascii_of_string "false") (c :: rest) with
            | Some rest' => Some (JBool false, rest')
            | None =>
            match dropPrefix (list_ascii_of_string "null") (c :: rest) with
            | Some rest' => Some (JNull, rest')
            | None => None
            end end end
      end
  end
with readItems (fuel : nat) (cs : list ascii) (acc : list JSValue)
    : option (JSValue * list ascii) :=
  match fuel with
  | O => None
  | S fuel' =>
      match readValue fuel' cs with
      | None => None
      | Some (v, rest) =>
          match skipSpaces rest with
          | ","%char :: rest' => readItems fuel' rest' (acc ++ [v])%list
          | "]"%char :: rest' => Some (JArray (acc ++ [v])%list, rest')
          | _ => None
          end
      end
  end
with readMembers (fuel : nat) (cs : list ascii)
    (acc : list (string * JSValue)) : option (JSValue * list ascii) :=
  match fuel with
  | O => None
  | S fuel' =>
      match skipSpaces cs with
      | c :: rest =>
          if Ascii.eqb c quote then
            match readStringBody rest with
            | None => None
            | Some (key, rest1) =>
                match skipSpaces rest1 with
                | ":"%char :: rest2 =>
                    match readValue fuel' rest2 with
                    | None => None
                    | Some (v, rest3) =>
                        match skipSpaces rest3 with
                        | ","%char :: rest4 =>
                            readMembers fuel' rest4 (acc ++ [(key, v)])%list
                        | "}"%char :: rest4 =>
                            Some (JObject (acc ++ [(key, v)])%list, rest4)
                        | _ => None
                        end
                    end
                | _ => None
                end
            end
          else None
      | [] => None
      end
  end.

(** A text is read with enough fuel for every character of it; what follows
    the value must be blank. *)
Definition readJSON (text : string) : option JSValue :=
  let cs := list_ascii_of_string text in
  match readValue (S (List.length cs)) cs with
  | Some (v, rest) =>
      match skipSpaces rest with
      | [] => Some v
      | _ :: _ => None
      end
  | None => None
  end.

(** [new Date(value)] on the three date forms. *)
Definition readAnyDate (s : string) : option Date :=
  orElseOpt (readFractionalDateTime s)
    (orElseOpt (readInternetDateTime s) (readAllDay s)).

Fixpoint decimalDigits (fuel : nat) (v : Z) (tail : string) : string :=
  match fuel with
  | O => tail
  | S fuel' =>
      if v <? 10 then String (digitChar v) tail
      else decimalDigits fuel' (v / 10) (String (digitChar v) tail)
  end.

Definition decimal (v : Z) : string :=
  let digits n := decimalDigits (S (Z.to_nat (Z.log2 n))) n EmptyString in
  if v <? 0 then ("-" ++ digits (- v))%string else digits v.

Fixpoint toString (v : JSValue) : string :=
  match v with
  | JNull => "null"%string
  | JBool true => "true"%string
  | JBool false => "false"%string
  | JNumber n => decimal n
  | JString s => s
  | JArray items =>
      (fix join (l : list JSValue) : string :=
         match l with
         | [] => EmptyString
         | x :: rest =>
             let text :=
               match x with JNull => EmptyString | _ => toString x end in
             match rest with
             | [] => text
             | _ :: _ => (text ++ "," ++ join rest)%string
             end
         end) items
  | JObject _ => "[object Object]"%string
  end.

#[export] Instance engine : JSRuntime := {
  JSON_parse := readJSON;
  Date_parse := readAnyDate;
  ToString := toString;
  nullPropertyMessage := "Cannot read properties of null (reading 'ok')";
  trim := trimmed whiteSpace
}.

#[export] Instance lowerCase : JSString := {
  toLowerCase := foldCaseString
}.

(** [JSONDecoder] on the payloads of the helper: a key that is required and
    missing, a value of another type, or text that is not a JSON object is
    an error; a key that is optional may be missing or [null]. *)
Definition unreadable {A : Type} : Result A :=
  throw (message decodingErrorDescription).

Definition member (key : string) (v : JSValue) : option JSValue :=
  match v with
  | JObject fields => Service.lookupField key fields
  | _ => None
  end.

Definition requiredString (key : string) (v : JSValue) : Result string :=
  match member key v with
  | Some (JString text) => ok text
  | _ => unreadable
  end.

Definition optionalString (key : string) (v : JSValue)
    : Result (option string) :=
  match member key v with
  | None | Some JNull => ok None
  | Some (JString text) => ok (Some text)
  | _ => unreadable
  end.

Definition optionalBool (key : string) (v : JSValue) : Result (option bool) :=
  match member key v with
  | None | Some JNull => ok None
  | Some (JBool b) => ok (Some b)
  | _ => unreadable
  end.

Definition optionalInt (key : string) (v : JSValue) : Result (option Z) :=
  match member key v with
  | None | Some JNull => ok None
  | Some (JNumber n) => Service.decodeInt (Some n)
  | _ => unreadable
  end.

Definition decodeObject {T : Type} (read : JSValue -> Result T)
    (text : string) : Result T :=
  match readJSON text with
  | Some (JObject fields) => read (JObject fields)
  | _ => unreadable
  end.

#[export] Instance decodeListRemindersPayload
    : Decodable Helper.ListRemindersPayload := {
  decode := decodeObject (fun v =>
    let* listName := optionalString "listName" v in
    let* completed := optionalBool "completed" v in
    let* limit := optionalInt "limit" v in
    let* offset := optionalInt "offset" v in
    ok (Helper.mkListRemindersPayload listName completed limit offset))
}.

#[export] Instance decodeCountRemindersPayload
    : Decodable Helper.CountRemindersPayload := {
  decode := decodeObject (fun v =>
    let* listName := optionalString "listName" v in
    let* completed := optionalBool "completed" v in
    ok (Helper.mkCountRemindersPayload listName completed))
}.

#[export] Instance decodeCreateReminderPayload
    : Decodable Helper.CreateReminderPayload := {
  decode := decodeObject (fun v =>
    let* name := requiredString "name" v in
    let* listName := requiredString "listName" v in
    let* body := optionalString "body" v in
    let* dueDate := optionalString "dueDate" v in
    let* allDayDueDate := optionalString "allDayDueDate" v in
    let* remindMeDate := optionalString "remindMeDate" v in
    let* priority := optionalInt "priority" v in
    ok (Helper.mkCreateReminderPayload name listName body dueDate
          allDayDueDate remindMeDate priority))
}.

#[export] Instance decodeUpdateReminderPayload
    : Decodable Helper.UpdateReminderPayload := {
  decode := decodeObject (fun v =>
    let* listName := requiredString "listName" v in
    let* reminderName := requiredString "reminderName" v in
    let* newName := optionalString "newName" v in
    let* body := optionalString "body" v in
    let* dueDate := optionalString "dueDate" v in
    let* allDayDueDate := optionalString "allDayDueDate" v in
    let* remindMeDate := optionalString "remindMeDate" v in
    let* priority := optionalInt "priority" v in
    let* completed := optionalBool "completed" v in
    ok (Helper.mkUpdateReminderPayload listName reminderName newName body
          dueDate allDayDueDate remindMeDate priority completed))
}.

#[export] Instance decodeDeleteReminderPayload
    : Decodable Helper.DeleteReminderPayload := {
  decode := decodeObject (fun v =>
    let* listName := requiredString "listName" v in
    let* reminderName := requiredString "reminderName" v in
    ok (Helper.mkDeleteReminderPayload listName reminderName))
}.

#[export] Instance decodeCreateListPayload
    : Decodable Helper.CreateListPayload := {
  decode := decodeObject (fun v =>
    let* name := requiredString "name" v in
    ok (Helper.mkCreateListPayload name))
}.

#[export] Instance decodeDeleteListPayload
    : Decodable Helper.DeleteListPayload := {
  decode := decodeObject (fun v =>
    let* name := requiredString "name" v in
    ok (Helper.mkDeleteListPayload name))
}.

End Reference.

(* ================================================================= *)
(** ** A sample store

    Two lists on the reference platform.  "Work" holds two reminders named
    "Call": the store reports the one without a due date first. *)

Module Sample.
Import Helper.

Definition work : EKCalendar := mkCalendar "cal-work" "Work".
Definition home : EKCalendar := mkCalendar "cal-home" "Home".

Definition march (d h : Z) : Date := Reference.instant 2024 3 d h 0 0 0.

Definition allDay (y m d : Z) : DateComponents :=
  mkDateComponents (Some y) (Some m) (Some d) None None None.

Definition timed (y m d h mi s : Z) : DateComponents :=
  mkDateComponents (Some y) (Some m) (Some d) (Some h) (Some mi) (Some s).

Definition callBack : EKReminder :=
  mkReminder "r1" work "Call" None false None None None 0
    (Some (march 1 8)) (Some (march 2 8)).

Definition callDentist : EKReminder :=
  mkReminder "r2" work "Call" (Some "before noon"%string) false None
    (Some (allDay 2024 3 5))
    (Some [EKAlarm_absoluteDate (march 5 9); EKAlarm_relativeOffset (-600);
           EKAlarm_absoluteDate (march 4 18)])
    5 (Some (march 1 9)) (Some (march 1 9)).

Definition report : EKReminder :=
  mkReminder "r3" work "Submit report" None true (Some (march 9 17))
    (Some (timed 2024 3 10 9 0 0)) None 9 (Some (march 1 10)) None.

Definition milk : EKReminder :=
  mkReminder "r4" home "Milk" None false None None None 0
    (Some (march 3 8)) (Some (march 3 8)).

Definition agenda : EKReminder :=
  mkReminder "r5" work "agenda" None false None None None 1
    (Some (march 2 8)) None.

Definition store : EKEventStore :=
  mkStore [work; home] [callBack; callDentist; report; milk; agenda].

(** A creation and an update that give both forms of the due date and a
    notification date; an update of the completion alone; a deletion. *)
Definition createEggs : CreateReminderPayload :=
  mkCreateReminderPayload "Eggs" "Home" None
    (Some "2024-03-10T12:30:00Z"%string) (Some "2024-03-12"%string)
    (Some "2024-03-11T18:00:00.500Z"%string) (Some 5).

Definition updateCallDates : UpdateReminderPayload :=
  mkUpdateReminderPayload "Work" "Call" None None
    (Some "2024-03-10T12:30:00Z"%string) (Some "2024-03-12"%string)
    (Some "2024-03-11T18:00:00.500Z"%string) None None.

Definition completeCall : UpdateReminderPayload :=
  mkUpdateReminderPayload "Work" "Call" None None None None None None
    (Some true).

Definition deleteCall : DeleteReminderPayload :=
  mkDeleteReminderPayload "Work" "Call".

(** An account, a list to make and lists to delete, and a run of the helper
    that is asked for the permission and gets no answer. *)
Definition iCloud : EKSource := mkSource "src-icloud" EKSourceType_calDAV.

Definition someAccounts : EKSources := mkSources None [iCloud].

Definition createChores : CreateListPayload := mkCreateListPayload "Chores".

Definition deleteWork : DeleteListPayload := mkDeleteListPayload "Work".

Definition invocation (status : EKAuthorizationStatus) (args : list string)
    : Process :=
  mkProcess ("reminders-eventkit-helper"%string :: args) status
    requestTimedOut "r6" (march 6 12) someAccounts.

(** A search for the reminders of one list whose name holds "CALL". *)
Definition searchCall : Tools.SearchRemindersParams :=
  Tools.mkSearchRemindersParams "CALL" (Some "Work"%string) None 1 1.

(** The error envelope the helper prints for a list that does not exist. *)
Definition quoted (s : string) : string :=
  String Reference.quote (s ++ String Reference.quote EmptyString).

Definition errorEnvelope : string :=
  ("{" ++ quoted "ok" ++ ":false," ++ quoted "error" ++ ":"
   ++ quoted "List 'Chores' not found" ++ "}")%string.

(** A no-break space, and a success envelope between two of them. *)
Definition nbsp : string := Reference.bytes [194; 160]%N.

Definition resultSeven : string :=
  (nbsp ++ "{" ++ quoted "ok" ++ ":true," ++ quoted "result" ++ ":7}"
   ++ nbsp)%string.

Definition createBlank : CreateReminderPayload :=
  mkCreateReminderPayload nbsp "Home" None None None None None.

Definition failedHelper : Service.JSError :=
  Service.mkJSError "Command failed: reminders-eventkit-helper deleteList"
    (Some (errorEnvelope ++ String "010"%char EmptyString)%string)
    (Some EmptyString).

Definition missingHelper : Service.JSError :=
  Service.mkJSError "spawn reminders-eventkit-helper ENOENT" None None.

(** A wire record without a completion date, with a due date that is not a
    date, an empty creation date and a well-formed modification date. *)
Definition wireRecord : Service.HelperReminder :=
  Service.mkHelperReminder "r7" "Water plants" None false
    None (Some "soon"%string) None None (Some 0)
    (Some EmptyString) (Some "2024-03-01T09:00:00.000Z"%string) "Home".

End Sample.

(* ================================================================= *)
(** * Properties *)

(** ** Three-way comparisons *)

Section Comparisons.
Context {A : Type}.

Lemma lawful_refl (cmp : A -> A -> comparison) :
  Lawful cmp -> forall a, cmp a a = Eq.
Proof.
  intros L a. pose proof (lawful_swap cmp L a a) as E.
  destruct (cmp a a); simpl in E; congruence.
Qed.

Lemma lawful_lt_gt (cmp : A -> A -> comparison) :
  Lawful cmp -> forall a b, cmp a b = Lt <-> cmp b a = Gt.
Proof.
  intros L a b. rewrite (lawful_swap cmp L a b).
  destruct (cmp a b); simpl; split; congruence.
Qed.

Lemma lawful_eq_sym (cmp : A -> A -> comparison) :
  Lawful cmp -> forall a b, cmp a b = Eq -> cmp b a = Eq.
Proof.
  intros L a b E. rewrite (lawful_swap cmp L a b), E. reflexivity.
Qed.

(** In a chain [a <= b <= c] whose ends are equivalent, all three are. *)
Lemma lawful_squeeze (cmp : A -> A -> comparison) :
  Lawful cmp ->
  forall a b c, cmp a b <> Gt -> cmp b c <> Gt -> cmp a c = Eq ->
  cmp a b = Eq /\ cmp b c = Eq.
Proof.
  intros L a b c Hab Hbc Hac.
  assert (Hca : cmp c a <> Gt)
    by (rewrite (lawful_eq_sym cmp L a c Hac); discriminate).
  pose proof (lawful_trans cmp L b c a Hbc Hca) as Hba.
  pose proof (lawful_trans cmp L c a b Hca Hab) as Hcb.
  rewrite (lawful_swap cmp L a b) in Hba.
  rewrite (lawful_swap cmp L b c) in Hcb.
  destruct (cmp a b), (cmp b c); simpl in *; try congruence; auto.
Qed.

Lemma lawful_thenBy (c1 c2 : A -> A -> comparison) :
  Lawful c1 -> Lawful c2 -> Lawful (fun a b => thenBy (c1 a b) (c2 a b)).
Proof.
  intros L1 L2. split.
  - intros a b. rewrite (lawful_swap c1 L1 a b), (lawful_swap c2 L2 a b).
    destruct (c1 a b); reflexivity.
  - intros a b c Hab Hbc.
    assert (H1ab : c1 a b <> Gt) by (destruct (c1 a b); simpl in Hab; congruence).
    assert (H1bc : c1 b c <> Gt) by (destruct (c1 b c); simpl in Hbc; congruence).
    pose proof (lawful_trans c1 L1 a b c H1ab H1bc) as H1ac.
    destruct (c1 a c) eqn:Eac; simpl; try congruence.
    destruct (lawful_squeeze c1 L1 a b c H1ab H1bc Eac) as [Eab Ebc].
    rewrite Eab in Hab. rewrite Ebc in Hbc. simpl in *.
    exact (lawful_trans c2 L2 a b c Hab Hbc).
Qed.

Lemma lawful_on {B : Type} (key : B -> A) (cmp : A -> A -> comparison) :
  Lawful cmp -> Lawful (fun x y => cmp (key x) (key y)).
Proof.
  intros L. split; intros.
  - apply (lawful_swap cmp L).
  - eapply (lawful_trans cmp L); eauto.
Qed.

Lemma lawful_reverse (cmp : A -> A -> comparison) :
  Lawful cmp -> Lawful (fun a b => cmp b a).
Proof.
  intros L. split; intros.
  - apply (lawful_swap cmp L).
  - eapply (lawful_trans cmp L); eauto.
Qed.

(** The strict order of a lawful comparison. *)
Lemma lawful_asym (cmp : A -> A -> comparison) :
  Lawful cmp -> forall a b, isLt (cmp a b) = true -> isLt (cmp b a) = false.
Proof.
  intros L a b. rewrite (lawful_swap cmp L a b).
  destruct (cmp a b); simpl; congruence.
Qed.

Lemma lawful_not_before (cmp : A -> A -> comparison) :
  Lawful cmp -> forall a b, isLt (cmp b a) = false <-> cmp a b <> Gt.
Proof.
  intros L a b. rewrite (lawful_swap cmp L a b).
  destruct (cmp a b); simpl; split; congruence.
Qed.

Lemma lawful_negtrans (cmp : A -> A -> comparison) :
  Lawful cmp ->
  forall a b c, isLt (cmp b a) = false -> isLt (cmp c b) = false ->
  isLt (cmp c a) = false.
Proof.
  intros L a b c Hab Hbc.
  apply (lawful_not_before cmp L). apply (lawful_not_before cmp L) in Hab, Hbc.
  eapply (lawful_trans cmp L); eauto.
Qed.

End Comparisons.

Lemma lawful_Z_compare : Lawful Z.compare.
Proof.
  split.
  - intros a b. apply Z.compare_antisym.
  - intros a b c Hab Hbc.
    change (a <= b) in Hab. change (b <= c) in Hbc. change (a <= c). lia.
Qed.

(** ** Stable sorting *)

Section SortedFacts.
Context {A : Type} (lt : A -> A -> bool).

(** No element goes strictly before an earlier one. *)
Let ordered : list A -> Prop :=
  StronglySorted (fun earlier later => lt later earlier = false).

Lemma insertSorted_permutation (x : A) (l : list A) :
  Permutation (x :: l) (insertSorted lt x l).
Proof.
  induction l as [|y rest IH]; simpl.
  - apply Permutation_refl.
  - destruct (lt y x).
    + eapply perm_trans; [apply perm_swap|]. apply perm_skip, IH.
    + apply Permutation_refl.
Qed.

Lemma sorted_permutation (l : list A) : Permutation l (sorted lt l).
Proof.
  induction l as [|x rest IH]; simpl.
  - apply perm_nil.
  - eapply perm_trans; [apply perm_skip, IH|].
    apply insertSorted_permutation.
Qed.

Lemma sorted_length (l : list A) : List.length (sorted lt l) = List.length l.
Proof. symmetry. apply Permutation_length, sorted_permutation. Qed.

(** Inserting in front of a sequence that is in order together with the new
    head changes nothing. *)
Lemma insertSorted_head (x : A) (l : list A) :
  ordered (x :: l) -> insertSorted lt x l = x :: l.
Proof.
  intros Hs. inversion Hs as [|? ? _ Hall]; subst.
  destruct l as [|y rest]; simpl; [reflexivity|].
  inversion Hall as [|? ? Hy _]; subst. rewrite Hy. reflexivity.
Qed.

Lemma sorted_fixed (l : list A) : ordered l -> sorted lt l = l.
Proof.
  induction l as [|x rest IH]; intros Hs; simpl; [reflexivity|].
  inversion Hs as [|? ? Hrest _]; subst.
  rewrite (IH Hrest). apply insertSorted_head, Hs.
Qed.

Hypothesis lt_asym : forall a b, lt a b = true -> lt b a = false.
Hypothesis lt_negtrans :
  forall a b c, lt b a = false -> lt c b = false -> lt c a = false.

Lemma insertSorted_ordered (x : A) (l : list A) :
  ordered l -> ordered (insertSorted lt x l).
Proof.
  induction l as [|y rest IH]; intros Hs; simpl.
  - constructor; constructor.
  - inversion Hs as [|? ? Hrest Hall]; subst.
    destruct (lt y x) eqn:Hyx.
    + constructor; [apply IH, Hrest|].
      eapply Permutation_Forall; [apply insertSorted_permutation|].
      constructor; [apply lt_asym, Hyx | exact Hall].
    + constructor; [exact Hs|].
      constructor; [exact Hyx|].
      eapply Forall_impl; [|exact Hall].
      intros z Hz. simpl in Hz. eapply lt_negtrans; eauto.
Qed.

Lemma sorted_ordered (l : list A) : ordered (sorted lt l).
Proof.
  induction l as [|x rest IH]; simpl.
  - constructor.
  - apply insertSorted_ordered, IH.
Qed.

Lemma sorted_idempotent (l : list A) : sorted lt (sorted lt l) = sorted lt l.
Proof. apply sorted_fixed, sorted_ordered. Qed.

End SortedFacts.

(** ** The sort order of reminders *)

Section SortOrder.
Context `{F : Foundation}.
Import Helper.

Lemma lawful_compareDueDates : Lawful compareDueDates.
Proof.
  split.
  - intros [a|] [b|]; simpl; try reflexivity. apply Z.compare_antisym.
  - intros [a|] [b|] [c|]; simpl; try congruence.
    apply (lawful_trans Z.compare lawful_Z_compare).
Qed.

(** The closure of [sortReminders] answers as the four rules do. *)
Lemma areInIncreasingOrder_canonical (lhs rhs : EKReminder) :
  areInIncreasingOrder lhs rhs = isLt (canonicalCompare lhs rhs).
Proof.
  unfold areInIncreasingOrder, canonicalCompare, compareDue, compareDueDates.
  assert (Hmod :
    (if negb (modificationKey lhs =? modificationKey rhs)
     then modificationKey lhs >? modificationKey rhs
     else match localizedCaseInsensitiveCompare (title lhs) (title rhs) with
          | Lt => true
          | _ => false
          end)
    = isLt (thenBy (modificationKey rhs ?= modificationKey lhs)
              (localizedCaseInsensitiveCompare (title lhs) (title rhs)))).
  { rewrite Z.gtb_ltb. unfold Z.ltb.
    destruct (Z.eqb_spec (modificationKey lhs) (modificationKey rhs)) as [E|N];
      simpl.
    - rewrite E, Z.compare_refl. reflexivity.
    - destruct (modificationKey rhs ?= modificationKey lhs) eqn:C;
        try reflexivity.
      apply Z.compare_eq in C. congruence. }
  destruct (dueDate lhs) as [l|], (dueDate rhs) as [r|]; simpl;
    try reflexivity; try exact Hmod.
  unfold Z.ltb.
  destruct (Z.eqb_spec l r) as [E|N]; simpl.
  - rewrite E, Z.compare_refl. simpl. exact Hmod.
  - destruct (l ?= r) eqn:C; try reflexivity.
    apply Z.compare_eq in C. congruence.
Qed.

Section WithLawfulTitles.
Hypothesis titles : Lawful localizedCaseInsensitiveCompare.

Lemma lawful_canonicalCompare : Lawful canonicalCompare.
Proof.
  unfold canonicalCompare.
  apply (lawful_thenBy (fun a b => compareDueDates (dueDate a) (dueDate b))).
  - apply (lawful_on dueDate), lawful_compareDueDates.
  - apply (lawful_thenBy
             (fun a b => modificationKey b ?= modificationKey a)
             (fun a b => localizedCaseInsensitiveCompare (title a) (title b))).
    + apply (lawful_reverse
               (fun a b => modificationKey a ?= modificationKey b)).
      apply (lawful_on modificationKey), lawful_Z_compare.
    + apply (lawful_on title), titles.
Qed.

Lemma areInIncreasingOrder_asym (a b : EKReminder) :
  areInIncreasingOrder a b = true -> areInIncreasingOrder b a = false.
Proof.
  rewrite !areInIncreasingOrder_canonical.
  apply lawful_asym, lawful_canonicalCompare.
Qed.

Lemma areInIncreasingOrder_negtrans (a b c : EKReminder) :
  areInIncreasingOrder b a = false -> areInIncreasingOrder c b = false ->
  areInIncreasingOrder c a = false.
Proof.
  rewrite !areInIncreasingOrder_canonical.
  apply lawful_negtrans, lawful_canonicalCompare.
Qed.

Lemma before_trans (a b c : EKReminder) :
  before a b -> before b c -> before a c.
Proof.
  unfold before. intros Hab Hbc.
  destruct (areInIncreasingOrder a c) eqn:Hac; [reflexivity|].
  pose proof (areInIncreasingOrder_asym _ _ Hab) as Hba.
  pose proof (areInIncreasingOrder_negtrans _ _ _ Hac Hba) as Hbc'.
  congruence.
Qed.

Lemma tied_trans (a b c : EKReminder) : tied a b -> tied b c -> tied a c.
Proof.
  unfold tied. intros [Hab Hba] [Hbc Hcb]. split.
  - eapply areInIncreasingOrder_negtrans; eauto.
  - eapply areInIncreasingOrder_negtrans; eauto.
Qed.

Lemma tied_canonical (a b : EKReminder) :
  tied a b <-> canonicalCompare a b = Eq.
Proof.
  unfold tied. rewrite !areInIncreasingOrder_canonical.
  rewrite (lawful_swap canonicalCompare lawful_canonicalCompare a b).
  destruct (canonicalCompare a b); simpl; intuition congruence.
Qed.

Lemma sortReminders_inSortOrder (l : list EKReminder) :
  inSortOrder (sortReminders l).
Proof.
  apply sorted_ordered.
  - apply areInIncreasingOrder_asym.
  - apply areInIncreasingOrder_negtrans.
Qed.

End WithLawfulTitles.
End SortOrder.

(** ** The reference comparison of titles is lawful *)

Lemma lawful_N_compare : Lawful N.compare.
Proof.
  split.
  - intros a b. apply N.compare_antisym.
  - intros a b c Hab Hbc.
    change (a <= b)%N in Hab. change (b <= c)%N in Hbc. change (a <= c)%N.
    lia.
Qed.

Lemma lawful_Ascii_compare : Lawful Ascii.compare.
Proof. apply (lawful_on N_of_ascii N.compare), lawful_N_compare. Qed.

Lemma String_compare_cons (x y : ascii) (a b : string) :
  String.compare (String x a) (String y b)
  = thenBy (Ascii.compare x y) (String.compare a b).
Proof. simpl. destruct (Ascii.compare x y); reflexivity. Qed.

Lemma lawful_String_compare : Lawful String.compare.
Proof.
  split.
  - intros a b. apply String.compare_antisym.
  - induction a as [|x a IH]; intros [|y b] [|z c];
      try (simpl; congruence).
    rewrite !String_compare_cons.
    change (thenBy (Ascii.compare x y) (String.compare a b) <> Gt ->
            thenBy (Ascii.compare y z) (String.compare b c) <> Gt ->
            thenBy (Ascii.compare x z) (String.compare a c) <> Gt).
    intros Hab Hbc.
    assert (Hxy : Ascii.compare x y <> Gt)
      by (destruct (Ascii.compare x y); simpl in Hab; congruence).
    assert (Hyz : Ascii.compare y z <> Gt)
      by (destruct (Ascii.compare y z); simpl in Hbc; congruence).
    pose proof (lawful_trans _ lawful_Ascii_compare x y z Hxy Hyz) as Hxz.
    destruct (Ascii.compare x z) eqn:Exz; simpl; try congruence.
    destruct (lawful_squeeze _ lawful_Ascii_compare x y z Hxy Hyz Exz)
      as [Exy Eyz].
    rewrite Exy in Hab. rewrite Eyz in Hbc. simpl in *.
    exact (IH b c Hab Hbc).
Qed.

Lemma lawful_caseInsensitiveCompare : Lawful Reference.caseInsensitiveCompare.
Proof.
  apply (lawful_on Reference.foldCaseString String.compare).
  apply lawful_String_compare.
Qed.

(** ** The rules of the sort order *)

Section SortRules.
Context `{F : Foundation}.
Import Helper.

Lemma compareDueDates_eq (a b : option Date) :
  compareDueDates a b = Eq <-> a = b.
Proof.
  destruct a as [a|], b as [b|]; simpl; split; try congruence.
  - intros E. apply Z.compare_eq in E. congruence.
  - intros E. injection E as ->. apply Z.compare_refl.
Qed.

Lemma thenBy_eq (c1 c2 : comparison) :
  thenBy c1 c2 = Eq <-> c1 = Eq /\ c2 = Eq.
Proof. destruct c1; simpl; intuition congruence. Qed.

Lemma due_before_undated (A B : EKReminder) (d : Date) :
  dueDate A = Some d -> dueDate B = None -> before A B.
Proof.
  intros HA HB. unfold before.
  rewrite areInIncreasingOrder_canonical. unfold canonicalCompare.
  rewrite HA, HB. reflexivity.
Qed.

Lemma earlier_due_before (A B : EKReminder) (a b : Date) :
  dueDate A = Some a -> dueDate B = Some b -> a < b -> before A B.
Proof.
  intros HA HB Hlt. unfold before.
  rewrite areInIncreasingOrder_canonical. unfold canonicalCompare.
  rewrite HA, HB. simpl. apply Z.compare_lt_iff in Hlt. rewrite Hlt.
  reflexivity.
Qed.

Lemma later_modified_before (A B : EKReminder) :
  dueDate A = dueDate B -> modificationKey B < modificationKey A -> before A B.
Proof.
  intros Hdue Hlt. unfold before.
  rewrite areInIncreasingOrder_canonical. unfold canonicalCompare.
  apply compareDueDates_eq in Hdue. rewrite Hdue. simpl.
  apply Z.compare_lt_iff in Hlt. rewrite Hlt. reflexivity.
Qed.

Lemma title_breaks_tie (A B : EKReminder) :
  dueDate A = dueDate B -> modificationKey A = modificationKey B ->
  (before A B <-> localizedCaseInsensitiveCompare (title A) (title B) = Lt).
Proof.
  intros Hdue Hmod. unfold before.
  rewrite areInIncreasingOrder_canonical. unfold canonicalCompare.
  apply compareDueDates_eq in Hdue. rewrite Hdue, Hmod, Z.compare_refl. simpl.
  destruct (localizedCaseInsensitiveCompare (title A) (title B)); simpl;
    split; congruence.
Qed.

Lemma modificationKey_fallback (A : EKReminder) :
  modificationKey A =
  match lastModifiedDate A with
  | Some modified => modified
  | None =>
      match creationDate A with
      | Some created => created
      | None => Date_distantPast
      end
  end.
Proof.
  unfold modificationKey, orElse, orElseOpt.
  destruct (lastModifiedDate A), (creationDate A); reflexivity.
Qed.

Lemma tied_keys (A B : EKReminder) :
  Lawful localizedCaseInsensitiveCompare ->
  (tied A B <->
   dueDate A = dueDate B /\ modificationKey A = modificationKey B
   /\ localizedCaseInsensitiveCompare (title A) (title B) = Eq).
Proof.
  intros titles. rewrite (tied_canonical titles). unfold canonicalCompare.
  rewrite !thenBy_eq, compareDueDates_eq, Z.compare_eq_iff.
  intuition congruence.
Qed.

Lemma before_or_tied (A B : EKReminder) :
  Lawful localizedCaseInsensitiveCompare ->
  (before A B /\ ~ before B A /\ ~ tied A B)
  \/ (~ before A B /\ before B A /\ ~ tied A B)
  \/ (~ before A B /\ ~ before B A /\ tied A B).
Proof.
  intros titles. unfold before, tied.
  destruct (areInIncreasingOrder A B) eqn:HAB.
  - left. rewrite (areInIncreasingOrder_asym titles _ _ HAB).
    intuition congruence.
  - destruct (areInIncreasingOrder B A) eqn:HBA.
    + right; left. intuition congruence.
    + right; right. intuition congruence.
Qed.

(** C1. The closure [sortReminders] sorts by follows the four rules: a
    reminder with a due date goes before one without; of two due dates the
    earlier goes first; with the same due date (or none on both sides) the
    later modification goes first, the modification being
    [lastModifiedDate], or [creationDate] when that is absent; with that
    equal too, the localized case-insensitive comparison of the titles
    decides.  [sortReminders] returns a permutation of its input and leaves
    a sequence that is in order unchanged.  When the comparison of titles is
    a lawful three-way comparison, the closure is a total order up to ties:
    of two reminders exactly one of "A before B", "B before A" and "tied"
    holds, "before" and "tied" are transitive, two reminders are tied
    exactly when all three keys agree; the result of [sortReminders] is in
    order, and sorting twice is sorting once. *)
Theorem sortReminders_total_order :
  (forall A B d, dueDate A = Some d -> dueDate B = None -> before A B)
  /\ (forall A B a b,
        dueDate A = Some a -> dueDate B = Some b -> a < b -> before A B)
  /\ (forall A B,
        dueDate A = dueDate B -> modificationKey B < modificationKey A ->
        before A B)
  /\ (forall A,
        modificationKey A =
        match lastModifiedDate A with
        | Some modified => modified
        | None =>
            match creationDate A with
            | Some created => created
            | None => Date_distantPast
            end
        end)
  /\ (forall A B,
        dueDate A = dueDate B -> modificationKey A = modificationKey B ->
        (before A B <->
         localizedCaseInsensitiveCompare (title A) (title B) = Lt))
  /\ (forall l, Permutation l (sortReminders l))
  /\ (forall l, inSortOrder l -> sortReminders l = l)
  /\ (Lawful localizedCaseInsensitiveCompare ->
      (forall A B,
         (before A B /\ ~ before B A /\ ~ tied A B)
         \/ (~ before A B /\ before B A /\ ~ tied A B)
         \/ (~ before A B /\ ~ before B A /\ tied A B))
      /\ (forall A B C, before A B -> before B C -> before A C)
      /\ (forall A B C, tied A B -> tied B C -> tied A C)
      /\ (forall A B,
            tied A B <->
            dueDate A = dueDate B /\ modificationKey A = modificationKey B
            /\ localizedCaseInsensitiveCompare (title A) (title B) = Eq)
      /\ (forall l, inSortOrder (sortReminders l))
      /\ (forall l, sortReminders (sortReminders l) = sortReminders l)).
Proof.
  split; [exact due_before_undated|].
  split; [exact earlier_due_before|].
  split; [exact later_modified_before|].
  split; [exact modificationKey_fallback|].
  split; [exact title_breaks_tie|].
  split; [intros l; apply sorted_permutation|].
  split; [intros l Hl; apply sorted_fixed, Hl|].
  intros titles.
  split; [intros A B; apply before_or_tied, titles|].
  split; [exact (before_trans titles)|].
  split; [exact (tied_trans titles)|].
  split; [intros A B; apply tied_keys, titles|].
  split; [intros l; apply sortReminders_inSortOrder, titles|].
  intros l. apply sorted_fixed, sortReminders_inSortOrder, titles.
Qed.

End SortRules.

(** From here on the reference platform is at hand for running the
    operations on the sample store. *)
Import Reference.

Example sortReminders_sample :
  map Helper.calendarItemIdentifier
    (Helper.sortReminders (Helper.reminders Sample.store))
  = ["r2"; "r3"; "r4"; "r5"; "r1"]%string.
Proof. reflexivity. Qed.

Example mapReminder_sample :
  let record := Helper.mapReminder Sample.callDentist in
  Helper.rec_dueDate record = Some "2024-03-05T00:00:00.000Z"%string
  /\ Helper.rec_allDayDueDate record = Some "2024-03-05T00:00:00.000Z"%string
  /\ Helper.rec_remindMeDate record = Some "2024-03-04T18:00:00.000Z"%string
  /\ Helper.rec_allDayDueDate (Helper.mapReminder Sample.report) = None.
Proof. repeat split; reflexivity. Qed.

Example operationListReminders_sample :
  Helper.operationListReminders Sample.store
    (Helper.mkListRemindersPayload (Some "Work"%string) (Some false)
       (Some 2) (Some 1))
  = inr (Helper.mkListRemindersResult 3
           (map Helper.mapReminder [Sample.agenda; Sample.callBack]))
  /\ Helper.operationListReminders Sample.store
       (Helper.mkListRemindersPayload (Some "Chores"%string) None None None)
     = inl (message "List 'Chores' not found").
Proof. split; reflexivity. Qed.

Example readJSON_sample :
  readJSON Sample.errorEnvelope
  = Some (JObject [("ok"%string, JBool false);
                   ("error"%string, JString "List 'Chores' not found")])
  /\ readJSON "helper crashed" = None.
Proof. split; reflexivity. Qed.

Lemma sortReminders_total_order_witness :
  Lawful (@localizedCaseInsensitiveCompare utc)
  /\ Helper.before Sample.callDentist Sample.callBack
  /\ Helper.before Sample.callDentist Sample.report
  /\ Helper.before Sample.milk Sample.agenda
  /\ Helper.before Sample.agenda Sample.callBack
  /\ Helper.before Sample.callDentist Sample.agenda
  /\ Helper.sortReminders (Helper.sortReminders (Helper.reminders Sample.store))
     = Helper.sortReminders (Helper.reminders Sample.store).
Proof.
  destruct (sortReminders_total_order (F := utc))
    as (Hdated & Hearlier & Hmodified & _ & Htitle & _ & _ & Horder).
  destruct (Horder lawful_caseInsensitiveCompare)
    as (_ & Htrans & _ & _ & _ & Htwice).
  assert (H1 : Helper.before Sample.callDentist Sample.callBack)
    by (apply (Hdated _ _ (instant 2024 3 5 0 0 0 0)); reflexivity).
  assert (H2 : Helper.before Sample.milk Sample.agenda)
    by (apply Hmodified; [reflexivity | vm_compute; reflexivity]).
  assert (H3 : Helper.before Sample.agenda Sample.callBack)
    by (apply Htitle; reflexivity).
  split; [exact lawful_caseInsensitiveCompare|].
  split; [exact H1|].
  split.
  { apply (Hearlier _ _ (instant 2024 3 5 0 0 0 0) (instant 2024 3 10 9 0 0 0));
      [reflexivity | reflexivity | vm_compute; reflexivity]. }
  split; [exact H2|]. split; [exact H3|].
  split; [|apply Htwice].
  apply (Htrans _ Sample.milk); [|exact H2].
  apply (Hdated _ _ (instant 2024 3 5 0 0 0 0)); reflexivity.
Defined.

(** ** Listing, counting and pages *)

Section Chunks.
Context {A : Type}.


End Chunks.

Section Listing.
Context `{F : Foundation}.
Import Helper.

Lemma operationListReminders_filtered (store : EKEventStore)
    (payload : ListRemindersPayload) :
  operationListReminders store payload =
  let* filtered :=
    filteredReminders store (lr_listName payload) (lr_completed payload) in
  let full := sortReminders filtered in
  ok {| res_total := count full;
        res_reminders :=
          map mapReminder
            (prefix (Z.max 1 (orElse (lr_limit payload) (count full)))
               (dropFirst (Z.max 0 (orElse (lr_offset payload) 0)) full)) |}.
Proof.
  unfold operationListReminders, filteredReminders.
  destruct (selectCalendars (lr_listName payload) (allReminderCalendars store))
    as [e|selected]; simpl; [reflexivity|].
  destruct (fetchReminders store selected) as [e|fetched]; reflexivity.
Qed.

Lemma operationCountReminders_filtered (store : EKEventStore)
    (payload : CountRemindersPayload) :
  operationCountReminders store payload =
  let* filtered :=
    filteredReminders store (cr_listName payload) (cr_completed payload) in
  ok {| res_count := count filtered |}.
Proof.
  unfold operationCountReminders, filteredReminders.
  destruct (selectCalendars (cr_listName payload) (allReminderCalendars store))
    as [e|selected]; simpl; [reflexivity|].
  destruct (fetchReminders store selected) as [e|fetched]; reflexivity.
Qed.

Lemma count_sortReminders (l : list EKReminder) :
  count (sortReminders l) = count l.
Proof. unfold count, sortReminders. rewrite sorted_length. reflexivity. Qed.

(** C3. For a (listName, completed) filter on which counting succeeds, the
    listing with the same filter, no offset, and a limit that is absent or at
    least the count succeeds too, and the sequence it returns has as many
    elements as the count says; the [total] it reports is that number as
    well. *)
Theorem count_equals_listing_length (store : EKEventStore)
    (listName : option string) (completed : option bool)
    (limit offset : option Z) (counted : CountResult) :
  operationCountReminders store (mkCountRemindersPayload listName completed)
    = inr counted ->
  res_count counted <= orElse limit (res_count counted) ->
  orElse offset 0 <= 0 ->
  exists listed,
    operationListReminders store
      (mkListRemindersPayload listName completed limit offset) = inr listed
    /\ count (res_reminders listed) = res_count counted
    /\ res_total listed = res_count counted.
Proof.
  rewrite operationCountReminders_filtered, operationListReminders_filtered.
  simpl. destruct (filteredReminders store listName completed)
    as [e|filtered]; simpl; [discriminate|].
  intros Hc Hlimit Hoffset. injection Hc as <-. simpl in *.
  eexists. split; [reflexivity|]. simpl.
  rewrite count_sortReminders. split; [|reflexivity].
  pose proof (sorted_length areInIncreasingOrder filtered) as Hsorted.
  fold (sortReminders filtered) in Hsorted.
  unfold count, prefix, dropFirst in *.
  rewrite length_map, length_firstn, length_skipn, Hsorted.
  replace (Z.to_nat (Z.max 0 (orElse offset 0))) with 0%nat by lia.
  destruct limit as [L|]; simpl in *; lia.
Qed.

End Listing.

Lemma count_equals_listing_length_witness :
  Helper.operationCountReminders Sample.store
    (Helper.mkCountRemindersPayload (Some "Work"%string) (Some false))
  = inr (Helper.mkCountResult 3)
  /\ exists listed,
       Helper.operationListReminders Sample.store
         (Helper.mkListRemindersPayload (Some "Work"%string) (Some false)
            (Some 200) None) = inr listed
       /\ count (Helper.res_reminders listed) = 3
       /\ Helper.res_total listed = 3.
Proof.
  split; [reflexivity|].
  apply (count_equals_listing_length (F := utc) Sample.store
           (Some "Work"%string) (Some false) (Some 200) None
           (Helper.mkCountResult 3)).
  - reflexivity.
  - simpl. lia.
  - simpl. lia.
Defined.

Section Pagination.
Context `{F : Foundation} `{J : JSRuntime}.
Import Tools.








End Pagination.


(** ** Creating, updating and deleting *)

Section Mutation.
Context `{F : Foundation}.
Import Helper.

(** After a save, the store holds the saved reminder under its identifier. *)
Lemma reminderWithIdentifier_save (store : EKEventStore) (r : EKReminder) :
  reminderWithIdentifier (save store r) (calendarItemIdentifier r) = Some r.
Proof.
  unfold reminderWithIdentifier, save. simpl.
  induction (reminders store) as [|x rest IH]; simpl.
  - rewrite String.eqb_refl. reflexivity.
  - unfold sameItem.
    destruct (String.eqb (calendarItemIdentifier x) (calendarItemIdentifier r))
      eqn:E; simpl.
    + rewrite String.eqb_refl. reflexivity.
    + rewrite E. exact IH.
Qed.

(** A save leaves the reminders under other identifiers as they were. *)
Lemma reminderWithIdentifier_save_other (store : EKEventStore)
    (r : EKReminder) (other : string) :
  other <> calendarItemIdentifier r ->
  reminderWithIdentifier (save store r) other
  = reminderWithIdentifier store other.
Proof.
  intros Hother. unfold reminderWithIdentifier, save. simpl.
  assert (Hr : String.eqb (calendarItemIdentifier r) other = false)
    by (apply String.eqb_neq; congruence).
  induction (reminders store) as [|x rest IH]; simpl.
  - rewrite Hr. reflexivity.
  - unfold sameItem.
    destruct (String.eqb (calendarItemIdentifier x) (calendarItemIdentifier r))
      eqn:E; simpl.
    + apply String.eqb_eq in E. rewrite E, Hr. reflexivity.
    + rewrite IH. reflexivity.
Qed.

Lemma assignDueDate_inv (field : option string) (r r' : EKReminder) :
  assignDueDate field r = inr r' ->
  match field with
  | None => r' = r
  | Some text =>
      exists date,
        parseISODate text = Some date
        /\ r' = set_dueDateComponents
                  (Some (calendarDateComponents
                           [unitYear; unitMonth; unitDay;
                            unitHour; unitMinute; unitSecond] date)) r
  end.
Proof.
  unfold assignDueDate, dateComponentsFromISO.
  destruct field as [text|]; simpl.
  - destruct (parseISODate text) as [date|]; simpl; [|discriminate].
    intros E. injection E as <-. exists date. split; reflexivity.
  - intros E. injection E as <-. reflexivity.
Qed.

Lemma assignAllDayDueDate_inv (field : option string) (r r' : EKReminder) :
  assignAllDayDueDate field r = inr r' ->
  match field with
  | None => r' = r
  | Some text =>
      exists date,
        allDayDateFormatter_date text = Some date
        /\ r' = set_dueDateComponents
                  (Some (calendarDateComponents
                           [unitYear; unitMonth; unitDay] date)) r
  end.
Proof.
  unfold assignAllDayDueDate, dateComponentsFromAllDay.
  destruct field as [text|]; simpl.
  - destruct (allDayDateFormatter_date text) as [date|]; simpl;
      [|discriminate].
    intros E. injection E as <-. exists date. split; reflexivity.
  - intros E. injection E as <-. reflexivity.
Qed.

Lemma assignRemindMeDate_inv (field : option string) (r r' : EKReminder) :
  assignRemindMeDate field r = inr r' ->
  match field with
  | None => r' = r
  | Some text =>
      exists date,
        parseISODate text = Some date
        /\ r' = set_alarms (Some [EKAlarm_absoluteDate date]) r
  end.
Proof.
  unfold assignRemindMeDate.
  destruct field as [text|]; simpl.
  - destruct (parseISODate text) as [date|]; simpl; [|discriminate].
    intros E. injection E as <-. exists date. split; reflexivity.
  - intros E. injection E as <-. reflexivity.
Qed.

(** The three fallible assignments, one after the other. *)
Lemma dated_assignments_inv {B : Type} (due allDay remind : option string)
    (finish : EKReminder -> B) (r : EKReminder) (r' : B) :
  (let* r1 := assignDueDate due r in
   let* r2 := assignAllDayDueDate allDay r1 in
   let* r3 := assignRemindMeDate remind r2 in
   ok (finish r3)) = inr r' ->
  exists r1 r2 r3,
    assignDueDate due r = inr r1
    /\ assignAllDayDueDate allDay r1 = inr r2
    /\ assignRemindMeDate remind r2 = inr r3
    /\ r' = finish r3.
Proof.
  destruct (assignDueDate due r) as [e|r1] eqn:E1; simpl; [discriminate|].
  destruct (assignAllDayDueDate allDay r1) as [e|r2] eqn:E2; simpl;
    [discriminate|].
  destruct (assignRemindMeDate remind r2) as [e|r3] eqn:E3; simpl;
    [discriminate|].
  intros E. injection E as <-. exists r1, r2, r3.
  split; [reflexivity|]. split; [exact E2|]. split; [exact E3|reflexivity].
Qed.

(** What a successful run of the assignments of an update leaves in each
    property of the reminder. *)
Lemma applyUpdates_fields (now : Date) (payload : UpdateReminderPayload)
    (r r' : EKReminder) :
  applyUpdates now payload r = inr r' ->
  (calendarItemIdentifier r' = calendarItemIdentifier r
   /\ calendar r' = calendar r
   /\ creationDate r' = creationDate r
   /\ lastModifiedDate r' = lastModifiedDate r)
  /\ title r' = orElse (u_newName payload) (title r)
  /\ notes r' = orElseOpt (u_body payload) (notes r)
  /\ priority r' = orElse (u_priority payload) (priority r)
  /\ isCompleted r' = orElse (u_completed payload) (isCompleted r)
  /\ completionDate r'
     = match u_completed payload with
       | Some true => Some now
       | Some false => None
       | None => completionDate r
       end
  /\ match u_allDayDueDate payload with
     | Some text =>
         exists date,
           allDayDateFormatter_date text = Some date
           /\ dueDateComponents r'
              = Some (calendarDateComponents
                        [unitYear; unitMonth; unitDay] date)
     | None =>
         match u_dueDate payload with
         | Some text =>
             exists date,
               parseISODate text = Some date
               /\ dueDateComponents r'
                  = Some (calendarDateComponents
                            [unitYear; unitMonth; unitDay;
                             unitHour; unitMinute; unitSecond] date)
         | None => dueDateComponents r' = dueDateComponents r
         end
     end
  /\ match u_remindMeDate payload with
     | Some text =>
         exists date,
           parseISODate text = Some date
           /\ alarms r' = Some [EKAlarm_absoluteDate date]
     | None => alarms r' = alarms r
     end.
Proof.
  unfold applyUpdates. intros E.
  apply dated_assignments_inv in E as (r1 & r2 & r3 & E1 & E2 & E3 & ->).
  apply assignDueDate_inv in E1.
  apply assignAllDayDueDate_inv in E2.
  apply assignRemindMeDate_inv in E3.
  unfold assignIfPresent in *.
  destruct (u_dueDate payload) as [due|];
    [destruct E1 as (d1 & P1 & ->) | subst r1];
  (destruct (u_allDayDueDate payload) as [allDay|];
    [destruct E2 as (d2 & P2 & ->) | subst r2]);
  (destruct (u_remindMeDate payload) as [remind|];
    [destruct E3 as (d3 & P3 & ->) | subst r3]);
  destruct (u_newName payload), (u_body payload), (u_priority payload),
    (u_completed payload) as [[|]|]; simpl;
  repeat match goal with
         | |- _ /\ _ => split
         | |- exists _, _ => eexists
         | |- _ = _ => first [reflexivity | eassumption]
         end.
Qed.

(** A successful update located a reminder, assigned to it, and saved it. *)
Lemma operationUpdateReminder_inv (now : Date) (store store' : EKEventStore)
    (payload : UpdateReminderPayload) (result : EmptyResult) :
  operationUpdateReminder now store payload = (inr result, store') ->
  noUpdates payload = false
  /\ exists located updated,
       locateReminderByName store (u_listName payload)
         (u_reminderName payload) = inr located
       /\ applyUpdates now payload located = inr updated
       /\ store' = save store updated.
Proof.
  unfold operationUpdateReminder, committed.
  destruct (noUpdates payload); simpl; [discriminate|].
  destruct (locateReminderByName store (u_listName payload)
              (u_reminderName payload)) as [e|located]; simpl;
    [discriminate|].
  destruct (applyUpdates now payload located) as [e|updated] eqn:Eupd; simpl;
    [discriminate|].
  intros E. injection E as _ <-.
  split; [reflexivity|]. exists located, updated.
  split; [reflexivity|]. split; [exact Eupd|reflexivity].
Qed.

(** An update that fails leaves the store as it was. *)
Lemma operationUpdateReminder_failure (now : Date) (store store' : EKEventStore)
    (payload : UpdateReminderPayload) (e : HelperError) :
  operationUpdateReminder now store payload = (inl e, store') ->
  store' = store.
Proof.
  unfold operationUpdateReminder, committed.
  destruct (noUpdates payload); simpl.
  - intros E. injection E as _ <-. reflexivity.
  - destruct (locateReminderByName store (u_listName payload)
                (u_reminderName payload)) as [e1|located]; simpl.
    + intros E. injection E as _ <-. reflexivity.
    + destruct (applyUpdates now payload located) as [e2|updated]; simpl.
      * intros E. injection E as _ <-. reflexivity.
      * discriminate.
Qed.

(** C4. An update request in which [newName], [body], [dueDate],
    [allDayDueDate], [remindMeDate], [priority] and [completed] are all
    absent fails with the error "No updates provided", and the store stays
    as it was. *)
Theorem update_without_fields_fails (now : Date) (store : EKEventStore)
    (payload : UpdateReminderPayload) :
  u_newName payload = None ->
  u_body payload = None ->
  u_dueDate payload = None ->
  u_allDayDueDate payload = None ->
  u_remindMeDate payload = None ->
  u_priority payload = None ->
  u_completed payload = None ->
  operationUpdateReminder now store payload
  = (inl (message "No updates provided"), store).
Proof.
  intros H1 H2 H3 H4 H5 H6 H7.
  unfold operationUpdateReminder, noUpdates.
  rewrite H1, H2, H3, H4, H5, H6, H7. reflexivity.
Qed.

(** A successful creation found the list, accepted the name, assigned to a
    new reminder, and saved it. *)
Lemma operationCreateReminder_inv (identifier : string)
    (store store' : EKEventStore) (payload : CreateReminderPayload)
    (result : CreateIdResult) :
  operationCreateReminder identifier store payload = (inr result, store') ->
  exists list created,
    calendarByName (c_listName payload) (allReminderCalendars store)
      = Some list
    /\ allWhitespace (c_name payload) = false
    /\ res_id result = identifier
    /\ store' = save store created
    /\ (calendarItemIdentifier created = identifier
        /\ calendar created = list
        /\ title created = c_name payload
        /\ notes created = c_body payload
        /\ priority created = orElse (c_priority payload) 0
        /\ isCompleted created = false
        /\ completionDate created = None)
    /\ match c_allDayDueDate payload with
       | Some text =>
           exists date,
             allDayDateFormatter_date text = Some date
             /\ dueDateComponents created
                = Some (calendarDateComponents
                          [unitYear; unitMonth; unitDay] date)
       | None =>
           match c_dueDate payload with
           | Some text =>
               exists date,
                 parseISODate text = Some date
                 /\ dueDateComponents created
                    = Some (calendarDateComponents
                              [unitYear; unitMonth; unitDay;
                               unitHour; unitMinute; unitSecond] date)
           | None => dueDateComponents created = None
           end
       end
    /\ match c_remindMeDate payload with
       | Some text =>
           exists date,
             parseISODate text = Some date
             /\ alarms created = Some [EKAlarm_absoluteDate date]
       | None => alarms created = None
       end.
Proof.
  unfold operationCreateReminder, committed.
  destruct (calendarByName (c_listName payload) (allReminderCalendars store))
    as [list|]; simpl; [|discriminate].
  destruct (allWhitespace (c_name payload)); simpl; [discriminate|].
  match goal with
  | |- match ?m with _ => _ end = _ -> _ =>
      destruct m as [e|[res st]] eqn:E
  end; [discriminate|].
  intros E'. injection E' as <- <-.
  apply dated_assignments_inv in E as (r1 & r2 & r3 & E1 & E2 & E3 & Efin).
  injection Efin as -> ->.
  apply assignDueDate_inv in E1.
  apply assignAllDayDueDate_inv in E2.
  apply assignRemindMeDate_inv in E3.
  exists list, (assignIfPresent (c_priority payload) set_priority r3).
  split; [reflexivity|]. split; [reflexivity|].
  unfold assignIfPresent in *.
  destruct (c_dueDate payload) as [due|];
    [destruct E1 as (d1 & P1 & E1) | idtac];
  (destruct (c_allDayDueDate payload) as [allDay|];
    [destruct E2 as (d2 & P2 & E2) | idtac]);
  (destruct (c_remindMeDate payload) as [remind|];
    [destruct E3 as (d3 & P3 & E3) | idtac]);
  subst r3 r2 r1;
  destruct (c_body payload), (c_priority payload); simpl;
  repeat match goal with
         | |- _ /\ _ => split
         | |- exists _, _ => eexists
         | |- _ = _ => first [reflexivity | eassumption]
         end.
Qed.

End Mutation.

Lemma update_without_fields_fails_witness :
  Helper.operationUpdateReminder (Sample.march 6 12) Sample.store
    (Helper.mkUpdateReminderPayload "Work" "Call"
       None None None None None None None)
  = (inl (message "No updates provided"), Sample.store).
Proof.
  apply (update_without_fields_fails (F := utc)); reflexivity.
Defined.

Section MutationOutcomes.
Context `{F : Foundation}.
Import Helper.

(** A successful update, seen from the store it leaves: the located reminder
    is stored again, under the same identifier, with the assignments made. *)
Lemma operationUpdateReminder_stored (now : Date) (store store' : EKEventStore)
    (payload : UpdateReminderPayload) (result : EmptyResult) :
  operationUpdateReminder now store payload = (inr result, store') ->
  exists located updated,
    locateReminderByName store (u_listName payload) (u_reminderName payload)
      = inr located
    /\ applyUpdates now payload located = inr updated
    /\ store' = save store updated
    /\ reminderWithIdentifier store' (calendarItemIdentifier located)
       = Some updated.
Proof.
  intros Hrun.
  apply operationUpdateReminder_inv in Hrun
    as (_ & located & updated & Hloc & Hupd & ->).
  exists located, updated. repeat split; auto.
  destruct (applyUpdates_fields now payload located updated Hupd)
    as ((Hid & _) & _).
  rewrite <- Hid. apply reminderWithIdentifier_save.
Qed.

Lemma operationCreateReminder_stored (identifier : string)
    (store store' : EKEventStore) (created : EKReminder) :
  store' = save store created ->
  calendarItemIdentifier created = identifier ->
  reminderWithIdentifier store' identifier = Some created.
Proof. intros -> <-. apply reminderWithIdentifier_save. Qed.

(** C5. When a creation or an update that gives both [dueDate] and
    [allDayDueDate] succeeds, the due date components of the reminder it
    stores are those of the all-day date: year, month and day as the all-day
    formatter and the calendar give them, and no hour, minute or second; the
    reminder counts as all-day. *)
Theorem all_day_due_date_overwrites_timed :
  (forall identifier store payload result store' timed allDay,
     operationCreateReminder identifier store payload = (inr result, store') ->
     c_dueDate payload = Some timed ->
     c_allDayDueDate payload = Some allDay ->
     exists created date,
       reminderWithIdentifier store' identifier = Some created
       /\ res_id result = identifier
       /\ allDayDateFormatter_date allDay = Some date
       /\ dateComponentsFromAllDay allDay
          = inr (mkDateComponents (Some (calendarField unitYear date))
                   (Some (calendarField unitMonth date))
                   (Some (calendarField unitDay date)) None None None)
       /\ dueDateComponents created
          = Some (mkDateComponents (Some (calendarField unitYear date))
                    (Some (calendarField unitMonth date))
                    (Some (calendarField unitDay date)) None None None)
       /\ isAllDayDueDate created = true)
  /\ (forall now store payload result store' timed allDay,
        operationUpdateReminder now store payload = (inr result, store') ->
        u_dueDate payload = Some timed ->
        u_allDayDueDate payload = Some allDay ->
        exists located updated date,
          locateReminderByName store (u_listName payload)
            (u_reminderName payload) = inr located
          /\ reminderWithIdentifier store' (calendarItemIdentifier located)
             = Some updated
          /\ allDayDateFormatter_date allDay = Some date
          /\ dateComponentsFromAllDay allDay
             = inr (mkDateComponents (Some (calendarField unitYear date))
                      (Some (calendarField unitMonth date))
                      (Some (calendarField unitDay date)) None None None)
          /\ dueDateComponents updated
             = Some (mkDateComponents (Some (calendarField unitYear date))
                       (Some (calendarField unitMonth date))
                       (Some (calendarField unitDay date)) None None None)
          /\ isAllDayDueDate updated = true).
Proof.
  split.
  - intros identifier store payload result store' timed allDay Hrun _ HallDay.
    apply operationCreateReminder_inv in Hrun
      as (list & created & _ & _ & Hres & Hstore & (Hid & _) & Hdue & _).
    rewrite HallDay in Hdue. destruct Hdue as (date & Hparse & Hdue).
    exists created, date.
    split; [eapply operationCreateReminder_stored; eauto|].
    split; [exact Hres|]. split; [exact Hparse|].
    split; [unfold dateComponentsFromAllDay; rewrite Hparse; reflexivity|].
    split; [exact Hdue|].
    unfold isAllDayDueDate. rewrite Hdue. reflexivity.
  - intros now store payload result store' timed allDay Hrun _ HallDay.
    apply operationUpdateReminder_stored in Hrun
      as (located & updated & Hloc & Hupd & _ & Hfind).
    destruct (applyUpdates_fields now payload located updated Hupd)
      as (_ & _ & _ & _ & _ & _ & Hdue & _).
    rewrite HallDay in Hdue. destruct Hdue as (date & Hparse & Hdue).
    exists located, updated, date.
    split; [exact Hloc|]. split; [exact Hfind|]. split; [exact Hparse|].
    split; [unfold dateComponentsFromAllDay; rewrite Hparse; reflexivity|].
    split; [exact Hdue|].
    unfold isAllDayDueDate. rewrite Hdue. reflexivity.
Qed.

(** C9. When a creation or an update that gives a [remindMeDate] succeeds,
    the alarms of the reminder it stores are exactly one absolute alarm at
    the date the text parses to, whatever alarms the reminder had before;
    that date is the notification date the helper then reports. *)
Theorem remind_me_date_replaces_alarms :
  (forall identifier store payload result store' text,
     operationCreateReminder identifier store payload = (inr result, store') ->
     c_remindMeDate payload = Some text ->
     exists created date,
       reminderWithIdentifier store' identifier = Some created
       /\ parseISODate text = Some date
       /\ alarms created = Some [EKAlarm_absoluteDate date]
       /\ remindMeDate created = Some date)
  /\ (forall now store payload result store' text,
        operationUpdateReminder now store payload = (inr result, store') ->
        u_remindMeDate payload = Some text ->
        exists located updated date,
          locateReminderByName store (u_listName payload)
            (u_reminderName payload) = inr located
          /\ reminderWithIdentifier store' (calendarItemIdentifier located)
             = Some updated
          /\ parseISODate text = Some date
          /\ alarms updated = Some [EKAlarm_absoluteDate date]
          /\ remindMeDate updated = Some date).
Proof.
  split.
  - intros identifier store payload result store' text Hrun Hremind.
    apply operationCreateReminder_inv in Hrun
      as (list & created & _ & _ & _ & Hstore & (Hid & _) & _ & Halarms).
    rewrite Hremind in Halarms. destruct Halarms as (date & Hparse & Halarms).
    exists created, date.
    split; [eapply operationCreateReminder_stored; eauto|].
    split; [exact Hparse|]. split; [exact Halarms|].
    unfold remindMeDate. rewrite Halarms. reflexivity.
  - intros now store payload result store' text Hrun Hremind.
    apply operationUpdateReminder_stored in Hrun
      as (located & updated & Hloc & Hupd & _ & Hfind).
    destruct (applyUpdates_fields now payload located updated Hupd)
      as (_ & _ & _ & _ & _ & _ & _ & Halarms).
    rewrite Hremind in Halarms. destruct Halarms as (date & Hparse & Halarms).
    exists located, updated, date.
    split; [exact Hloc|]. split; [exact Hfind|]. split; [exact Hparse|].
    split; [exact Halarms|].
    unfold remindMeDate. rewrite Halarms. reflexivity.
Qed.

(** C10. When an update succeeds, the reminder it stores under the
    identifier of the located one has, property by property: the new name
    as title if one is given, else the old title; the body as notes if one
    is given, else the old notes; the all-day components if an all-day date
    is given, else the timed components if a due date is given, else the old
    components; the one alarm of the notification date if one is given, else
    the old alarms; the priority if one is given, else the old priority;
    completed and a completion date of [now] if [completed] is given as
    true, not completed and no completion date if it is given as false, else
    the old completion state and date.  Identifier, list, creation date and
    modification date are not assigned. *)
Theorem update_assigns_only_given_fields (now : Date)
    (store store' : EKEventStore) (payload : UpdateReminderPayload)
    (result : EmptyResult) :
  operationUpdateReminder now store payload = (inr result, store') ->
  exists located updated,
    locateReminderByName store (u_listName payload) (u_reminderName payload)
      = inr located
    /\ reminderWithIdentifier store' (calendarItemIdentifier located)
       = Some updated
    /\ title updated
       = match u_newName payload with
         | Some newName => newName
         | None => title located
         end
    /\ notes updated
       = match u_body payload with
         | Some body => Some body
         | None => notes located
         end
    /\ match u_allDayDueDate payload with
       | Some text =>
           exists date,
             allDayDateFormatter_date text = Some date
             /\ dueDateComponents updated
                = Some (calendarDateComponents
                          [unitYear; unitMonth; unitDay] date)
       | None =>
           match u_dueDate payload with
           | Some text =>
               exists date,
                 parseISODate text = Some date
                 /\ dueDateComponents updated
                    = Some (calendarDateComponents
                              [unitYear; unitMonth; unitDay;
                               unitHour; unitMinute; unitSecond] date)
           | None => dueDateComponents updated = dueDateComponents located
           end
       end
    /\ match u_remindMeDate payload with
       | Some text =>
           exists date,
             parseISODate text = Some date
             /\ alarms updated = Some [EKAlarm_absoluteDate date]
       | None => alarms updated = alarms located
       end
    /\ priority updated
       = match u_priority payload with
         | Some priority => priority
         | None => priority located
         end
    /\ match u_completed payload with
       | Some true =>
           isCompleted updated = true /\ completionDate updated = Some now
       | Some false =>
           isCompleted updated = false /\ completionDate updated = None
       | None =>
           isCompleted updated = isCompleted located
           /\ completionDate updated = completionDate located
       end
    /\ (calendarItemIdentifier updated = calendarItemIdentifier located
        /\ calendar updated = calendar located
        /\ creationDate updated = creationDate located
        /\ lastModifiedDate updated = lastModifiedDate located)
    /\ (forall other,
          other <> calendarItemIdentifier located ->
          reminderWithIdentifier store' other
          = reminderWithIdentifier store other).
Proof.
  intros Hrun.
  apply operationUpdateReminder_stored in Hrun
    as (located & updated & Hloc & Hupd & Hstore & Hfind).
  destruct (applyUpdates_fields now payload located updated Hupd)
    as (Hkept & Htitle & Hnotes & Hpriority & Hdone & Hwhen & Hdue & Halarms).
  exists located, updated.
  split; [exact Hloc|]. split; [exact Hfind|].
  split; [rewrite Htitle; destruct (u_newName payload); reflexivity|].
  split; [rewrite Hnotes; destruct (u_body payload); reflexivity|].
  split; [exact Hdue|]. split; [exact Halarms|].
  split; [rewrite Hpriority; destruct (u_priority payload); reflexivity|].
  split.
  { rewrite Hdone, Hwhen. destruct (u_completed payload) as [[|]|];
      split; reflexivity. }
  split; [exact Hkept|].
  intros other Hother. subst store'.
  apply reminderWithIdentifier_save_other.
  destruct Hkept as (Hid & _). rewrite Hid. exact Hother.
Qed.

End MutationOutcomes.

Lemma all_day_due_date_overwrites_timed_witness :
  (exists created,
     Helper.operationCreateReminder "r6" Sample.store Sample.createEggs
     = (inr (Helper.mkCreateIdResult "r6"),
        Helper.save Sample.store created)
     /\ Helper.dueDateComponents created = Some (Sample.allDay 2024 3 12))
  /\ (exists store' updated,
        Helper.operationUpdateReminder (Sample.march 6 12) Sample.store
          Sample.updateCallDates = (inr Helper.mkEmptyResult, store')
        /\ Helper.reminderWithIdentifier store' "r1" = Some updated
        /\ Helper.dueDateComponents updated = Some (Sample.allDay 2024 3 12)).
Proof.
  split.
  - destruct (Helper.operationCreateReminder "r6" Sample.store
                Sample.createEggs) as [outcome store'] eqn:Hrun.
    assert (Houtcome : outcome = inr (Helper.mkCreateIdResult "r6"))
      by (vm_compute in Hrun; injection Hrun as <- _; reflexivity).
    subst outcome.
    destruct (proj1 (all_day_due_date_overwrites_timed (F := utc))
                "r6"%string Sample.store Sample.createEggs _ store'
                "2024-03-10T12:30:00Z"%string "2024-03-12"%string
                Hrun eq_refl eq_refl)
      as (created & date & Hfind & _ & Hparse & _ & Hdue & _).
    vm_compute in Hparse. injection Hparse as <-.
    exists created. split; [|exact Hdue].
    vm_compute in Hrun. injection Hrun as <-.
    vm_compute in Hfind. injection Hfind as <-. reflexivity.
  - destruct (Helper.operationUpdateReminder (Sample.march 6 12) Sample.store
                Sample.updateCallDates) as [outcome store'] eqn:Hrun.
    assert (Houtcome : outcome = inr Helper.mkEmptyResult)
      by (vm_compute in Hrun; injection Hrun as <- _; reflexivity).
    subst outcome.
    destruct (proj2 (all_day_due_date_overwrites_timed (F := utc))
                (Sample.march 6 12) Sample.store Sample.updateCallDates _
                store' "2024-03-10T12:30:00Z"%string "2024-03-12"%string
                Hrun eq_refl eq_refl)
      as (located & updated & date & Hloc & Hfind & Hparse & _ & Hdue & _).
    vm_compute in Hparse. injection Hparse as <-.
    vm_compute in Hloc. injection Hloc as <-.
    exists store', updated.
    split; [reflexivity|]. split; [exact Hfind|exact Hdue].
Defined.

Lemma remind_me_date_replaces_alarms_witness :
  (exists created,
     Helper.operationCreateReminder "r6" Sample.store Sample.createEggs
     = (inr (Helper.mkCreateIdResult "r6"),
        Helper.save Sample.store created)
     /\ Helper.alarms created
        = Some [Helper.EKAlarm_absoluteDate
                  (instant 2024 3 11 18 0 0 500)])
  /\ (exists store' updated,
        Helper.operationUpdateReminder (Sample.march 6 12)
          (Helper.mkStore [Sample.work] [Sample.callDentist])
          (Helper.mkUpdateReminderPayload "Work" "Call" None None None None
             (Some "2024-03-11T18:00:00.500Z"%string) None None)
        = (inr Helper.mkEmptyResult, store')
        /\ Helper.reminderWithIdentifier store' "r2" = Some updated
        /\ List.length (orElse (Helper.alarms Sample.callDentist) []) = 3%nat
        /\ Helper.alarms updated
           = Some [Helper.EKAlarm_absoluteDate
                     (instant 2024 3 11 18 0 0 500)]).
Proof.
  split.
  - destruct (Helper.operationCreateReminder "r6" Sample.store
                Sample.createEggs) as [outcome store'] eqn:Hrun.
    assert (Houtcome : outcome = inr (Helper.mkCreateIdResult "r6"))
      by (vm_compute in Hrun; injection Hrun as <- _; reflexivity).
    subst outcome.
    destruct (proj1 (remind_me_date_replaces_alarms (F := utc))
                "r6"%string Sample.store Sample.createEggs _ store'
                "2024-03-11T18:00:00.500Z"%string Hrun eq_refl)
      as (created & date & Hfind & Hparse & Halarms & _).
    vm_compute in Hparse. injection Hparse as <-.
    exists created. split; [|exact Halarms].
    vm_compute in Hrun. injection Hrun as <-.
    vm_compute in Hfind. injection Hfind as <-. reflexivity.
  - match goal with
    | |- exists store' updated, ?run = _ /\ _ =>
        destruct run as [outcome store'] eqn:Hrun
    end.
    assert (Houtcome : outcome = inr Helper.mkEmptyResult)
      by (vm_compute in Hrun; injection Hrun as <- _; reflexivity).
    subst outcome.
    destruct (proj2 (remind_me_date_replaces_alarms (F := utc))
                _ _ _ _ store' "2024-03-11T18:00:00.500Z"%string
                Hrun eq_refl)
      as (located & updated & date & Hloc & Hfind & Hparse & Halarms & _).
    vm_compute in Hparse. injection Hparse as <-.
    vm_compute in Hloc. injection Hloc as <-.
    exists store', updated.
    split; [reflexivity|]. split; [exact Hfind|].
    split; [reflexivity|exact Halarms].
Defined.

Lemma update_assigns_only_given_fields_witness :
  exists store' updated,
    Helper.operationUpdateReminder (Sample.march 6 12) Sample.store
      Sample.completeCall = (inr Helper.mkEmptyResult, store')
    /\ Helper.reminderWithIdentifier store' "r1" = Some updated
    /\ Helper.title updated = "Call"%string
    /\ Helper.isCompleted updated = true
    /\ Helper.completionDate updated = Some (Sample.march 6 12)
    /\ Helper.priority updated = 0
    /\ Helper.reminderWithIdentifier store' "r2" = Some Sample.callDentist.
Proof.
  destruct (Helper.operationUpdateReminder (Sample.march 6 12) Sample.store
              Sample.completeCall) as [outcome store'] eqn:Hrun.
  assert (Houtcome : outcome = inr Helper.mkEmptyResult)
    by (vm_compute in Hrun; injection Hrun as <- _; reflexivity).
  subst outcome.
  destruct (update_assigns_only_given_fields (F := utc) _ _ _ _ _ Hrun)
    as (located & updated & Hloc & Hfind & Htitle & _ & _ & _ & Hpriority
        & Hdone & _ & Hothers).
  vm_compute in Hloc. injection Hloc as <-.
  simpl in Htitle, Hpriority, Hdone, Hfind. destruct Hdone as [Hdone Hwhen].
  exists store', updated.
  split; [reflexivity|]. split; [exact Hfind|]. split; [exact Htitle|].
  split; [exact Hdone|]. split; [exact Hwhen|]. split; [exact Hpriority|].
  rewrite (Hothers "r2"%string); [reflexivity | discriminate].
Defined.

(** ** Looking a reminder up by name *)

Lemma find_first {A : Type} (p : A -> bool) (l : list A) (x : A) :
  find p l = Some x ->
  exists earlier later,
    l = (earlier ++ x :: later)%list
    /\ p x = true
    /\ forall y, In y earlier -> p y = false.
Proof.
  induction l as [|a rest IH]; simpl; [discriminate|].
  destruct (p a) eqn:Ha.
  - intros E. injection E as <-. exists [], rest.
    split; [reflexivity|]. split; [exact Ha|]. intros y [].
  - intros E. destruct (IH E) as (earlier & later & -> & Hx & Hnone).
    exists (a :: earlier), later.
    split; [reflexivity|]. split; [exact Hx|].
    intros y [<-|Hin]; [exact Ha | apply Hnone, Hin].
Qed.

Section Lookup.
Context `{F : Foundation}.
Import Helper.

(** The reminder [locateReminderByName] returns is the first one with the
    name among the reminders of the list as the store reports them. *)
Lemma locateReminderByName_first (store : EKEventStore)
    (listName reminderName : string) (located : EKReminder) :
  locateReminderByName store listName reminderName = inr located ->
  exists list earlier later,
    calendarByName listName (allReminderCalendars store) = Some list
    /\ fetchReminders store (Some [list])
       = inr (earlier ++ located :: later)%list
    /\ title located = reminderName
    /\ forall r, In r earlier -> title r <> reminderName.
Proof.
  unfold locateReminderByName.
  destruct (calendarByName listName (allReminderCalendars store))
    as [list|]; [|discriminate].
  simpl. unfold first.
  destruct (find (fun r => String.eqb (title r) reminderName)
              (filter (inCalendars [list]) (reminders store)))
    as [found|] eqn:Hfind; [|discriminate].
  intros E. injection E as <-.
  destruct (find_first _ _ _ Hfind) as (earlier & later & Hsplit & Hx & Hnone).
  exists list, earlier, later.
  split; [reflexivity|]. split; [rewrite Hsplit; reflexivity|].
  split; [apply String.eqb_eq, Hx|].
  intros r Hin. apply String.eqb_neq, Hnone, Hin.
Qed.

Lemma operationDeleteReminder_inv (store store' : EKEventStore)
    (payload : DeleteReminderPayload) (result : EmptyResult) :
  operationDeleteReminder store payload = (inr result, store') ->
  exists located,
    locateReminderByName store (d_listName payload) (d_reminderName payload)
      = inr located
    /\ store' = remove store located.
Proof.
  unfold operationDeleteReminder, committed.
  destruct (locateReminderByName store (d_listName payload)
              (d_reminderName payload)) as [e|located]; simpl;
    [discriminate|].
  intros E. injection E as _ <-. exists located. split; reflexivity.
Qed.

(** C6, as the helper has it.  An update or a deletion that succeeds acts on
    the first reminder with the target name among the reminders of the list
    in the order in which the store reports them: no reminder reported
    earlier has the name.  The sort order plays no part in the lookup. *)
Theorem name_lookup_takes_first_fetched :
  (forall now store payload result store',
     operationUpdateReminder now store payload = (inr result, store') ->
     exists list located updated earlier later,
       calendarByName (u_listName payload) (allReminderCalendars store)
         = Some list
       /\ fetchReminders store (Some [list])
          = inr (earlier ++ located :: later)%list
       /\ title located = u_reminderName payload
       /\ (forall r, In r earlier -> title r <> u_reminderName payload)
       /\ applyUpdates now payload located = inr updated
       /\ store' = save store updated)
  /\ (forall store payload result store',
        operationDeleteReminder store payload = (inr result, store') ->
        exists list located earlier later,
          calendarByName (d_listName payload) (allReminderCalendars store)
            = Some list
          /\ fetchReminders store (Some [list])
             = inr (earlier ++ located :: later)%list
          /\ title located = d_reminderName payload
          /\ (forall r, In r earlier -> title r <> d_reminderName payload)
          /\ store' = remove store located).
Proof.
  split.
  - intros now store payload result store' Hrun.
    apply operationUpdateReminder_inv in Hrun
      as (_ & located & updated & Hloc & Hupd & Hstore).
    destruct (locateReminderByName_first _ _ _ _ Hloc)
      as (list & earlier & later & Hlist & Hfetch & Htitle & Hnone).
    exists list, located, updated, earlier, later. repeat split; auto.
  - intros store payload result store' Hrun.
    apply operationDeleteReminder_inv in Hrun as (located & Hloc & Hstore).
    destruct (locateReminderByName_first _ _ _ _ Hloc)
      as (list & earlier & later & Hlist & Hfetch & Htitle & Hnone).
    exists list, located, earlier, later. repeat split; auto.
Qed.

End Lookup.

Lemma name_lookup_takes_first_fetched_witness :
  exists earlier later,
    Helper.operationDeleteReminder Sample.store Sample.deleteCall
    = (inr Helper.mkEmptyResult, Helper.remove Sample.store Sample.callBack)
    /\ Helper.fetchReminders Sample.store (Some [Sample.work])
       = inr (earlier ++ Sample.callBack :: later)%list
    /\ earlier = [].
Proof.
  destruct (proj2 (name_lookup_takes_first_fetched (F := utc))
              Sample.store Sample.deleteCall Helper.mkEmptyResult
              (Helper.remove Sample.store Sample.callBack) eq_refl)
    as (list & located & earlier & later & Hlist & Hfetch & Htitle & Hnone
        & Hstore).
  vm_compute in Hlist. injection Hlist as <-.
  exists earlier, later. split; [reflexivity|].
  destruct earlier as [|r earlier].
  - simpl in Hfetch. vm_compute in Hfetch. injection Hfetch as <- <-.
    split; reflexivity.
  - exfalso. vm_compute in Hfetch. injection Hfetch as Hr _.
    apply (Hnone r); [left; reflexivity|]. rewrite <- Hr. reflexivity.
Defined.

(** On the sample store the list "Work" holds two reminders named "Call".
    The one with a due date comes first in sort order; the lookup returns
    the other one, which the store reports first, and a deletion and an
    update act on that one and leave the one with the due date alone. *)
Lemma name_lookup_in_sort_order_counterexample :
  Helper.firstMatchInSortOrder Sample.store "Work" "Call"
    = inr Sample.callDentist
  /\ Helper.locateReminderByName Sample.store "Work" "Call"
     = inr Sample.callBack
  /\ Sample.callBack <> Sample.callDentist
  /\ Helper.operationDeleteReminder Sample.store Sample.deleteCall
     = (inr Helper.mkEmptyResult, Helper.remove Sample.store Sample.callBack)
  /\ Helper.reminderWithIdentifier
       (Helper.remove Sample.store Sample.callBack) "r2"
     = Some Sample.callDentist
  /\ Helper.reminderWithIdentifier
       (Helper.remove Sample.store Sample.callBack) "r1" = None
  /\ Helper.operationUpdateReminder (Sample.march 6 12) Sample.store
       Sample.completeCall
     = (inr Helper.mkEmptyResult,
        Helper.save Sample.store
          (Helper.set_completionDate (Some (Sample.march 6 12))
             (Helper.set_isCompleted true Sample.callBack)))
  /\ Helper.reminderWithIdentifier
       (snd (Helper.operationUpdateReminder (Sample.march 6 12) Sample.store
               Sample.completeCall)) "r2"
     = Some Sample.callDentist.
Proof.
  split; [reflexivity|]. split; [reflexivity|].
  split; [discriminate|].
  repeat split; reflexivity.
Qed.

(** ** Normalizing the timestamps of the wire *)

Section Normalizer.
Context `{J : JSRuntime}.
Import Service.

Lemma parseDate_absent (value : option string) :
  absentOrUnparseable value -> parseDate value = None.
Proof.
  intros [->|[->|(text & -> & Hparse)]]; simpl; try reflexivity.
  destruct (nonEmpty text); [exact Hparse | reflexivity].
Qed.

Lemma parseDate_present (text : string) (date : Date) :
  text <> EmptyString -> Date_parse text = Some date ->
  parseDate (Some text) = Some date.
Proof.
  intros Hne Hparse. simpl. destruct text; [congruence|]. exact Hparse.
Qed.

(** C8. In the canonical reminder, a completion, due, all-day or notification
    timestamp that the wire record lacks, or gives as a text that is empty or
    not a date, is absent (so it is not the epoch, nor any other instant); a
    creation or modification timestamp in that case is the current time
    [now].  A text that is a date gives that date in all six places. *)
Theorem mapReminder_timestamps (now : Date) (reminder : HelperReminder) :
  (absentOrUnparseable (h_completionDate reminder) ->
   completionDate (mapReminder now reminder) = None)
  /\ (absentOrUnparseable (h_dueDate reminder) ->
      dueDate (mapReminder now reminder) = None)
  /\ (absentOrUnparseable (h_allDayDueDate reminder) ->
      allDayDueDate (mapReminder now reminder) = None)
  /\ (absentOrUnparseable (h_remindMeDate reminder) ->
      remindMeDate (mapReminder now reminder) = None)
  /\ (absentOrUnparseable (h_creationDate reminder) ->
      creationDate (mapReminder now reminder) = now)
  /\ (absentOrUnparseable (h_modificationDate reminder) ->
      modificationDate (mapReminder now reminder) = now)
  /\ (forall text date,
        text <> EmptyString -> Date_parse text = Some date ->
        (h_completionDate reminder = Some text ->
         completionDate (mapReminder now reminder) = Some date)
        /\ (h_dueDate reminder = Some text ->
            dueDate (mapReminder now reminder) = Some date)
        /\ (h_allDayDueDate reminder = Some text ->
            allDayDueDate (mapReminder now reminder) = Some date)
        /\ (h_remindMeDate reminder = Some text ->
            remindMeDate (mapReminder now reminder) = Some date)
        /\ (h_creationDate reminder = Some text ->
            creationDate (mapReminder now reminder) = date)
        /\ (h_modificationDate reminder = Some text ->
            modificationDate (mapReminder now reminder) = date)).
Proof.
  unfold mapReminder; simpl.
  repeat (split;
    [intros Habsent; rewrite (parseDate_absent _ Habsent); reflexivity|]).
  intros text date Hne Hparse.
  repeat split; intros Hfield;
    rewrite Hfield, (parseDate_present _ _ Hne Hparse); reflexivity.
Qed.

End Normalizer.

Lemma mapReminder_timestamps_witness :
  Service.absentOrUnparseable (Service.h_completionDate Sample.wireRecord)
  /\ Service.absentOrUnparseable (Service.h_dueDate Sample.wireRecord)
  /\ Service.absentOrUnparseable (Service.h_creationDate Sample.wireRecord)
  /\ Service.completionDate (Service.mapReminder 1234 Sample.wireRecord)
     = None
  /\ Service.dueDate (Service.mapReminder 1234 Sample.wireRecord) = None
  /\ Service.creationDate (Service.mapReminder 1234 Sample.wireRecord) = 1234
  /\ Service.modificationDate (Service.mapReminder 1234 Sample.wireRecord)
     = instant 2024 3 1 9 0 0 0.
Proof.
  assert (H1 : Service.absentOrUnparseable
                 (Service.h_completionDate Sample.wireRecord))
    by (left; reflexivity).
  assert (H2 : Service.absentOrUnparseable
                 (Service.h_dueDate Sample.wireRecord))
    by (right; right; exists "soon"%string; split; reflexivity).
  assert (H3 : Service.absentOrUnparseable
                 (Service.h_creationDate Sample.wireRecord))
    by (right; left; reflexivity).
  destruct (mapReminder_timestamps (J := engine) 1234 Sample.wireRecord)
    as (Hcompletion & Hdue & _ & _ & Hcreation & _ & Hdates).
  destruct (Hdates "2024-03-01T09:00:00.000Z"%string (instant 2024 3 1 9 0 0 0))
    as (_ & _ & _ & _ & _ & Hmodification); [discriminate | reflexivity |].
  split; [exact H1|]. split; [exact H2|]. split; [exact H3|].
  split; [exact (Hcompletion H1)|]. split; [exact (Hdue H2)|].
  split; [exact (Hcreation H3)|]. exact (Hmodification eq_refl).
Defined.

(** ** Decoding the envelope *)

Lemma nonEmpty_false (s : string) : nonEmpty s = false <-> s = EmptyString.
Proof. destruct s; simpl; split; congruence. Qed.

Lemma mentions_middle (before needle after : string) :
  mentions needle (before ++ needle ++ after).
Proof. exists before, after. reflexivity. Qed.

Lemma mentions_self (s : string) : mentions s s.
Proof.
  exists EmptyString, EmptyString. simpl.
  induction s as [|c s IH]; simpl; [reflexivity|]. f_equal. exact IH.
Qed.

Lemma mentions_empty (s : string) : mentions EmptyString s.
Proof. exists EmptyString, s. reflexivity. Qed.

Lemma mentions_after (before needle text : string) :
  mentions needle text -> mentions needle (before ++ text).
Proof.
  intros (p & q & ->). exists (before ++ p)%string, q.
  induction before as [|c b IH]; simpl; [reflexivity|]. f_equal. exact IH.
Qed.

Section Envelope.
Context `{J : JSRuntime}.
Import Service.

Lemma parseEnvelope_blank (stdout op : string) :
  trim stdout = EmptyString ->
  parseEnvelope stdout op
  = inl (Error ("EventKit helper returned empty response for operation '"
                ++ op ++ "'")).
Proof. intros Hblank. unfold parseEnvelope. rewrite Hblank. reflexivity. Qed.

Lemma parseEnvelope_notJSON (stdout op : string) :
  trim stdout <> EmptyString -> JSON_parse (trim stdout) = None ->
  parseEnvelope stdout op
  = inl (Error ("Failed to parse EventKit helper response for '"
                ++ op ++ "': " ++ trim stdout)).
Proof.
  intros Hne Hparse. unfold parseEnvelope.
  destruct (nonEmpty (trim stdout)) eqn:E.
  - simpl. rewrite Hparse. reflexivity.
  - apply nonEmpty_false in E. contradiction.
Qed.

Lemma parseEnvelope_unreadable (stdout op : string) :
  blankOrNotJSON stdout ->
  exists msg,
    parseEnvelope stdout op = inl (Error msg) /\ mentions op msg.
Proof.
  intros Hbad.
  destruct (nonEmpty (trim stdout)) eqn:E.
  - destruct Hbad as [Hblank|Hparse].
    + rewrite Hblank in E. discriminate.
    + eexists. split.
      * apply parseEnvelope_notJSON; [|exact Hparse].
        intros Hblank. rewrite Hblank in E. discriminate.
      * apply mentions_middle.
  - apply nonEmpty_false in E. eexists. split.
    + apply parseEnvelope_blank, E.
    + apply mentions_middle.
Qed.

(** An error envelope: the thrown message is the envelope's, or names the
    operation when the envelope's is empty. *)
Lemma parseEnvelope_failure (stdout op : string)
    (fields : list (string * JSValue)) (text : string) :
  trim stdout <> EmptyString ->
  JSON_parse (trim stdout) = Some (JObject fields) ->
  lookupField "ok" fields = Some (JBool false) ->
  lookupField "error" fields = Some (JString text) ->
  parseEnvelope stdout op
  = inl (Error (if nonEmpty text then text
                else "EventKit helper failed for operation '" ++ op ++ "'")).
Proof.
  intros Hne Hparse Hok Herror. unfold parseEnvelope.
  destruct (nonEmpty (trim stdout)) eqn:E;
    [|apply nonEmpty_false in E; contradiction].
  simpl. rewrite Hparse. simpl. rewrite Hok. simpl. rewrite Herror. simpl.
  destruct (nonEmpty text); reflexivity.
Qed.

(** What [runHelper] does with what the [try] block threw when nothing, or
    only blanks, came with it on standard output. *)
Lemma runHelper_fallback (op : string) (err : JSError) :
  trimmedNonEmpty (err_stdout err) = false ->
  runHelper op (Rejected err)
  = inl (Error ("EventKit operation '" ++ op ++ "' failed: "
                ++ failureDetails err)).
Proof. intros Hblank. unfold runHelper. rewrite Hblank. reflexivity. Qed.

Lemma runHelper_resolved_error (op stdout msg : string) :
  parseEnvelope stdout op = inl (Error msg) ->
  runHelper op (Resolved stdout)
  = inl (Error ("EventKit operation '" ++ op ++ "' failed: " ++ msg)).
Proof. intros Hparse. unfold runHelper. rewrite Hparse. reflexivity. Qed.

Lemma runHelper_rejected_printed (op stdout : string) (err : JSError) :
  err_stdout err = Some stdout -> trim stdout <> EmptyString ->
  runHelper op (Rejected err)
  = match parseEnvelope stdout op with
    | inr result => inr result
    | inl parseErr => inl (Error (err_message parseErr))
    end.
Proof.
  intros Hout Hne. unfold runHelper, trimmedNonEmpty. rewrite Hout. simpl.
  destruct (nonEmpty (trim stdout)) eqn:E;
    [reflexivity | apply nonEmpty_false in E; contradiction].
Qed.

Lemma trimmedNonEmpty_false (s : option string) :
  trimmedNonEmpty s = false <->
  s = None \/ exists v, s = Some v /\ trim v = EmptyString.
Proof.
  destruct s as [v|]; simpl.
  - rewrite nonEmpty_false. split.
    + intros E. right. exists v. split; [reflexivity | exact E].
    + intros [E|(v' & E & Hblank)]; [discriminate|].
      injection E as <-. exact Hblank.
  - split; [intros _; left; reflexivity | reflexivity].
Qed.

(** C7. For an invocation of the helper for operation [op]:
    - standard output that is blank or is not JSON gives an error whose
      message names [op], whether the helper exits with zero or not (and
      also when a failed helper has no standard output at all);
    - an envelope whose [ok] is [false] and whose [error] is a message gives
      an error carrying that message: exactly it when the helper exits
      non-zero, behind the prefix of the operation failure when the helper
      exits with zero (an empty message is replaced by one that names the
      operation);
    - when the helper exits non-zero and printed something, the outcome is
      what decoding the printed envelope gives, a result or an error with
      the message of the decoding; the message of the process failure
      ([stderr], else the message of the error) is used exactly when nothing
      but blanks was printed. *)
Theorem runHelper_envelope_errors (op : string) :
  (forall stdout,
     blankOrNotJSON stdout ->
     (exists msg,
        parseEnvelope stdout op = inl (Error msg) /\ mentions op msg)
     /\ (exists msg,
           runHelper op (Resolved stdout) = inl (Error msg)
           /\ mentions op msg)
     /\ (forall err,
           err_stdout err = Some stdout ->
           exists msg,
             runHelper op (Rejected err) = inl (Error msg)
             /\ mentions op msg))
  /\ (forall err,
        err_stdout err = None ->
        exists msg,
          runHelper op (Rejected err) = inl (Error msg) /\ mentions op msg)
  /\ (forall stdout fields text,
        trim stdout <> EmptyString ->
        JSON_parse (trim stdout) = Some (JObject fields) ->
        lookupField "ok" fields = Some (JBool false) ->
        lookupField "error" fields = Some (JString text) ->
        exists msg,
          mentions text msg
          /\ (text <> EmptyString -> msg = text)
          /\ parseEnvelope stdout op = inl (Error msg)
          /\ (forall err,
                err_stdout err = Some stdout ->
                runHelper op (Rejected err) = inl (Error msg))
          /\ runHelper op (Resolved stdout)
             = inl (Error ("EventKit operation '" ++ op ++ "' failed: "
                           ++ msg)))
  /\ (forall err stdout,
        err_stdout err = Some stdout ->
        trim stdout <> EmptyString ->
        runHelper op (Rejected err)
        = match parseEnvelope stdout op with
          | inr result => inr result
          | inl parseErr => inl (Error (err_message parseErr))
          end)
  /\ (forall err,
        (err_stdout err = None
         \/ exists stdout,
              err_stdout err = Some stdout /\ trim stdout = EmptyString) ->
        runHelper op (Rejected err)
        = inl (Error ("EventKit operation '" ++ op ++ "' failed: "
                      ++ failureDetails err))).
Proof.
  split; [|split; [|split; [|split]]].
  - intros stdout Hbad.
    destruct (parseEnvelope_unreadable stdout op Hbad) as (msg & Hparse & Hop).
    split; [exists msg; split; assumption|]. split.
    + eexists. split; [apply runHelper_resolved_error, Hparse|].
      apply mentions_middle.
    + intros err Hout.
      destruct (nonEmpty (trim stdout)) eqn:E.
      * exists msg. split; [|exact Hop].
        rewrite (runHelper_rejected_printed op stdout err Hout).
        -- rewrite Hparse. reflexivity.
        -- intros Hblank. rewrite Hblank in E. discriminate.
      * apply nonEmpty_false in E. eexists. split.
        -- apply runHelper_fallback, trimmedNonEmpty_false.
           right. exists stdout. split; assumption.
        -- apply mentions_middle.
  - intros err Hout. eexists. split.
    + apply runHelper_fallback, trimmedNonEmpty_false. left. exact Hout.
    + apply mentions_middle.
  - intros stdout fields text Hne Hparse Hok Herror.
    pose proof (parseEnvelope_failure stdout op fields text
                  Hne Hparse Hok Herror) as Hfail.
    eexists. split; [|split; [|split; [exact Hfail|split]]].
    + destruct text; simpl; [apply mentions_empty | apply mentions_self].
    + intros Htext. destruct text; [congruence | reflexivity].
    + intros err Hout.
      rewrite (runHelper_rejected_printed op stdout err Hout Hne), Hfail.
      reflexivity.
    + apply runHelper_resolved_error, Hfail.
  - intros err stdout Hout Hne. apply runHelper_rejected_printed; assumption.
  - intros err Hblank. apply runHelper_fallback, trimmedNonEmpty_false, Hblank.
Qed.

End Envelope.

Lemma runHelper_envelope_errors_witness :
  Service.runHelper "deleteList" (Service.Rejected Sample.failedHelper)
  = inl (Service.Error "List 'Chores' not found")
  /\ Service.runHelper "deleteList" (Service.Resolved "  ")
     = inl (Service.Error
              ("EventKit operation 'deleteList' failed: "
               ++ "EventKit helper returned empty response for operation "
               ++ "'deleteList'"))
  /\ Service.runHelper "deleteList" (Service.Rejected Sample.missingHelper)
     = inl (Service.Error
              ("EventKit operation 'deleteList' failed: "
               ++ "spawn reminders-eventkit-helper ENOENT")).
Proof.
  destruct (runHelper_envelope_errors (J := engine) "deleteList")
    as (Hunreadable & _ & Hfailure & _ & Hfallback).
  split; [|split].
  - destruct (Hfailure
                (Sample.errorEnvelope ++ String "010"%char EmptyString)%string
                [("ok"%string, JBool false);
                 ("error"%string, JString "List 'Chores' not found")]
                "List 'Chores' not found"%string)
      as (msg & _ & Hmsg & _ & Hrejected & _);
      [vm_compute; discriminate | reflexivity | reflexivity | reflexivity |].
    rewrite (Hrejected Sample.failedHelper eq_refl).
    rewrite Hmsg; [reflexivity | discriminate].
  - destruct (Hunreadable "  "%string) as (_ & (msg & Hrun & _) & _);
      [left; reflexivity|].
    rewrite Hrun. vm_compute in Hrun. injection Hrun as <-. reflexivity.
  - rewrite (Hfallback Sample.missingHelper); [reflexivity|].
    left. reflexivity.
Defined.

(* ================================================================= *)
(** * Further properties of the helper *)

(** ** The notification date and the due date of a record *)

Lemma In_compactMap {A B : Type} (f : A -> option B) (l : list A) (b : B) :
  In b (Helper.compactMap f l) <-> exists a, In a l /\ f a = Some b.
Proof.
  induction l as [|x rest IH]; simpl.
  - split; [intros [] | intros (a & [] & _)].
  - destruct (f x) as [y|] eqn:Hx; simpl; rewrite IH; split.
    + intros [<-|(a & Hin & Ha)]; [exists x | exists a]; auto.
    + intros (a & [<-|Hin] & Ha); [left; congruence | right; exists a; auto].
    + intros (a & Hin & Ha). exists a. auto.
    + intros (a & [<-|Hin] & Ha); [congruence | exists a; auto].
Qed.

Lemma absoluteDate_Some (a : Helper.EKAlarm) (d : Date) :
  Helper.absoluteDate a = Some d <-> a = Helper.EKAlarm_absoluteDate d.
Proof. destruct a; simpl; split; congruence. Qed.

(** The head of a sorted list of dates is one of them and the least. *)
Lemma sorted_ltb_head (l : list Z) :
  match hd_error (sorted Z.ltb l) with
  | Some d => In d l /\ forall d', In d' l -> d <= d'
  | None => l = []
  end.
Proof.
  pose proof (sorted_permutation Z.ltb l) as Hperm.
  assert (Hsorted :
    StronglySorted (fun earlier later => (later <? earlier) = false)
      (sorted Z.ltb l)).
  { apply sorted_ordered.
    - intros a b Hab. apply Z.ltb_lt in Hab. apply Z.ltb_ge. lia.
    - intros a b c Hba Hcb. apply Z.ltb_ge in Hba, Hcb. apply Z.ltb_ge. lia. }
  destruct (sorted Z.ltb l) as [|d rest]; simpl.
  - apply Permutation_sym, Permutation_nil in Hperm. exact Hperm.
  - inversion Hsorted as [|? ? _ Hall]; subst. split.
    + eapply Permutation_in; [apply Permutation_sym, Hperm|]. left. reflexivity.
    + intros d' Hin. eapply Permutation_in in Hin; [|exact Hperm].
      destruct Hin as [<-|Hin]; [lia|].
      rewrite Forall_forall in Hall. apply Hall in Hin.
      apply Z.ltb_ge in Hin. exact Hin.
Qed.

Section Records.
Context `{F : Foundation}.
Import Helper.

(** X1. The notification date of a reminder is the date of one of its
    absolute alarms and is not later than the date of any of them; there is
    none exactly when the reminder has no alarms or only relative ones. *)
Theorem remindMeDate_earliest_alarm (reminder : EKReminder) :
  match remindMeDate reminder with
  | Some date =>
      exists attached,
        alarms reminder = Some attached
        /\ In (EKAlarm_absoluteDate date) attached
        /\ forall other,
             In (EKAlarm_absoluteDate other) attached -> date <= other
  | None =>
      alarms reminder = None
      \/ exists attached,
           alarms reminder = Some attached
           /\ forall other, ~ In (EKAlarm_absoluteDate other) attached
  end.
Proof.
  unfold remindMeDate. destruct (alarms reminder) as [attached|];
    [|left; reflexivity].
  pose proof (sorted_ltb_head (compactMap absoluteDate attached)) as Hhead.
  destruct (hd_error (sorted Z.ltb (compactMap absoluteDate attached)))
    as [date|].
  - destruct Hhead as [Hin Hleast]. exists attached.
    split; [reflexivity|]. split.
    + apply In_compactMap in Hin as (a & Ha & Hdate).
      apply absoluteDate_Some in Hdate. subst a. exact Ha.
    + intros other Hother. apply Hleast, In_compactMap.
      exists (EKAlarm_absoluteDate other). split; [exact Hother|reflexivity].
  - right. exists attached. split; [reflexivity|].
    intros other Hother.
    assert (Hin : In other (compactMap absoluteDate attached)).
    { apply In_compactMap. exists (EKAlarm_absoluteDate other).
      split; [exact Hother|reflexivity]. }
    rewrite Hhead in Hin. exact Hin.
Qed.

(** X2. In the record of a reminder the due date is given exactly when the
    calendar turns the due date components into a date.  The all-day due
    date is either left out or the very text of the due date; it is given
    exactly when there is a due date whose components have no hour, no
    minute and no second. *)
Theorem mapReminder_due_dates (reminder : EKReminder) :
  let record := mapReminder reminder in
  (rec_dueDate record = None <-> dueDate reminder = None)
  /\ (rec_allDayDueDate record = None
      \/ rec_allDayDueDate record = rec_dueDate record)
  /\ (rec_allDayDueDate record <> None <->
      exists components,
        dueDateComponents reminder = Some components
        /\ calendarDate components <> None
        /\ hour components = None
        /\ minute components = None
        /\ second components = None).
Proof.
  unfold mapReminder, isAllDayDueDate, dueDate. simpl.
  destruct (dueDateComponents reminder) as [components|]; simpl.
  - destruct (calendarDate components) as [date|] eqn:Hdate; simpl;
      destruct (hour components) as [h|] eqn:Hh,
        (minute components) as [m|] eqn:Hm,
        (second components) as [s|] eqn:Hs; simpl;
      (split; [split; congruence|]);
      (split; [first [left; reflexivity | right; reflexivity]|]);
      (split;
       [ first [ intros _; exists components; repeat split; congruence
               | intros Habs; congruence ]
       | intros (c & Hc & Hd & Hh' & Hm' & Hs'); injection Hc as <-;
         congruence ]).
  - split; [split; reflexivity|]. split; [left; reflexivity|].
    split; [congruence|]. intros (c & Hc & _). discriminate.
Qed.

End Records.

(** ** What a listing holds *)

Lemma In_page {A : Type} (n m : nat) (l : list A) (x : A) :
  In x (firstn n (skipn m l)) -> In x l.
Proof.
  intros Hin.
  rewrite <- (firstn_skipn m l). apply in_or_app. right.
  rewrite <- (firstn_skipn n (skipn m l)). apply in_or_app. left. exact Hin.
Qed.

Section ListingContents.
Context `{F : Foundation}.
Import Helper.

Lemma selectCalendars_outcome (listName : option string)
    (calendars : list EKCalendar) :
  selectCalendars listName calendars =
  match listName with
  | None => inr None
  | Some name =>
      match calendarByName name calendars with
      | None => inl (message ("List '" ++ name ++ "' not found"))
      | Some list => inr (Some [list])
      end
  end.
Proof. destruct listName; reflexivity. Qed.

(** X3. A listing and a count fail with the error "List '...' not found"
    exactly for a list name that no list has, whatever the other parameters
    are; and whenever a listing and a count with the same filter both
    succeed, the total of the listing is the count, whatever the limit and
    the offset, and the page holds no more records than that. *)
Theorem unknown_list_fails_listing_and_counting (store : EKEventStore)
    (listName : option string) (completed : option bool)
    (limit offset : option Z) :
  let listing :=
    operationListReminders store
      (mkListRemindersPayload listName completed limit offset) in
  let counting :=
    operationCountReminders store
      (mkCountRemindersPayload listName completed) in
  (forall name,
     listName = Some name ->
     (calendarByName name (allReminderCalendars store) = None <->
      listing = inl (message ("List '" ++ name ++ "' not found")))
     /\ (calendarByName name (allReminderCalendars store) = None <->
         counting = inl (message ("List '" ++ name ++ "' not found"))))
  /\ (forall listed counted,
        listing = inr listed ->
        counting = inr counted ->
        res_total listed = res_count counted
        /\ count (res_reminders listed) <= res_count counted).
Proof.
  simpl. rewrite operationListReminders_filtered,
    operationCountReminders_filtered. unfold filteredReminders. simpl.
  rewrite selectCalendars_outcome. split.
  - intros name ->.
    destruct (calendarByName name (allReminderCalendars store)); simpl.
    + unfold ok. split; split; discriminate.
    + split; split; reflexivity.
  - intros listed counted.
    destruct listName as [name|];
      [destruct (calendarByName name (allReminderCalendars store))|];
      unfold ok; simpl; try discriminate;
      intros E1 E2; injection E1 as <-; injection E2 as <-; simpl;
      rewrite count_sortReminders; (split; [reflexivity|]);
      unfold count, prefix, dropFirst;
      rewrite length_map, length_firstn, length_skipn;
      unfold sortReminders; rewrite sorted_length; lia.
Qed.

Lemma filteredReminders_selects (store : EKEventStore)
    (listName : option string) (completed : option bool)
    (filtered : list EKReminder) :
  filteredReminders store listName completed = inr filtered ->
  forall r, In r filtered <-> selects store listName completed r.
Proof.
  unfold filteredReminders, selects. rewrite selectCalendars_outcome.
  destruct listName as [name|]; simpl.
  - destruct (calendarByName name (allReminderCalendars store))
      as [list|] eqn:Hlist; simpl; [|discriminate].
    intros E. injection E as <-. intros r.
    assert (Hin : In r (filter (inCalendars [list]) (reminders store)) <->
                  In r (reminders store)
                  /\ calendarIdentifier (calendar r) = calendarIdentifier list).
    { rewrite filter_In. unfold inCalendars. simpl. rewrite orb_false_r.
      rewrite String.eqb_eq. intuition congruence. }
    destruct completed as [state|]; simpl; [rewrite filter_In|];
      rewrite Hin; [rewrite Bool.eqb_true_iff|]; split.
    + intros [[Hr Hcal] Hstate]. split; [exact Hr|]. split.
      * intros n En. injection En as <-. exists list. auto.
      * intros st Est. injection Est as <-. exact Hstate.
    + intros (Hr & Hcal & Hstate).
      destruct (Hcal name eq_refl) as (list' & Hl & Hid).
      rewrite Hlist in Hl. injection Hl as <-. auto.
    + intros [Hr Hcal]. split; [exact Hr|]. split.
      * intros n En. injection En as <-. exists list. auto.
      * intros st Est. discriminate.
    + intros (Hr & Hcal & _).
      destruct (Hcal name eq_refl) as (list' & Hl & Hid).
      rewrite Hlist in Hl. injection Hl as <-. auto.
  - intros E. injection E as <-. intros r.
    destruct completed as [state|]; simpl;
      [rewrite filter_In, Bool.eqb_true_iff|]; split.
    + intros [Hr Hstate]. split; [exact Hr|]. split.
      * intros n En. discriminate.
      * intros st Est. injection Est as <-. exact Hstate.
    + intros (Hr & _ & Hstate). auto.
    + intros Hr. split; [exact Hr|]. split; intros ? E; discriminate.
    + intros (Hr & _). exact Hr.
Qed.

(** X4. Every record of a listing is the record of a stored reminder that
    the filter asks for: one of the named list (by the identifier of the
    first list of that name) and in the asked completion state.  A listing
    without an offset, and with a limit that is absent or at least the
    total, holds the record of every such reminder, and the total it
    reports is their number. *)
Theorem listing_holds_what_the_filter_asks_for (store : EKEventStore)
    (payload : ListRemindersPayload) (listed : ListRemindersResult) :
  operationListReminders store payload = inr listed ->
  (forall record,
     In record (res_reminders listed) ->
     exists r,
       record = mapReminder r
       /\ selects store (lr_listName payload) (lr_completed payload) r)
  /\ (res_total listed <= orElse (lr_limit payload) (res_total listed) ->
      orElse (lr_offset payload) 0 <= 0 ->
      (forall r,
         selects store (lr_listName payload) (lr_completed payload) r ->
         In (mapReminder r) (res_reminders listed))
      /\ count (res_reminders listed) = res_total listed).
Proof.
  rewrite operationListReminders_filtered.
  destruct (filteredReminders store (lr_listName payload)
              (lr_completed payload)) as [e|filtered] eqn:Hf; simpl;
    [discriminate|].
  intros E. injection E as <-. simpl.
  pose proof (filteredReminders_selects _ _ _ _ Hf) as Hsel.
  pose proof (sorted_permutation areInIncreasingOrder filtered) as Hperm.
  fold (sortReminders filtered) in Hperm.
  split.
  - intros record Hin. apply in_map_iff in Hin as (r & <- & Hr).
    exists r. split; [reflexivity|]. apply Hsel.
    unfold prefix, dropFirst in Hr. apply In_page in Hr.
    eapply Permutation_in; [apply Permutation_sym, Hperm | exact Hr].
  - intros Hlimit Hoffset. unfold prefix, dropFirst.
    replace (Z.to_nat (Z.max 0 (orElse (lr_offset payload) 0)))
      with 0%nat by lia.
    rewrite skipn_0, firstn_all2 by (unfold count in *; lia).
    split.
    + intros r Hr. apply in_map. eapply Permutation_in; [exact Hperm|].
      apply Hsel, Hr.
    + unfold count. rewrite length_map. reflexivity.
Qed.

End ListingContents.

Section ListingEdges.
Context `{F : Foundation}.
Import Helper.

(** X5. The edges of [limit] and [offset] in a listing.  A limit below 1
    counts as 1 and an absent one as the total; an offset below 0 counts as
    0.  The page holds as many records as the smaller of that limit and
    what the total leaves after that offset: so at most the limit, at most
    the total less the offset, none for an offset at or beyond the total,
    and at least one for an offset before the total of a listing that is
    not empty.  Every other listing with the same filter that succeeds
    reports the same total; one with the limit 1 in place of a limit below
    1, or without the offset in place of an offset below 0, gives the same
    result. *)
Theorem listing_limit_and_offset_edges (store : EKEventStore)
    (listName : option string) (completed : option bool)
    (limit offset : option Z) (listed : ListRemindersResult) :
  operationListReminders store
    (mkListRemindersPayload listName completed limit offset) = inr listed ->
  count (res_reminders listed)
  = Z.min (Z.max 1 (orElse limit (res_total listed)))
      (Z.max 0 (res_total listed - Z.max 0 (orElse offset 0)))
  /\ count (res_reminders listed) <= Z.max 1 (orElse limit (res_total listed))
  /\ count (res_reminders listed)
     <= Z.max 0 (res_total listed - Z.max 0 (orElse offset 0))
  /\ (res_total listed <= orElse offset 0 -> res_reminders listed = [])
  /\ (0 < res_total listed -> orElse offset 0 < res_total listed ->
      res_reminders listed <> [])
  /\ (forall limit' offset' listed',
        operationListReminders store
          (mkListRemindersPayload listName completed limit' offset')
        = inr listed' ->
        res_total listed' = res_total listed)
  /\ (forall l listed',
        limit = Some l -> l <= 1 ->
        operationListReminders store
          (mkListRemindersPayload listName completed (Some 1) offset)
        = inr listed' ->
        listed' = listed)
  /\ (forall o listed',
        offset = Some o -> o <= 0 ->
        operationListReminders store
          (mkListRemindersPayload listName completed limit None)
        = inr listed' ->
        listed' = listed).
Proof.
  rewrite operationListReminders_filtered. simpl.
  destruct (filteredReminders store listName completed)
    as [e|filtered] eqn:Hf; simpl; [discriminate|].
  intros E. injection E as <-. simpl.
  set (full := sortReminders filtered).
  unfold count, prefix, dropFirst.
  split; [|split; [|split; [|split; [|split; [|split; [|split]]]]]].
  - rewrite length_map, length_firstn, length_skipn. lia.
  - rewrite length_map, length_firstn. lia.
  - rewrite length_map, length_firstn, length_skipn. lia.
  - intros Hbeyond. rewrite skipn_all2 by lia.
    destruct (Z.to_nat _); reflexivity.
  - intros Hsome Hwithin Hempty. apply (f_equal (@List.length _)) in Hempty.
    rewrite length_map, length_firstn, length_skipn in Hempty.
    cbn [List.length] in Hempty. lia.
  - intros limit' offset' listed'.
    rewrite operationListReminders_filtered. simpl.
    rewrite Hf. simpl. intros E. injection E as <-. reflexivity.
  - intros l listed' -> Hl. rewrite operationListReminders_filtered. simpl.
    rewrite Hf. simpl. fold full. unfold prefix, dropFirst.
    replace (Z.max 1 l) with (Z.max 1 1) by lia.
    intros E. injection E as <-. reflexivity.
  - intros o listed' -> Ho. rewrite operationListReminders_filtered. simpl.
    rewrite Hf. simpl. fold full. unfold prefix, dropFirst.
    replace (Z.max 0 o) with (Z.max 0 0) by lia.
    intros E. injection E as <-. reflexivity.
Qed.

End ListingEdges.

Lemma listing_limit_and_offset_edges_witness :
  exists listed,
    Helper.operationListReminders Sample.store
      (Helper.mkListRemindersPayload None None (Some (-3)) (Some (-1)))
    = inr listed
    /\ map Helper.rec_id (Helper.res_reminders listed) = ["r2"]%string
    /\ Helper.res_total listed = 5
    /\ Helper.operationListReminders Sample.store
         (Helper.mkListRemindersPayload None None (Some 1) (Some (-1)))
       = inr listed.
Proof.
  destruct (Helper.operationListReminders Sample.store
              (Helper.mkListRemindersPayload None None (Some (-3)) (Some (-1))))
    as [e|listed] eqn:Hrun; [vm_compute in Hrun; discriminate|].
  destruct (listing_limit_and_offset_edges (F := utc) _ _ _ _ _ _ Hrun)
    as (_ & _ & _ & _ & _ & _ & Hlimit & _).
  exists listed. split; [reflexivity|].
  split; [vm_compute in Hrun; injection Hrun as <-; reflexivity|].
  split; [vm_compute in Hrun; injection Hrun as <-; reflexivity|].
  destruct (Helper.operationListReminders Sample.store
              (Helper.mkListRemindersPayload None None (Some 1) (Some (-1))))
    as [e|listed'] eqn:Hone; [vm_compute in Hone; discriminate|].
  rewrite (Hlimit (-3) listed' eq_refl ltac:(lia) eq_refl). reflexivity.
Defined.

Lemma listing_holds_what_the_filter_asks_for_witness :
  exists listed,
    Helper.operationListReminders Sample.store
      (Helper.mkListRemindersPayload (Some "Work"%string) (Some true)
         None None) = inr listed
    /\ Helper.selects Sample.store (Some "Work"%string) (Some true)
         Sample.report
    /\ In (Helper.mapReminder Sample.report) (Helper.res_reminders listed)
    /\ Helper.res_total listed = 1.
Proof.
  destruct (Helper.operationListReminders Sample.store
              (Helper.mkListRemindersPayload (Some "Work"%string) (Some true)
                 None None)) as [e|listed] eqn:Hrun;
    [vm_compute in Hrun; discriminate|].
  destruct (listing_holds_what_the_filter_asks_for (F := utc) _ _ _ Hrun)
    as (_ & Hall).
  destruct Hall as (Hevery & Hcount); [simpl; lia | simpl; lia |].
  assert (Hsel : Helper.selects Sample.store (Some "Work"%string) (Some true)
                   Sample.report).
  { split; [simpl; auto|]. split.
    - intros name E. injection E as <-. exists Sample.work.
      split; reflexivity.
    - intros state E. injection E as <-. reflexivity. }
  exists listed. split; [reflexivity|]. split; [exact Hsel|].
  split; [apply Hevery, Hsel|].
  vm_compute in Hrun. injection Hrun as <-. reflexivity.
Defined.

(** ** When creating and updating succeed *)

Section MutationOutcomesIff.
Context `{F : Foundation}.
Import Helper.

Ltac settle_parseable :=
  match goal with
  | |- parseable _ _ => intros ? E; try discriminate E; injection E as <-;
                        congruence
  | H : parseable ?p (Some ?t), N : ?p ?t = None |- _ =>
      exfalso; exact (H t eq_refl N)
  end.

Ltac failed_creation Hiff :=
  split; [|split; [|split; [|split]]];
  [ rewrite <- Hiff; split;
    [ intros (r & s & E); discriminate E
    | intros (_ & _ & (r3 & E)); discriminate E ]
  | intros E; discriminate E
  | intros _ E; discriminate E
  | intros e s E; injection E as _ <-; reflexivity
  | intros r s E; discriminate E ].

Lemma dated_assignments_succeed_iff (due allDay remind : option string)
    (r : EKReminder) :
  (exists r3,
     (let* r1 := assignDueDate due r in
      let* r2 := assignAllDayDueDate allDay r1 in
      assignRemindMeDate remind r2) = inr r3)
  <-> parseable parseISODate due
      /\ parseable allDayDateFormatter_date allDay
      /\ parseable parseISODate remind.
Proof.
  unfold assignDueDate, assignAllDayDueDate, assignRemindMeDate,
    dateComponentsFromISO, dateComponentsFromAllDay.
  destruct due as [due|]; [destruct (parseISODate due) eqn:Hdue|];
    (destruct allDay as [allDay|];
     [destruct (allDayDateFormatter_date allDay) eqn:HallDay|]);
    (destruct remind as [remind|];
     [destruct (parseISODate remind) eqn:Hremind|]);
    simpl; split;
    try (intros _; repeat split; settle_parseable);
    try (intros (r3 & E); discriminate E);
    try (intros _; eexists; reflexivity);
    intros (H1 & H2 & H3); settle_parseable.
Qed.

(** The cases of [operationCreateReminder] up to its [store.save]. *)
Lemma operationCreateReminder_cases (identifier : string)
    (store : EKEventStore) (payload : CreateReminderPayload) :
  let outcome := operationCreateReminder identifier store payload in
  ((exists result store', outcome = (inr result, store')) <->
   (exists list,
      calendarByName (c_listName payload) (allReminderCalendars store)
      = Some list)
   /\ allWhitespace (c_name payload) = false
   /\ parseable parseISODate (c_dueDate payload)
   /\ parseable allDayDateFormatter_date (c_allDayDueDate payload)
   /\ parseable parseISODate (c_remindMeDate payload))
  /\ (calendarByName (c_listName payload) (allReminderCalendars store) = None ->
      outcome
      = (inl (message ("List '" ++ c_listName payload ++ "' not found")),
         store))
  /\ (calendarByName (c_listName payload) (allReminderCalendars store)
        <> None ->
      allWhitespace (c_name payload) = true ->
      outcome = (inl (message "Reminder name cannot be empty"), store))
  /\ (forall e store', outcome = (inl e, store') -> store' = store)
  /\ (forall result store',
        outcome = (inr result, store') ->
        res_id result = identifier
        /\ calendars store' = calendars store).
Proof.
  simpl. unfold operationCreateReminder, committed.
  destruct (calendarByName (c_listName payload) (allReminderCalendars store))
    as [list|] eqn:Hlist.
  2:{ split; [|split; [|split; [|split]]].
      - split; [intros (r & s & E); discriminate E|].
        intros ((l & Hl) & _). discriminate Hl.
      - reflexivity.
      - congruence.
      - intros e s E. injection E as _ <-. reflexivity.
      - intros r s E. discriminate E. }
  destruct (allWhitespace (c_name payload)) eqn:Hblank.
  { split; [|split; [|split; [|split]]].
    - split; [intros (r & s & E); discriminate E|].
      intros (_ & Hname & _). discriminate Hname.
    - discriminate.
    - reflexivity.
    - intros e s E. injection E as _ <-. reflexivity.
    - intros r s E. discriminate E. }
  set (draft := assignIfPresent (c_body payload)
                  (fun body => set_notes (Some body))
                  (set_title (c_name payload) (newReminder identifier list))).
  pose proof (dated_assignments_succeed_iff (c_dueDate payload)
                (c_allDayDueDate payload) (c_remindMeDate payload) draft)
    as Hiff.
  assert (Hid : forall r1 r2 r3,
            assignDueDate (c_dueDate payload) draft = inr r1 ->
            assignAllDayDueDate (c_allDayDueDate payload) r1 = inr r2 ->
            assignRemindMeDate (c_remindMeDate payload) r2 = inr r3 ->
            calendarItemIdentifier
              (assignIfPresent (c_priority payload) set_priority r3)
            = identifier).
  { intros r1 r2 r3 E1 E2 E3.
    apply assignDueDate_inv in E1. apply assignAllDayDueDate_inv in E2.
    apply assignRemindMeDate_inv in E3.
    unfold draft, assignIfPresent in *.
    destruct (c_dueDate payload); [destruct E1 as (? & _ & E1)|];
      (destruct (c_allDayDueDate payload); [destruct E2 as (? & _ & E2)|]);
      (destruct (c_remindMeDate payload); [destruct E3 as (? & _ & E3)|]);
      subst r3 r2 r1; destruct (c_body payload), (c_priority payload);
      reflexivity. }
  destruct (assignDueDate (c_dueDate payload) draft) as [e1|r1] eqn:E1;
    simpl in *.
  { failed_creation Hiff. }
  destruct (assignAllDayDueDate (c_allDayDueDate payload) r1)
    as [e2|r2] eqn:E2; simpl in *.
  { failed_creation Hiff. }
  destruct (assignRemindMeDate (c_remindMeDate payload) r2)
    as [e3|r3] eqn:E3; simpl in *.
  { failed_creation Hiff. }
  split; [|split; [|split; [|split]]].
  - split.
    + intros _. split; [exists list; reflexivity|]. split; [reflexivity|].
      apply Hiff. exists r3. reflexivity.
    + intros _. eexists. eexists. reflexivity.
  - intros E. discriminate E.
  - intros _ E. discriminate E.
  - intros e s E. discriminate E.
  - intros r s E. injection E as <- <-. split; [|reflexivity].
    simpl. eapply Hid; eauto.
Qed.

(** X6. What creating a reminder answers.  A list name that no list has is
    reported first, as "List '...' not found"; then a name that is blank, as
    "Reminder name cannot be empty"; then a date that is given and cannot
    be read makes the creation fail.  A creation that fails leaves the store
    as it was, so no list is ever made for the reminder.  A creation that
    succeeds had a list of that name, a name that is not blank and dates
    that can be read; it returns the identifier of the new reminder and
    leaves the lists as they were. *)
Theorem operationCreateReminder_outcomes (identifier : string)
    (store : EKEventStore) (payload : CreateReminderPayload) :
  let outcome := operationCreateReminder identifier store payload in
  let known :=
    calendarByName (c_listName payload) (allReminderCalendars store) in
  let readable :=
    parseable parseISODate (c_dueDate payload)
    /\ parseable allDayDateFormatter_date (c_allDayDueDate payload)
    /\ parseable parseISODate (c_remindMeDate payload) in
  (known = None ->
   outcome
   = (inl (message ("List '" ++ c_listName payload ++ "' not found")),
      store))
  /\ (known <> None ->
      allWhitespace (c_name payload) = true ->
      outcome = (inl (message "Reminder name cannot be empty"), store))
  /\ (known <> None ->
      allWhitespace (c_name payload) = false ->
      ~ readable ->
      exists e, outcome = (inl e, store))
  /\ (forall e store', outcome = (inl e, store') -> store' = store)
  /\ (forall result store',
        outcome = (inr result, store') ->
        known <> None
        /\ allWhitespace (c_name payload) = false
        /\ readable
        /\ res_id result = identifier
        /\ calendars store' = calendars store).
Proof.
  simpl.
  destruct (operationCreateReminder_cases identifier store payload)
    as (Hiff & Hmissing & Hblank & Hfailure & Hsuccess).
  split; [exact Hmissing|]. split; [exact Hblank|].
  split; [|split; [exact Hfailure|]].
  - intros _ _ Hunreadable.
    destruct (operationCreateReminder identifier store payload)
      as [[e|result] store'] eqn:Hrun.
    + exists e. rewrite (Hfailure e store' eq_refl). reflexivity.
    + exfalso. apply Hunreadable.
      assert (Hsome : exists r s,
                (inr result, store')
                = (inr r : Result CreateIdResult, s))
        by (eexists; eexists; reflexivity).
      apply Hiff in Hsome as (_ & _ & Hread). exact Hread.
  - intros result store' Hrun.
    assert (Hsome : exists r s,
              operationCreateReminder identifier store payload
              = (inr r, s)) by (eexists; eexists; exact Hrun).
    apply Hiff in Hsome as ((list & Hlist) & Hname & Hread).
    destruct (Hsuccess result store' Hrun) as (Hid & Hcals).
    split; [rewrite Hlist; discriminate|].
    repeat split; try assumption; apply Hread.
Qed.

End MutationOutcomesIff.

Lemma operationCreateReminder_outcomes_witness :
  Helper.operationCreateReminder "r6" Sample.store Sample.createBlank
  = (inl (message "Reminder name cannot be empty"), Sample.store).
Proof.
  destruct (operationCreateReminder_outcomes (F := utc) "r6"%string
              Sample.store Sample.createBlank) as (_ & Hblank & _).
  apply Hblank; [vm_compute; discriminate|vm_compute; reflexivity].
Defined.

(** ** Creating, counting and deleting together *)

Section StoreFacts.
Import Helper.


Lemma saveInto_identifiers (r : EKReminder) (l : list EKReminder) :
  In (calendarItemIdentifier r) (map calendarItemIdentifier l) ->
  map calendarItemIdentifier (saveInto r l) = map calendarItemIdentifier l.
Proof.
  induction l as [|x rest IH]; simpl; intros Hin; [contradiction|].
  unfold sameItem.
  destruct (String.eqb (calendarItemIdentifier x) (calendarItemIdentifier r))
    eqn:E; simpl.
  - apply String.eqb_eq in E. rewrite E. reflexivity.
  - rewrite IH; [reflexivity|]. destruct Hin as [Hx|Hin]; [|exact Hin].
    apply String.eqb_neq in E. congruence.
Qed.


Lemma find_app_none {A : Type} (p : A -> bool) (l tail : list A) :
  (forall x, In x l -> p x = false) -> find p (l ++ tail) = find p tail.
Proof.
  induction l as [|a rest IH]; simpl; intros Hnone; [reflexivity|].
  rewrite (Hnone a (or_introl eq_refl)). apply IH.
  intros x Hin. apply Hnone. right. exact Hin.
Qed.


End StoreFacts.

Section CreateCountDelete.
Context `{F : Foundation}.
Import Helper.




End CreateCountDelete.

(** ** Looking up, updating and deleting *)

Section LookupOutcomes.
Context `{F : Foundation}.
Import Helper.

Lemma locateReminderByName_stored (store : EKEventStore)
    (listName reminderName : string) (located : EKReminder) :
  locateReminderByName store listName reminderName = inr located ->
  In located (reminders store).
Proof.
  intros Hloc.
  destruct (locateReminderByName_first _ _ _ _ Hloc)
    as (list & earlier & later & _ & Hfetch & _).
  simpl in Hfetch. injection Hfetch as Hfetch.
  assert (Hin : In located (filter (inCalendars [list]) (reminders store))).
  { rewrite Hfetch. apply in_or_app. right. left. reflexivity. }
  apply filter_In in Hin. apply Hin.
Qed.

(** X9. What the lookup by name answers.  It fails with "List '...' not
    found" exactly when no list has the list name.  A reminder it returns is
    a stored reminder of the first list of that name and has the reminder
    name.  When it fails with "Reminder '...' not found in list '...'", a
    list has the list name and the first such list holds no reminder with
    the reminder name. *)
Theorem locateReminderByName_outcomes (store : EKEventStore)
    (listName reminderName : string) :
  let outcome := locateReminderByName store listName reminderName in
  let known := calendarByName listName (allReminderCalendars store) in
  (known = None <->
   outcome = inl (message ("List '" ++ listName ++ "' not found")))
  /\ (forall located,
        outcome = inr located ->
        exists list,
          known = Some list
          /\ In located (reminders store)
          /\ calendarIdentifier (calendar located) = calendarIdentifier list
          /\ title located = reminderName)
  /\ (outcome
      = inl (message ("Reminder '" ++ reminderName
                      ++ "' not found in list '" ++ listName ++ "'")) ->
      exists list,
        known = Some list
        /\ forall r,
             In r (reminders store) ->
             calendarIdentifier (calendar r) = calendarIdentifier list ->
             title r <> reminderName).
Proof.
  simpl. unfold locateReminderByName.
  destruct (calendarByName listName (allReminderCalendars store))
    as [list|].
  2:{ split; [split; reflexivity|]. split; [discriminate|].
      simpl. discriminate. }
  simpl. unfold first.
  destruct (find (fun r => String.eqb (title r) reminderName)
              (filter (inCalendars [list]) (reminders store)))
    as [found|] eqn:Hfind; unfold ok, throw.
  - split; [split; discriminate|]. split; [|discriminate].
    intros located E. injection E as <-. exists list.
    split; [reflexivity|].
    apply find_some in Hfind as [Hin Htitle].
    apply filter_In in Hin as [Hin Hcal].
    unfold inCalendars in Hcal. simpl in Hcal. rewrite orb_false_r in Hcal.
    apply String.eqb_eq in Hcal, Htitle. auto.
  - split; [split; discriminate|]. split; [discriminate|].
    intros _. exists list. split; [reflexivity|].
    intros r Hr Hcal. apply String.eqb_neq.
    apply (find_none _ _ Hfind). apply filter_In. split; [exact Hr|].
    unfold inCalendars. simpl. rewrite Hcal, String.eqb_refl. reflexivity.
Qed.

Lemma applyUpdates_succeeds_iff (now : Date)
    (payload : UpdateReminderPayload) (r : EKReminder) :
  (exists r', applyUpdates now payload r = inr r')
  <-> parseable parseISODate (u_dueDate payload)
      /\ parseable allDayDateFormatter_date (u_allDayDueDate payload)
      /\ parseable parseISODate (u_remindMeDate payload).
Proof.
  unfold applyUpdates.
  set (draft := assignIfPresent (u_body payload)
                  (fun body => set_notes (Some body))
                  (assignIfPresent (u_newName payload) set_title r)).
  rewrite <- (dated_assignments_succeed_iff (u_dueDate payload)
                (u_allDayDueDate payload) (u_remindMeDate payload) draft).
  destruct (assignDueDate (u_dueDate payload) draft) as [e1|r1]; simpl;
    [split; intros (x & E); discriminate E|].
  destruct (assignAllDayDueDate (u_allDayDueDate payload) r1) as [e2|r2];
    simpl; [split; intros (x & E); discriminate E|].
  destruct (assignRemindMeDate (u_remindMeDate payload) r2) as [e3|r3];
    simpl; [split; intros (x & E); discriminate E|].
  split; intros _; eexists; reflexivity.
Qed.

(** The cases of [operationUpdateReminder] up to its [store.save]. *)
Lemma operationUpdateReminder_cases (now : Date)
    (store : EKEventStore) (payload : UpdateReminderPayload) :
  let outcome := operationUpdateReminder now store payload in
  ((exists result store', outcome = (inr result, store')) <->
   noUpdates payload = false
   /\ (exists located,
         locateReminderByName store (u_listName payload)
           (u_reminderName payload) = inr located)
   /\ parseable parseISODate (u_dueDate payload)
   /\ parseable allDayDateFormatter_date (u_allDayDueDate payload)
   /\ parseable parseISODate (u_remindMeDate payload))
  /\ (forall e,
        noUpdates payload = false ->
        locateReminderByName store (u_listName payload)
          (u_reminderName payload) = inl e ->
        outcome = (inl e, store))
  /\ (forall result store',
        outcome = (inr result, store') ->
        calendars store' = calendars store
        /\ identifiers store' = identifiers store).
Proof.
  simpl. split; [|split].
  - split.
    + intros (result & store' & Hrun).
      apply operationUpdateReminder_inv in Hrun
        as (Hsome & located & updated & Hloc & Hupd & _).
      split; [exact Hsome|]. split; [exists located; exact Hloc|].
      apply (applyUpdates_succeeds_iff now payload located).
      exists updated. exact Hupd.
    + intros (Hsome & (located & Hloc) & Hdates).
      apply (applyUpdates_succeeds_iff now payload located) in Hdates
        as (updated & Hupd).
      unfold operationUpdateReminder, committed.
      rewrite Hsome, Hloc. simpl. rewrite Hupd. simpl.
      eexists. eexists. reflexivity.
  - intros e Hsome Hloc. unfold operationUpdateReminder, committed.
    rewrite Hsome, Hloc. reflexivity.
  - intros result store' Hrun.
    apply operationUpdateReminder_inv in Hrun
      as (_ & located & updated & Hloc & Hupd & ->).
    split; [reflexivity|].
    unfold identifiers, save. simpl. apply saveInto_identifiers.
    destruct (applyUpdates_fields now payload located updated Hupd)
      as ((Hid & _) & _).
    rewrite Hid. apply in_map, (locateReminderByName_stored _ _ _ _ Hloc).
Qed.

(** X10. What updating a reminder answers, once some field is given.  A
    lookup by name that fails is reported as it is, before any date is
    read; with the reminder found, a date that is given and cannot be read
    makes the update fail.  An update that fails leaves the store as it
    was.  An update that succeeds was given a field, found the reminder and
    could read the dates; it leaves the lists as they were and the stored
    reminders under the same identifiers: it adds or removes nothing. *)
Theorem operationUpdateReminder_outcomes (now : Date)
    (store : EKEventStore) (payload : UpdateReminderPayload) :
  let outcome := operationUpdateReminder now store payload in
  let lookup :=
    locateReminderByName store (u_listName payload)
      (u_reminderName payload) in
  let readable :=
    parseable parseISODate (u_dueDate payload)
    /\ parseable allDayDateFormatter_date (u_allDayDueDate payload)
    /\ parseable parseISODate (u_remindMeDate payload) in
  (forall e,
     noUpdates payload = false ->
     lookup = inl e ->
     outcome = (inl e, store))
  /\ (forall located,
        noUpdates payload = false ->
        lookup = inr located ->
        ~ readable ->
        exists e, outcome = (inl e, store))
  /\ (forall e store', outcome = (inl e, store') -> store' = store)
  /\ (forall result store',
        outcome = (inr result, store') ->
        noUpdates payload = false
        /\ (exists located, lookup = inr located)
        /\ readable
        /\ calendars store' = calendars store
        /\ Permutation (identifiers store') (identifiers store)).
Proof.
  simpl.
  destruct (operationUpdateReminder_cases now store payload)
    as (Hiff & Hlookup & Hsuccess).
  split; [exact Hlookup|]. split; [|split].
  - intros located _ _ Hunreadable.
    destruct (operationUpdateReminder now store payload)
      as [[e|result] store'] eqn:Hrun.
    + exists e.
      rewrite (operationUpdateReminder_failure _ _ _ _ _ Hrun).
      reflexivity.
    + exfalso. apply Hunreadable.
      assert (Hsome : exists r s,
                (inr result, store')
                = (inr r : Result EmptyResult, s))
        by (eexists; eexists; reflexivity).
      apply Hiff in Hsome as (_ & _ & Hread). exact Hread.
  - intros e store'. apply operationUpdateReminder_failure.
  - intros result store' Hrun.
    assert (Hsome : exists r s,
              operationUpdateReminder now store payload = (inr r, s))
      by (eexists; eexists; exact Hrun).
    apply Hiff in Hsome as (Hgiven & Hfound & Hread).
    destruct (Hsuccess result store' Hrun) as (Hcals & Hids).
    split; [exact Hgiven|]. split; [exact Hfound|].
    split; [exact Hread|]. split; [exact Hcals|].
    rewrite Hids. apply Permutation_refl.
Qed.





End LookupOutcomes.

(** ** Identifiers stay unique *)

Section UniqueIdentifiers.
Context `{F : Foundation}.
Import Helper.


Lemma operationDeleteReminder_failure (store store' : EKEventStore)
    (payload : DeleteReminderPayload) (e : HelperError) :
  operationDeleteReminder store payload = (inl e, store') -> store' = store.
Proof.
  unfold operationDeleteReminder, committed.
  destruct (locateReminderByName store (d_listName payload)
              (d_reminderName payload)) as [e1|located]; simpl.
  - intros E. injection E as _ <-. reflexivity.
  - discriminate.
Qed.

Lemma operationCreateReminder_failure (identifier : string)
    (store store' : EKEventStore) (payload : CreateReminderPayload)
    (e : HelperError) :
  operationCreateReminder identifier store payload = (inl e, store') ->
  store' = store.
Proof.
  unfold operationCreateReminder, committed.
  match goal with
  | |- match ?m with _ => _ end = _ -> _ => destruct m as [e1|[res st]]
  end.
  - intros E. injection E as _ <-. reflexivity.
  - discriminate.
Qed.


End UniqueIdentifiers.

(** ** The writing operations on the sample store *)







(* ================================================================= *)
(** * Lists *)

Section CalendarLookup.
Import Helper.

Lemma calendarByName_Some (name : string) (cals : list EKCalendar)
    (cal : EKCalendar) :
  calendarByName name cals = Some cal ->
  In cal cals /\ calendarTitle cal = name.
Proof.
  unfold calendarByName, first. intros Hfind.
  apply find_some in Hfind as [Hin Htitle].
  apply String.eqb_eq in Htitle. split; assumption.
Qed.

Lemma calendarByName_None (name : string) (cals : list EKCalendar) :
  calendarByName name cals = None <-> ~ In name (map calendarTitle cals).
Proof.
  unfold calendarByName, first. split.
  - intros Hfind Hin. apply in_map_iff in Hin as (c & <- & Hc).
    pose proof (find_none _ _ Hfind c Hc) as E. simpl in E.
    rewrite String.eqb_refl in E. discriminate.
  - intros Hnot.
    destruct (find (fun c => String.eqb (calendarTitle c) name) cals)
      as [c|] eqn:E; [|reflexivity].
    apply find_some in E as [Hin Htitle]. apply String.eqb_eq in Htitle.
    exfalso. apply Hnot. rewrite <- Htitle. apply in_map. exact Hin.
Qed.

Lemma titled_existsb (name : string) (cals : list EKCalendar) :
  existsb (fun c => String.eqb (calendarTitle c) name) cals = true
  <-> In name (map calendarTitle cals).
Proof.
  rewrite existsb_exists, in_map_iff. split.
  - intros (c & Hin & E). apply String.eqb_eq in E. exists c. auto.
  - intros (c & E & Hin). exists c. split; [exact Hin|].
    apply String.eqb_eq. exact E.
Qed.

Lemma calendarByName_new (name : string) (cals : list EKCalendar)
    (cal : EKCalendar) :
  ~ In name (map calendarTitle cals) ->
  calendarTitle cal = name ->
  calendarByName name (cals ++ [cal]) = Some cal.
Proof.
  intros Hnot Htitle. unfold calendarByName, first.
  rewrite find_app_none.
  - simpl. rewrite Htitle, String.eqb_refl. reflexivity.
  - intros c Hc. apply String.eqb_neq. intros E. apply Hnot.
    rewrite <- E. apply in_map. exact Hc.
Qed.

Lemma calendarByName_old (name : string) (cals : list EKCalendar)
    (cal found : EKCalendar) :
  calendarByName name cals = Some found ->
  calendarByName name (cals ++ [cal]) = Some found.
Proof.
  unfold calendarByName, first. intros Hfind.
  induction cals as [|c rest IH]; simpl in *; [discriminate|].
  destruct (String.eqb (calendarTitle c) name); [exact Hfind|].
  apply IH. exact Hfind.
Qed.

Lemma operationCreateList_inv (identifier : string) (accounts : EKSources)
    (store store' : EKEventStore) (payload : CreateListPayload)
    (result : CreateIdResult) :
  operationCreateList identifier accounts store payload
    = (inr result, store') ->
  ~ In (cl_name payload) (listTitles store)
  /\ (defaultCalendarSource accounts <> None \/ sources accounts <> [])
  /\ res_id result = identifier
  /\ store' = saveCalendar store (mkCalendar identifier (cl_name payload)).
Proof.
  unfold operationCreateList, committed, allReminderCalendars.
  destruct (existsb (fun c => String.eqb (calendarTitle c) (cl_name payload))
              (calendars store)) eqn:Hdup; [discriminate|].
  assert (Hnew : ~ In (cl_name payload) (listTitles store)).
  { intros Hin. apply titled_existsb in Hin. unfold listTitles in *.
    congruence. }
  destruct (defaultCalendarSource accounts) as [source|]; simpl.
  - intros E. injection E as <- <-.
    repeat split; [exact Hnew|left; discriminate].
  - destruct (first holdsLists (sources accounts)) as [source|] eqn:Hfirst;
      simpl.
    + intros E. injection E as <- <-.
      repeat split; [exact Hnew|].
      right. intros Hnil. rewrite Hnil in Hfirst. discriminate.
    + destruct (sources accounts) as [|source rest]; simpl; [discriminate|].
      intros E. injection E as <- <-.
      repeat split; [exact Hnew|right; discriminate].
Qed.

Lemma operationCreateList_failure (identifier : string) (accounts : EKSources)
    (store store' : EKEventStore) (payload : CreateListPayload)
    (e : HelperError) :
  operationCreateList identifier accounts store payload = (inl e, store') ->
  store' = store.
Proof.
  unfold operationCreateList, committed.
  match goal with
  | |- match ?m with _ => _ end = _ -> _ => destruct m as [e1|[res st]]
  end.
  - intros E. injection E as _ <-. reflexivity.
  - discriminate.
Qed.

Lemma operationDeleteList_inv (store store' : EKEventStore)
    (payload : DeleteListPayload) (result : EmptyResult) :
  operationDeleteList store payload = (inr result, store') ->
  exists cal,
    calendarByName (dl_name payload) (allReminderCalendars store) = Some cal
    /\ store' = removeCalendar store cal.
Proof.
  unfold operationDeleteList, committed.
  destruct (calendarByName (dl_name payload) (allReminderCalendars store))
    as [cal|]; simpl; [|discriminate].
  intros E. injection E as _ <-. exists cal. split; reflexivity.
Qed.

Lemma operationDeleteList_failure (store store' : EKEventStore)
    (payload : DeleteListPayload) (e : HelperError) :
  operationDeleteList store payload = (inl e, store') -> store' = store.
Proof.
  unfold operationDeleteList, committed.
  destruct (calendarByName (dl_name payload) (allReminderCalendars store))
    as [cal|]; simpl.
  - discriminate.
  - intros E. injection E as _ <-. reflexivity.
Qed.

Lemma In_saveCalendar (store : EKEventStore) (cal c : EKCalendar) :
  In c (calendars (saveCalendar store cal)) <->
  In c (calendars store) \/ c = cal.
Proof.
  unfold saveCalendar. simpl. rewrite in_app_iff. simpl.
  split; [intros [H|[H|[]]]|intros [H|H]]; auto.
Qed.

(** X13. What making a list answers.  A name that a list has already is
    reported as "List '...' already exists", whatever the accounts are; a
    new name in a store without a default calendar with a source and
    without any source is reported as "No reminder source available for
    creating lists".  A creation that fails leaves the store as it was.  A
    creation that succeeds had a new name and an account to put the list
    in; it returns the identifier of the new list, and afterwards the lists
    are the lists there were and the new one, and the reminders are as they
    were. *)
Theorem operationCreateList_outcomes (identifier : string)
    (accounts : EKSources) (store : EKEventStore)
    (payload : CreateListPayload) :
  let outcome := operationCreateList identifier accounts store payload in
  (In (cl_name payload) (listTitles store) ->
   outcome
   = (inl (message ("List '" ++ cl_name payload ++ "' already exists")),
      store))
  /\ (~ In (cl_name payload) (listTitles store) ->
      defaultCalendarSource accounts = None ->
      sources accounts = [] ->
      outcome
      = (inl (message "No reminder source available for creating lists"),
         store))
  /\ (forall e store', outcome = (inl e, store') -> store' = store)
  /\ (forall result store',
        outcome = (inr result, store') ->
        ~ In (cl_name payload) (listTitles store)
        /\ (defaultCalendarSource accounts <> None
            \/ sources accounts <> [])
        /\ res_id result = identifier
        /\ (forall c,
              In c (calendars store') <->
              In c (calendars store)
              \/ c = mkCalendar identifier (cl_name payload))
        /\ reminders store' = reminders store).
Proof.
  simpl. split; [|split; [|split]].
  - intros Htaken. apply titled_existsb in Htaken.
    unfold operationCreateList, committed, allReminderCalendars.
    rewrite Htaken. reflexivity.
  - intros Hnew Hdefault Hsources.
    unfold operationCreateList, committed, allReminderCalendars.
    destruct (existsb
                (fun c => String.eqb (calendarTitle c) (cl_name payload))
                (calendars store)) eqn:Hdup.
    { apply titled_existsb in Hdup. contradiction. }
    rewrite Hdefault, Hsources. reflexivity.
  - intros e store'. apply operationCreateList_failure.
  - intros result store' Hrun.
    apply operationCreateList_inv in Hrun as (Hnew & Hsource & Hid & ->).
    split; [exact Hnew|]. split; [exact Hsource|]. split; [exact Hid|].
    split; [|reflexivity].
    intros c. apply In_saveCalendar.
Qed.

End CalendarLookup.

Section ListInvariants.
Context `{F : Foundation}.
Import Helper.

(** Taking lists away leaves the titles of the others free of duplicates. *)
Lemma titles_unique_filter (keep : EKCalendar -> bool)
    (cals : list EKCalendar) (Hnodup : NoDup (map calendarTitle cals)) :
  NoDup (map calendarTitle (filter keep cals)).
Proof.
  induction cals as [|c rest IH]; simpl; [constructor|].
  simpl in Hnodup. inversion Hnodup as [|x xs Hnotin Hrest]; subst.
  destruct (keep c); simpl; [|apply IH; exact Hrest].
  constructor; [|apply IH; exact Hrest].
  intros Hin. apply Hnotin. apply in_map_iff in Hin as (b & E & Hb).
  apply filter_In in Hb as [Hb _]. rewrite <- E. apply in_map. exact Hb.
Qed.

Lemma In_saveInto (r x : EKReminder) (l : list EKReminder) :
  In x (saveInto r l) -> x = r \/ In x l.
Proof.
  induction l as [|a rest IH]; simpl.
  - intros [<-|[]]. left. reflexivity.
  - destruct (sameItem a r); simpl.
    + intros [<-|Hin]; [left; reflexivity|right; right; exact Hin].
    + intros [<-|Hin]; [right; left; reflexivity|].
      destruct (IH Hin) as [->|Hrest]; [left; reflexivity|].
      right. right. exact Hrest.
Qed.

Lemma calendars_after_operationCreateReminder (identifier : string)
    (store : EKEventStore) (payload : CreateReminderPayload) :
  calendars (snd (operationCreateReminder identifier store payload))
  = calendars store.
Proof.
  destruct (operationCreateReminder identifier store payload)
    as [[e|result] store'] eqn:Hrun; simpl.
  - rewrite (operationCreateReminder_failure _ _ _ _ _ Hrun). reflexivity.
  - apply operationCreateReminder_inv in Hrun
      as (list & created & _ & _ & _ & -> & _). reflexivity.
Qed.

Lemma calendars_after_operationUpdateReminder (now : Date)
    (store : EKEventStore) (payload : UpdateReminderPayload) :
  calendars (snd (operationUpdateReminder now store payload))
  = calendars store.
Proof.
  destruct (operationUpdateReminder now store payload)
    as [[e|result] store'] eqn:Hrun; simpl.
  - rewrite (operationUpdateReminder_failure _ _ _ _ _ Hrun). reflexivity.
  - apply operationUpdateReminder_inv in Hrun
      as (_ & located & updated & _ & _ & ->). reflexivity.
Qed.

Lemma calendars_after_operationDeleteReminder (store : EKEventStore)
    (payload : DeleteReminderPayload) :
  calendars (snd (operationDeleteReminder store payload)) = calendars store.
Proof.
  destruct (operationDeleteReminder store payload)
    as [[e|result] store'] eqn:Hrun; simpl.
  - rewrite (operationDeleteReminder_failure _ _ _ _ Hrun). reflexivity.
  - apply operationDeleteReminder_inv in Hrun as (located & _ & ->).
    reflexivity.
Qed.

(** X14. The titles of the lists stay free of duplicates under the two
    operations that write lists, whether they succeed or fail; the three
    operations that write reminders leave the lists as they are.  While the
    titles are free of duplicates, the lookup by name reaches every list. *)
Theorem list_titles_stay_unique (store : EKEventStore) :
  NoDup (listTitles store) ->
  (forall identifier accounts payload,
     NoDup (listTitles
              (snd (operationCreateList identifier accounts store payload))))
  /\ (forall payload,
        NoDup (listTitles (snd (operationDeleteList store payload))))
  /\ (forall identifier payload,
        calendars (snd (operationCreateReminder identifier store payload))
        = calendars store)
  /\ (forall now payload,
        calendars (snd (operationUpdateReminder now store payload))
        = calendars store)
  /\ (forall payload,
        calendars (snd (operationDeleteReminder store payload))
        = calendars store)
  /\ (forall cal,
        In cal (calendars store) ->
        calendarByName (calendarTitle cal) (allReminderCalendars store)
        = Some cal).
Proof.
  intros Hnodup. repeat split.
  - intros identifier accounts payload.
    destruct (operationCreateList identifier accounts store payload)
      as [[e|result] store'] eqn:Hrun; simpl.
    + rewrite (operationCreateList_failure _ _ _ _ _ _ Hrun). exact Hnodup.
    + apply operationCreateList_inv in Hrun as (Hnew & _ & _ & ->).
      unfold listTitles, saveCalendar. simpl. rewrite map_app. simpl.
      apply NoDup_app; [exact Hnodup | repeat constructor; intros [] |].
      intros t Ht [<-|[]]. contradiction.
  - intros payload.
    destruct (operationDeleteList store payload)
      as [[e|result] store'] eqn:Hrun; simpl.
    + rewrite (operationDeleteList_failure _ _ _ _ Hrun). exact Hnodup.
    + apply operationDeleteList_inv in Hrun as (cal & _ & ->).
      unfold listTitles, removeCalendar. simpl.
      apply titles_unique_filter. exact Hnodup.
  - intros. apply calendars_after_operationCreateReminder.
  - intros. apply calendars_after_operationUpdateReminder.
  - intros. apply calendars_after_operationDeleteReminder.
  - intros cal Hin. unfold allReminderCalendars, listTitles in *.
    induction (calendars store) as [|c rest IH]; [contradiction|].
    unfold calendarByName, first in *. simpl in *.
    inversion Hnodup as [|x xs Hnotin Hrest]; subst.
    destruct Hin as [->|Hin]; [rewrite String.eqb_refl; reflexivity|].
    destruct (String.eqb (calendarTitle c) (calendarTitle cal)) eqn:E.
    + apply String.eqb_eq in E. exfalso. apply Hnotin. rewrite E.
      apply in_map. exact Hin.
    + apply IH; assumption.
Qed.

(** X15. When every stored reminder belongs to a stored list, it is so
    again after each of the five operations that write, whether they
    succeed or fail: deleting a list takes its reminders with it, and a
    reminder is only ever made in a list of the store. *)
Theorem reminders_keep_their_lists (store : EKEventStore) :
  noOrphans store ->
  (forall identifier payload,
     noOrphans (snd (operationCreateReminder identifier store payload)))
  /\ (forall now payload,
        noOrphans (snd (operationUpdateReminder now store payload)))
  /\ (forall payload,
        noOrphans (snd (operationDeleteReminder store payload)))
  /\ (forall identifier accounts payload,
        noOrphans
          (snd (operationCreateList identifier accounts store payload)))
  /\ (forall payload,
        noOrphans (snd (operationDeleteList store payload))).
Proof.
  intros Hkept. repeat split.
  - intros identifier payload.
    destruct (operationCreateReminder identifier store payload)
      as [[e|result] store'] eqn:Hrun; simpl.
    + rewrite (operationCreateReminder_failure _ _ _ _ _ Hrun). exact Hkept.
    + apply operationCreateReminder_inv in Hrun
        as (list & created & Hlist & _ & _ & -> & Hfields & _).
      destruct Hfields as (_ & Hcal & _).
      intros r Hin. unfold save, calendarIdentifiers in *. simpl in *.
      apply In_saveInto in Hin as [->|Hin]; [|apply Hkept; exact Hin].
      rewrite Hcal. apply in_map.
      apply calendarByName_Some in Hlist. apply Hlist.
  - intros now payload.
    destruct (operationUpdateReminder now store payload)
      as [[e|result] store'] eqn:Hrun; simpl.
    + rewrite (operationUpdateReminder_failure _ _ _ _ _ Hrun). exact Hkept.
    + apply operationUpdateReminder_inv in Hrun
        as (_ & located & updated & Hloc & Hupd & ->).
      apply applyUpdates_fields in Hupd as ((_ & Hcal & _) & _).
      intros r Hin. unfold save, calendarIdentifiers in *. simpl in *.
      apply In_saveInto in Hin as [->|Hin]; [|apply Hkept; exact Hin].
      rewrite Hcal. apply Hkept.
      apply (locateReminderByName_stored _ _ _ _ Hloc).
  - intros payload.
    destruct (operationDeleteReminder store payload)
      as [[e|result] store'] eqn:Hrun; simpl.
    + rewrite (operationDeleteReminder_failure _ _ _ _ Hrun). exact Hkept.
    + apply operationDeleteReminder_inv in Hrun as (located & _ & ->).
      intros r Hin. unfold remove, calendarIdentifiers in *. simpl in *.
      apply filter_In in Hin as [Hin _]. apply Hkept. exact Hin.
  - intros identifier accounts payload.
    destruct (operationCreateList identifier accounts store payload)
      as [[e|result] store'] eqn:Hrun; simpl.
    + rewrite (operationCreateList_failure _ _ _ _ _ _ Hrun). exact Hkept.
    + apply operationCreateList_inv in Hrun as (_ & _ & _ & ->).
      intros r Hin. unfold saveCalendar, calendarIdentifiers in *.
      simpl in *. rewrite map_app. apply in_or_app. left.
      apply Hkept. exact Hin.
  - intros payload.
    destruct (operationDeleteList store payload)
      as [[e|result] store'] eqn:Hrun; simpl.
    + rewrite (operationDeleteList_failure _ _ _ _ Hrun). exact Hkept.
    + apply operationDeleteList_inv in Hrun as (cal & _ & ->).
      intros r Hin. unfold removeCalendar, calendarIdentifiers in *.
      simpl in *. apply filter_In in Hin as [Hin Hother].
      apply Hkept in Hin. apply in_map_iff in Hin as (c & E & Hc).
      apply in_map_iff. exists c. split; [exact E|].
      apply filter_In. split; [exact Hc|].
      unfold inCalendar in Hother. rewrite E. exact Hother.
Qed.

End ListInvariants.

Section ListOutcomes.
Context `{F : Foundation}.
Import Helper.

Lemma inCalendars_one (cal : EKCalendar) (r : EKReminder) :
  inCalendars [cal] r = inCalendar cal r.
Proof.
  unfold inCalendars, inCalendar. simpl. rewrite orb_false_r.
  apply String.eqb_sym.
Qed.

Lemma filter_inCalendars_one (cal : EKCalendar) (l : list EKReminder) :
  filter (inCalendars [cal]) l = filter (inCalendar cal) l.
Proof. apply filter_ext. intros r. apply inCalendars_one. Qed.

Lemma filter_split_length {A : Type} (p q : A -> bool) (l : list A) :
  (List.length (filter p (filter q l))
   + List.length (filter p (filter (fun x => negb (q x)) l))
   = List.length (filter p l))%nat.
Proof.
  induction l as [|a rest IH]; simpl; [reflexivity|].
  destruct (q a), (p a) eqn:Hp; simpl; rewrite ?Hp; simpl; lia.
Qed.

Lemma filterCompleted_split (completed : option bool) (cal : EKCalendar)
    (l : list EKReminder) :
  count (filterCompleted completed
           (filter (fun r => negb (inCalendar cal r)) l))
  = count (filterCompleted completed l)
    - count (filterCompleted completed (filter (inCalendar cal) l)).
Proof.
  unfold count, filterCompleted. destruct completed as [state|].
  - pose proof (filter_split_length
                  (fun r => Bool.eqb (isCompleted r) state)
                  (inCalendar cal) l). lia.
  - pose proof (filter_split_length (fun _ => true) (inCalendar cal) l)
      as Hsplit.
    assert (Hall : forall m : list EKReminder,
              filter (fun _ => true) m = m).
    { induction m as [|a rest IH]; simpl; [reflexivity|].
      rewrite IH. reflexivity. }
    rewrite !Hall in Hsplit. lia.
Qed.

Lemma calendarByName_removed (name : string) (cals : list EKCalendar)
    (cal : EKCalendar) :
  NoDup (map calendarTitle cals) ->
  calendarByName name cals = Some cal ->
  calendarByName name
    (filter (fun c => negb (String.eqb (calendarIdentifier c)
                                       (calendarIdentifier cal))) cals)
  = None.
Proof.
  intros Hnodup Hfind. apply calendarByName_None. intros Hin.
  apply in_map_iff in Hin as (c & Htitle & Hc).
  apply filter_In in Hc as [Hc Hother].
  apply calendarByName_Some in Hfind as [Hcal Hname].
  assert (c = cal).
  { clear Hother. rewrite <- Hname in Htitle. clear Hname.
    induction cals as [|x rest IH]; [contradiction|].
    simpl in Hnodup. inversion Hnodup as [|y ys Hnotin Hrest]. subst y ys.
    destruct Hc as [->|Hc], Hcal as [->|Hcal].
    - reflexivity.
    - exfalso. apply Hnotin. rewrite Htitle. apply in_map. exact Hcal.
    - exfalso. apply Hnotin. rewrite <- Htitle. apply in_map. exact Hc.
    - apply IH; assumption. }
  subst c. rewrite String.eqb_refl in Hother. discriminate.
Qed.

(** X16. Deleting a list of a name that no list has fails with "List '...'
    not found", and a deletion that fails leaves the store as it was.  A
    deletion that succeeds has removed the first list of that name and the
    reminders that belong to it, and nothing else: where counting succeeds,
    the count of the whole store has dropped by the count of the list, for
    each filter on completion.  When the titles were free of duplicates,
    the name is gone: a listing for it and the same deletion asked again
    fail with "List '...' not found". *)
Theorem deleting_a_list_removes_it_with_its_reminders
    (store : EKEventStore) (payload : DeleteListPayload) :
  let outcome := operationDeleteList store payload in
  let known :=
    calendarByName (dl_name payload) (allReminderCalendars store) in
  let notFound :=
    message ("List '" ++ dl_name payload ++ "' not found") in
  (known = None -> outcome = (inl notFound, store))
  /\ (forall e store', outcome = (inl e, store') -> store' = store)
  /\ (forall result store',
        outcome = (inr result, store') ->
        exists cal,
          known = Some cal
          /\ (forall c,
                In c (calendars store') <->
                In c (calendars store)
                /\ calendarIdentifier c <> calendarIdentifier cal)
          /\ (forall r,
                In r (reminders store') <->
                In r (reminders store)
                /\ calendarIdentifier (calendar r)
                   <> calendarIdentifier cal)
          /\ (forall completed inList inAll left,
                operationCountReminders store
                  (mkCountRemindersPayload (Some (dl_name payload))
                     completed) = inr inList ->
                operationCountReminders store
                  (mkCountRemindersPayload None completed) = inr inAll ->
                operationCountReminders store'
                  (mkCountRemindersPayload None completed) = inr left ->
                res_count left = res_count inAll - res_count inList)
          /\ (NoDup (listTitles store) ->
              (forall completed limit offset,
                 operationListReminders store'
                   (mkListRemindersPayload (Some (dl_name payload))
                      completed limit offset) = inl notFound)
              /\ operationDeleteList store' payload
                 = (inl notFound, store'))).
Proof.
  simpl. split; [|split].
  - intros Hunknown. unfold operationDeleteList, committed.
    rewrite Hunknown. reflexivity.
  - intros e store'. apply operationDeleteList_failure.
  - intros result store' Hrun.
    apply operationDeleteList_inv in Hrun as (cal & Hfind & ->).
    exists cal. split; [exact Hfind|].
    split; [|split; [|split]].
    + intros c. unfold removeCalendar. simpl. rewrite filter_In.
      rewrite negb_true_iff, String.eqb_neq. reflexivity.
    + intros r. unfold removeCalendar, inCalendar. simpl.
      rewrite filter_In. rewrite negb_true_iff, String.eqb_neq.
      reflexivity.
    + intros completed inList inAll left.
      rewrite !operationCountReminders_filtered. simpl.
      unfold filteredReminders. rewrite !selectCalendars_outcome.
      rewrite Hfind. simpl. rewrite filter_inCalendars_one. unfold ok.
      intros E1 E2 E3. injection E1 as <-. injection E2 as <-.
      injection E3 as <-. simpl. apply filterCompleted_split.
    + intros Hnodup.
      assert (Hgone : calendarByName (dl_name payload)
                        (allReminderCalendars (removeCalendar store cal))
                      = None)
        by (apply calendarByName_removed; assumption).
      split.
      * intros completed limit offset.
        rewrite operationListReminders_filtered. simpl.
        unfold filteredReminders. rewrite selectCalendars_outcome.
        rewrite Hgone. reflexivity.
      * unfold operationDeleteList, committed. rewrite Hgone. reflexivity.
Qed.

(** X17. A list that has just been made, under an identifier no stored
    reminder refers to, is the one its name reaches.  The lists that are
    listed afterwards are those listed before and the new one.  A listing
    of the new list that succeeds has total 0 and no record, and a count
    that succeeds is 0; a listing of another list, or of all lists, that
    succeeds before and after the list is made gives the same result. *)
Theorem a_new_list_is_empty (identifier : string) (accounts : EKSources)
    (store store' : EKEventStore) (payload : CreateListPayload)
    (result : CreateIdResult) :
  operationCreateList identifier accounts store payload
    = (inr result, store') ->
  (forall r,
     In r (reminders store) ->
     calendarIdentifier (calendar r) <> identifier) ->
  calendarByName (cl_name payload) (allReminderCalendars store')
    = Some (mkCalendar identifier (cl_name payload))
  /\ (exists lists lists',
        operationListLists store = inr lists
        /\ operationListLists store' = inr lists'
        /\ forall record,
             In record lists' <->
             In record lists
             \/ record = mkReminderListRecord identifier (cl_name payload))
  /\ (forall completed limit offset listed,
        operationListReminders store'
          (mkListRemindersPayload (Some (cl_name payload)) completed
             limit offset) = inr listed ->
        res_total listed = 0 /\ res_reminders listed = [])
  /\ (forall completed counted,
        operationCountReminders store'
          (mkCountRemindersPayload (Some (cl_name payload)) completed)
        = inr counted ->
        res_count counted = 0)
  /\ (forall listName completed limit offset listed listed',
        listName <> Some (cl_name payload) ->
        operationListReminders store
          (mkListRemindersPayload listName completed limit offset)
        = inr listed ->
        operationListReminders store'
          (mkListRemindersPayload listName completed limit offset)
        = inr listed' ->
        listed' = listed).
Proof.
  intros Hrun Hfresh.
  apply operationCreateList_inv in Hrun as (Hnew & _ & _ & ->).
  assert (Hreach : calendarByName (cl_name payload)
                     (allReminderCalendars
                        (saveCalendar store
                           (mkCalendar identifier (cl_name payload))))
                   = Some (mkCalendar identifier (cl_name payload)))
    by (apply calendarByName_new; [exact Hnew|reflexivity]).
  assert (Hnone : filter (inCalendars
                            [mkCalendar identifier (cl_name payload)])
                    (reminders store) = []).
  { rewrite filter_inCalendars_one.
    induction (reminders store) as [|r rest IH]; [reflexivity|].
    simpl. unfold inCalendar at 1. simpl.
    destruct (String.eqb (calendarIdentifier (calendar r)) identifier)
      eqn:E.
    - apply String.eqb_eq in E. exfalso.
      apply (Hfresh r); [left; reflexivity|exact E].
    - apply IH. intros x Hx. apply Hfresh. right. exact Hx. }
  assert (Hempty : forall completed,
            filteredReminders
              (saveCalendar store (mkCalendar identifier (cl_name payload)))
              (Some (cl_name payload)) completed = inr []).
  { intros completed. unfold filteredReminders.
    rewrite selectCalendars_outcome, Hreach. simpl. rewrite Hnone.
    destruct completed; reflexivity. }
  split; [exact Hreach|]. split; [|split; [|split]].
  - eexists. eexists. split; [reflexivity|]. split; [reflexivity|].
    intros record. unfold allReminderCalendars.
    rewrite !in_map_iff. split.
    + intros (c & <- & Hc). apply In_saveCalendar in Hc as [Hc| ->].
      * left. exists c. split; [reflexivity|exact Hc].
      * right. reflexivity.
    + intros [(c & <- & Hc)| ->].
      * exists c. split; [reflexivity|].
        apply In_saveCalendar. left. exact Hc.
      * exists (mkCalendar identifier (cl_name payload)).
        split; [reflexivity|]. apply In_saveCalendar. right. reflexivity.
  - intros completed limit offset listed.
    rewrite operationListReminders_filtered. simpl.
    rewrite Hempty. simpl. unfold prefix, dropFirst.
    rewrite skipn_nil, firstn_nil. unfold ok.
    intros E. injection E as <-. split; reflexivity.
  - intros completed counted.
    rewrite operationCountReminders_filtered. simpl.
    rewrite Hempty. unfold ok. simpl. intros E. injection E as <-.
    reflexivity.
  - intros listName completed limit offset listed listed' Hother.
    rewrite !operationListReminders_filtered. simpl.
    unfold filteredReminders. rewrite !selectCalendars_outcome.
    assert (Hsame : forall name,
              listName = Some name ->
              calendarByName name
                (allReminderCalendars
                   (saveCalendar store
                      (mkCalendar identifier (cl_name payload))))
              = calendarByName name (allReminderCalendars store)).
    { intros name ->. unfold allReminderCalendars, saveCalendar. simpl.
      destruct (calendarByName name (calendars store)) as [found|] eqn:Hfind.
      - apply (calendarByName_old _ _ _ _ Hfind).
      - apply calendarByName_None. rewrite map_app. intros Hin.
        apply in_app_or in Hin as [Hin|[E|[]]].
        + apply calendarByName_None in Hfind. contradiction.
        + simpl in E. apply Hother. rewrite E. reflexivity. }
    destruct listName as [name|]; [rewrite (Hsame name eq_refl)|];
      intros E1 E2;
      assert (E : inr listed' = inr listed :> Result ListRemindersResult)
        by (rewrite <- E1, <- E2; reflexivity);
      injection E as ->; reflexivity.
Qed.


(** X19. The lists that are listed are the lists of the store, in the
    order in which the store gives them, and a name is missing among them
    exactly when a listing of the reminders of that name fails with "List
    '...' not found", whatever its other parameters. *)
Theorem listed_lists_are_the_lists_that_can_be_read (store : EKEventStore) :
  exists lists,
    operationListLists store = inr lists
    /\ map list_name lists = map calendarTitle (allReminderCalendars store)
    /\ map list_id lists
       = map calendarIdentifier (allReminderCalendars store)
    /\ forall name completed limit offset,
         ~ In name (map list_name lists) <->
         operationListReminders store
           (mkListRemindersPayload (Some name) completed limit offset)
         = inl (message ("List '" ++ name ++ "' not found")).
Proof.
  eexists. split; [reflexivity|].
  rewrite !map_map. simpl.
  split; [reflexivity|]. split; [reflexivity|].
  intros name completed limit offset.
  rewrite operationListReminders_filtered. simpl.
  unfold filteredReminders. rewrite selectCalendars_outcome.
  destruct (calendarByName name (allReminderCalendars store)) as [cal|]
    eqn:Hfind; simpl.
  - unfold ok. split; [|discriminate]. intros Hmissing. exfalso.
    apply Hmissing. apply calendarByName_Some in Hfind as [Hin <-].
    apply (in_map calendarTitle). exact Hin.
  - split; [reflexivity|]. intros _.
    apply calendarByName_None in Hfind. exact Hfind.
Qed.

End ListOutcomes.

(* ================================================================= *)
(** * The run of the helper *)

Section RunFacts.
Context `{F : Foundation}.
Context `{DLR : Decodable Helper.ListRemindersPayload}
  `{DCR : Decodable Helper.CountRemindersPayload}
  `{DC : Decodable Helper.CreateReminderPayload}
  `{DU : Decodable Helper.UpdateReminderPayload}
  `{DD : Decodable Helper.DeleteReminderPayload}
  `{DCL : Decodable Helper.CreateListPayload}
  `{DDL : Decodable Helper.DeleteListPayload}.
Import Helper.

Lemma emitting_failure {A : Type} (wrap : A -> Response)
    (outcome : Result A * EKEventStore) (e : HelperError)
    (store' : EKEventStore) :
  emitting wrap outcome = (inl e, store') -> outcome = (inl e, store').
Proof.
  unfold emitting. destruct outcome as [[e1|result] st]; [|discriminate].
  intros E. injection E as <- <-. reflexivity.
Qed.

Lemma emitting_store {A : Type} (wrap : A -> Response)
    (outcome : Result A * EKEventStore) :
  snd (emitting wrap outcome) = snd outcome.
Proof. destruct outcome as [[e|result] st]; reflexivity. Qed.

Lemma withPayload_failure (T : Type) `{Decodable T} (json : string)
    (store store' : EKEventStore)
    (operation : T -> Result Response * EKEventStore) (e : HelperError) :
  (forall payload, operation payload = (inl e, store') -> store' = store) ->
  withPayload T json store operation = (inl e, store') -> store' = store.
Proof.
  unfold withPayload. intros Hop.
  destruct (parsePayload T (Some json)) as [e1|payload].
  - intros E. injection E as _ <-. reflexivity.
  - apply Hop.
Qed.

Lemma withPayload_store (T : Type) `{Decodable T} (json : string)
    (store : EKEventStore)
    (operation : T -> Result Response * EKEventStore) :
  (forall payload, snd (operation payload) = store) ->
  snd (withPayload T json store operation) = store.
Proof.
  unfold withPayload. intros Hop.
  destruct (parsePayload T (Some json)) as [e1|payload];
    [reflexivity|apply Hop].
Qed.

Lemma run_failure (process : Process) (store store' : EKEventStore)
    (e : HelperError) :
  run process store = (inl e, store') -> store' = store.
Proof.
  unfold run.
  destruct (arguments process) as [|program [|op rest]];
    try (intros E; injection E as _ <-; reflexivity).
  destruct (ensureAccess (authorizationStatus process)
              (accessRequest process)) as [e1|granted];
    [intros E; injection E as _ <-; reflexivity|].
  repeat match goal with
         | |- context [if String.eqb op ?s then _ else _] =>
             destruct (String.eqb op s)
         end;
    try (intros E; injection E as _ <-; reflexivity);
    try (intros E; apply emitting_failure in E; injection E as _ <-;
         reflexivity);
    apply withPayload_failure; intros payload E;
    apply emitting_failure in E.
  - injection E as _ <-. reflexivity.
  - injection E as _ <-. reflexivity.
  - apply (operationCreateReminder_failure _ _ _ _ _ E).
  - apply (operationUpdateReminder_failure _ _ _ _ _ E).
  - apply (operationDeleteReminder_failure _ _ _ _ E).
  - apply (operationCreateList_failure _ _ _ _ _ _ E).
  - apply (operationDeleteList_failure _ _ _ _ E).
Qed.

Lemma main_of_run (process : Process) (store : EKEventStore) :
  main process store
  = (match fst (run process store) with
     | inr response => SuccessEnvelope response
     | inl (message text) => ErrorEnvelope text
     end,
     match fst (run process store) with
     | inr _ => 0
     | inl _ => 1
     end,
     snd (run process store)).
Proof.
  unfold main. destruct (run process store) as [[[text]|response] store'];
    reflexivity.
Qed.

(** X20. The helper prints one envelope and its exit status tells which:
    status 1 with an error envelope, status 0 with a success envelope.  A
    run that ends with an error leaves the store as it was, whatever the
    operation and however far it got; and the operations that only read,
    [listLists], [listReminders] and [countReminders], leave the store as
    it was in every case. *)
Theorem failed_runs_leave_the_store (process : Process)
    (store : EKEventStore) :
  let answer := main process store in
  let envelope := fst (fst answer) in
  let status := snd (fst answer) in
  let store' := snd answer in
  (status = 0 \/ status = 1)
  /\ (status = 1 <-> exists text, envelope = ErrorEnvelope text)
  /\ (status = 0 <-> exists response, envelope = SuccessEnvelope response)
  /\ (status = 1 -> store' = store)
  /\ (forall program op rest,
        arguments process = program :: op :: rest ->
        In op ["listLists"; "listReminders"; "countReminders"]%string ->
        store' = store).
Proof.
  simpl. rewrite main_of_run. simpl.
  destruct (run process store) as [[[text]|response] store'] eqn:Hrun; simpl.
  - split; [right; reflexivity|].
    split; [split; [intros _; eexists; reflexivity|reflexivity]|].
    split; [split; [discriminate|intros (r & E); discriminate E]|].
    split; [intros _; apply (run_failure _ _ _ _ Hrun)|].
    intros program op rest _ _. apply (run_failure _ _ _ _ Hrun).
  - split; [left; reflexivity|].
    split; [split; [discriminate|intros (t & E); discriminate E]|].
    split; [split; [intros _; eexists; reflexivity|reflexivity]|].
    split; [discriminate|].
    intros program op rest Hargs Hop.
    assert (Hstore : snd (run process store) = store).
    { unfold run. rewrite Hargs.
      destruct (ensureAccess (authorizationStatus process)
                  (accessRequest process)) as [e1|granted]; [reflexivity|].
      simpl in Hop.
      destruct Hop as [<-|[<-|[<-|[]]]];
        cbn [String.eqb Ascii.eqb Bool.eqb].
      - reflexivity.
      - apply withPayload_store. intros payload.
        rewrite emitting_store. reflexivity.
      - apply withPayload_store. intros payload.
        rewrite emitting_store. reflexivity. }
    rewrite Hrun in Hstore. exact Hstore.
Qed.

(** X21. The order of the checks of a run.  With fewer than two arguments
    the helper reports "Missing operation argument", whatever the state of
    the permission.  Otherwise the permission is checked before the
    operation is looked at: when it is not had, the error of the permission
    is what is printed, for a known operation as for an unknown one and
    for any payload.  With the permission, an operation that is none of
    the eight is reported as "Unsupported operation: ...". *)
Theorem access_is_checked_before_the_operation (process : Process)
    (store : EKEventStore) :
  ((List.length (arguments process) < 2)%nat ->
   main process store
   = (ErrorEnvelope "Missing operation argument", 1, store))
  /\ (forall program op rest text,
        arguments process = program :: op :: rest ->
        ensureAccess (authorizationStatus process) (accessRequest process)
          = inl (message text) ->
        main process store = (ErrorEnvelope text, 1, store))
  /\ (forall program op rest,
        arguments process = program :: op :: rest ->
        ensureAccess (authorizationStatus process) (accessRequest process)
          = inr tt ->
        ~ In op operationNames ->
        main process store
        = (ErrorEnvelope ("Unsupported operation: " ++ op), 1, store)).
Proof.
  split; [|split].
  - intros Hfew. unfold main, run.
    destruct (arguments process) as [|program [|op rest]];
      [reflexivity|reflexivity|simpl in Hfew; lia].
  - intros program op rest text Hargs Haccess.
    unfold main, run. rewrite Hargs, Haccess. reflexivity.
  - intros program op rest Hargs Haccess Hunknown.
    unfold main, run. rewrite Hargs, Haccess.
    unfold operationNames in Hunknown. simpl in Hunknown.
    repeat match goal with
           | |- context [if String.eqb op ?s then _ else _] =>
               destruct (String.eqb op s) eqn:?E
           end;
      try reflexivity;
      exfalso; apply Hunknown;
      repeat match goal with
             | H : String.eqb op _ = true |- _ =>
                 apply String.eqb_eq in H; rewrite H
             end; tauto.
Qed.

(** X22. The permission is had exactly when the status is full access, or
    the status is neither denied nor restricted and the request for it is
    answered in time, without an error, and granted.  For a status of full
    access, denied or restricted the request plays no part. *)
Theorem ensureAccess_succeeds_iff (status : EKAuthorizationStatus)
    (request : AccessRequest) :
  (ensureAccess status request = inr tt <->
   status = fullAccess
   \/ (status <> denied /\ status <> restricted
       /\ request = requestAnswered true None))
  /\ (status = fullAccess \/ status = denied \/ status = restricted ->
      forall other, ensureAccess status other = ensureAccess status request).
Proof.
  split.
  - destruct status, request as [|[|] [requestError|]]; simpl; split;
      try discriminate; try (intros _; reflexivity);
      try (intros _; left; reflexivity);
      try (intros _; right; repeat split; discriminate);
      try (intros [E|(Hd & Hr & E)];
           try discriminate; try contradiction; congruence).
  - intros [->|[->| ->]] other; reflexivity.
Qed.

End RunFacts.

(** ** The operations on lists on the sample store *)

Lemma sample_titles_unique : NoDup (Helper.listTitles Sample.store).
Proof.
  unfold Helper.listTitles. simpl.
  repeat constructor; simpl; intuition discriminate.
Qed.

Lemma sample_keeps_lists : Helper.noOrphans Sample.store.
Proof.
  intros r Hin. unfold Helper.calendarIdentifiers. simpl in *.
  destruct Hin as [<-|[<-|[<-|[<-|[<-|[]]]]]]; simpl; auto.
Qed.


Lemma list_titles_stay_unique_witness :
  NoDup (Helper.listTitles
           (snd (Helper.operationCreateList "cal-chores" Sample.someAccounts
                   Sample.store Sample.createChores)))
  /\ NoDup (Helper.listTitles
              (snd (Helper.operationDeleteList Sample.store
                      Sample.deleteWork)))
  /\ Helper.calendarByName "Home" (Helper.calendars Sample.store)
     = Some Sample.home.
Proof.
  destruct (list_titles_stay_unique (F := utc) Sample.store
              sample_titles_unique)
    as (Hcreate & Hdelete & _ & _ & _ & Hreach).
  split; [apply Hcreate|]. split; [apply Hdelete|].
  apply (Hreach Sample.home). simpl. auto.
Defined.

Lemma reminders_keep_their_lists_witness :
  Helper.noOrphans
    (snd (Helper.operationDeleteList Sample.store Sample.deleteWork))
  /\ Helper.noOrphans
       (snd (Helper.operationCreateReminder "r6" Sample.store
               Sample.createEggs)).
Proof.
  destruct (reminders_keep_their_lists (F := utc) Sample.store
              sample_keeps_lists)
    as (Hcreate & _ & _ & _ & Hdelete).
  split; [apply Hdelete|apply Hcreate].
Defined.

Lemma a_new_list_is_empty_witness :
  exists store',
    Helper.operationCreateList "cal-chores" Sample.someAccounts Sample.store
      Sample.createChores
    = (inr (Helper.mkCreateIdResult "cal-chores"), store')
    /\ Helper.calendarByName "Chores" (Helper.allReminderCalendars store')
       = Some (Helper.mkCalendar "cal-chores" "Chores")
    /\ Helper.operationCountReminders store'
         (Helper.mkCountRemindersPayload (Some "Chores"%string) None)
       = inr (Helper.mkCountResult 0).
Proof.
  destruct (Helper.operationCreateList "cal-chores" Sample.someAccounts
              Sample.store Sample.createChores) as [outcome store'] eqn:Hrun.
  assert (Houtcome : outcome = inr (Helper.mkCreateIdResult "cal-chores"))
    by (vm_compute in Hrun; injection Hrun as <- _; reflexivity).
  subst outcome.
  assert (Hfresh : forall r,
            In r (Helper.reminders Sample.store) ->
            Helper.calendarIdentifier (Helper.calendar r)
            <> "cal-chores"%string).
  { intros r Hin. simpl in Hin.
    destruct Hin as [<-|[<-|[<-|[<-|[<-|[]]]]]]; simpl; discriminate. }
  destruct (a_new_list_is_empty (F := utc) _ _ _ _ _ _ Hrun Hfresh)
    as (Hreach & _ & _ & Hcount & _).
  exists store'. split; [reflexivity|]. split; [exact Hreach|].
  destruct (Helper.operationCountReminders store'
              (Helper.mkCountRemindersPayload (Some "Chores"%string) None))
    as [e|[counted]] eqn:Hcounted.
  - vm_compute in Hrun. injection Hrun as <-.
    vm_compute in Hcounted. discriminate.
  - specialize (Hcount None _ Hcounted). simpl in Hcount.
    rewrite Hcount. reflexivity.
Defined.


(* ================================================================= *)
(** * From the store to the caller *)

Section WireRoundTrip.
Context `{F : Foundation} `{J : JSRuntime}.
Import Service.

Lemma parseDate_isoString (value : option Date) :
  (forall date, value = Some date -> survivesWire date) ->
  parseDate (Helper.isoString value) = value.
Proof.
  intros Hsurvives. destruct value as [date|]; [|reflexivity].
  apply (Hsurvives date). reflexivity.
Qed.

Lemma In_wireDates (reminder : Helper.EKReminder) (date : Date) :
  In (Some date)
    [Helper.completionDate reminder; Helper.dueDate reminder;
     Helper.remindMeDate reminder; Helper.creationDate reminder;
     Helper.lastModifiedDate reminder] ->
  In date (wireDates reminder).
Proof.
  unfold wireDates.
  generalize [Helper.completionDate reminder; Helper.dueDate reminder;
              Helper.remindMeDate reminder; Helper.creationDate reminder;
              Helper.lastModifiedDate reminder].
  intros l. induction l as [|[d|] rest IH]; simpl; [tauto| |].
  - intros [E|Hin]; [injection E as ->; left; reflexivity|].
    right. apply IH. exact Hin.
  - intros [E|Hin]; [discriminate|]. apply IH. exact Hin.
Qed.

(** X23. A stored reminder reaches the caller with its fields: when the
    service reads back the text the helper writes for each date of the
    reminder, the canonical reminder has the identifier, the title, the
    completion state, the priority and the title of the list of the stored
    one, its notes unless they are empty, its completion date, due date and
    earliest absolute alarm, the due date again as the all-day due date
    exactly when the due date has no time, and its creation and modification
    dates, with the current time for one that is missing. *)
Theorem canonical_carries_the_stored_reminder (now : Date)
    (reminder : Helper.EKReminder) :
  (forall date, In date (wireDates reminder) -> survivesWire date) ->
  canonical now reminder
  = {| id := Helper.calendarItemIdentifier reminder;
       name := Helper.title reminder;
       body := nonEmptyOrUndefined (Helper.notes reminder);
       completed := Helper.isCompleted reminder;
       completionDate := Helper.completionDate reminder;
       dueDate := Helper.dueDate reminder;
       allDayDueDate :=
         if Helper.isAllDayDueDate reminder then Helper.dueDate reminder
         else None;
       remindMeDate := Helper.remindMeDate reminder;
       priority := Helper.priority reminder;
       creationDate := orElse (Helper.creationDate reminder) now;
       modificationDate := orElse (Helper.lastModifiedDate reminder) now;
       listName := Helper.calendarTitle (Helper.calendar reminder) |}.
Proof.
  intros Hsurvives.
  assert (Hread : forall value,
            In value
              [Helper.completionDate reminder; Helper.dueDate reminder;
               Helper.remindMeDate reminder; Helper.creationDate reminder;
               Helper.lastModifiedDate reminder] ->
            parseDate (Helper.isoString value) = value).
  { intros value Hin. apply parseDate_isoString. intros date ->.
    apply Hsurvives, In_wireDates, Hin. }
  unfold canonical, mapReminder, wire, Helper.mapReminder.
  cbn [h_id h_name h_body h_completed h_completionDate h_dueDate
       h_allDayDueDate h_remindMeDate h_priority h_creationDate
       h_modificationDate h_listName
       Helper.rec_id Helper.rec_name Helper.rec_body Helper.rec_completed
       Helper.rec_completionDate Helper.rec_dueDate
       Helper.rec_allDayDueDate Helper.rec_remindMeDate
       Helper.rec_priority Helper.rec_creationDate
       Helper.rec_modificationDate Helper.rec_listName orElse].
  rewrite (Hread (Helper.completionDate reminder)) by (simpl; auto 10).
  rewrite (Hread (Helper.dueDate reminder)) by (simpl; auto 10).
  rewrite (Hread (Helper.remindMeDate reminder)) by (simpl; auto 10).
  rewrite (Hread (Helper.creationDate reminder)) by (simpl; auto 10).
  rewrite (Hread (Helper.lastModifiedDate reminder)) by (simpl; auto 10).
  destruct (Helper.isAllDayDueDate reminder).
  - rewrite (Hread (Helper.dueDate reminder)) by (simpl; auto 10). reflexivity.
  - reflexivity.
Qed.

End WireRoundTrip.

Lemma canonical_carries_the_stored_reminder_witness :
  Service.canonical (Sample.march 6 12) Sample.callDentist
  = Service.mkCanonicalReminder "r2" "Call" (Some "before noon"%string) false
      None (Some (Sample.march 5 0)) (Some (Sample.march 5 0))
      (Some (Sample.march 4 18)) 5 (Sample.march 1 9) (Sample.march 1 9)
      "Work".
Proof.
  rewrite (canonical_carries_the_stored_reminder (F := utc) (J := engine)).
  - vm_compute. reflexivity.
  - intros date Hin. vm_compute in Hin.
    destruct Hin as [<-|[<-|[<-|[<-|[]]]]]; vm_compute; reflexivity.
Defined.

(* ================================================================= *)
(** * Searching *)

Section Searching.
Context `{F : Foundation} `{J : JSRuntime} `{L : JSString}.
Import Tools.

Lemma getReminders_all (now : Date) (store : Helper.EKEventStore)
    (listName : option string) (completed : option bool) :
  Service.getReminders now store listName completed None None
  = match Helper.filteredReminders store listName completed with
    | inl (message text) =>
        inl (Service.Error
               (if nonEmpty text then text
                else "EventKit helper failed for operation 'listReminders'"))
    | inr filtered =>
        inr (map (Service.canonical now) (Helper.sortReminders filtered))
    end.
Proof.
  unfold Service.getReminders, Service.runListReminders, Service.decodeInt.
  cbn [bind ok]. rewrite operationListReminders_filtered.
  cbn [Helper.lr_listName Helper.lr_completed Helper.lr_limit
       Helper.lr_offset orElse].
  destruct (Helper.filteredReminders store listName completed)
    as [[text]|filtered]; [reflexivity|].
  cbn [bind ok Service.helperAnswer Helper.res_reminders].
  unfold prefix, dropFirst. rewrite Z.max_id. simpl skipn.
  rewrite firstn_all2 by (unfold count; lia).
  rewrite map_map. reflexivity.
Qed.

Lemma filter_canonical (now : Date) (query : string)
    (l : list Helper.EKReminder) :
  filter (fun r => includes (toLowerCase (Service.name r))
                     (toLowerCase query))
    (map (Service.canonical now) l)
  = map (Service.canonical now) (filter (matches query) l).
Proof.
  induction l as [|r rest IH]; [reflexivity|].
  cbn [map filter]. rewrite IH.
  change (Service.name (Service.canonical now r)) with (Helper.title r).
  change (includes (toLowerCase (Helper.title r)) (toLowerCase query))
    with (matches query r).
  destruct (matches query r); reflexivity.
Qed.

Lemma slice_page {A : Type} (offset limit : Z) (l : list A) :
  0 <= offset -> 0 <= limit ->
  slice offset (offset + limit) l = prefix limit (dropFirst offset l).
Proof.
  intros Hoffset Hlimit. unfold slice, prefix, dropFirst, count.
  destruct (offset <? 0) eqn:E1; [apply Z.ltb_lt in E1; lia|].
  destruct (offset + limit <? 0) eqn:E2; [apply Z.ltb_lt in E2; lia|].
  destruct (Z_le_gt_dec (Z.of_nat (List.length l)) offset) as [Hpast|Hin].
  - rewrite !skipn_all2 by lia. rewrite !firstn_nil. reflexivity.
  - rewrite (Z.min_l offset) by lia.
    destruct (Z_le_gt_dec (offset + limit) (Z.of_nat (List.length l)))
      as [Hfits|Hover].
    + rewrite Z.min_l by lia. do 2 f_equal. lia.
    + rewrite Z.min_r by lia.
      rewrite !firstn_all2; [reflexivity| |]; rewrite length_skipn; lia.
Qed.

Lemma reminders_search_answer (now : Date) (store : Helper.EKEventStore)
    (params : SearchRemindersParams) (filtered : list Helper.EKReminder) :
  Helper.filteredReminders store (s_listName params) (s_completed params)
    = inr filtered ->
  0 <= s_offset params -> 0 <= s_limit params ->
  let matched :=
    filter (matches (s_query params)) (Helper.sortReminders filtered) in
  let page :=
    map (Service.canonical now)
      (prefix (s_limit params) (dropFirst (s_offset params) matched)) in
  let more := s_offset params + s_limit params <? count matched in
  reminders_search now store params
  = inr {| so_total := count matched;
           so_count := count page;
           so_offset := s_offset params;
           so_query := s_query params;
           so_reminders := page;
           so_hasMore := more;
           so_nextOffset :=
             if more then Some (s_offset params + s_limit params)
             else None |}.
Proof.
  intros Hfiltered Hoffset Hlimit. simpl.
  unfold reminders_search. rewrite getReminders_all, Hfiltered.
  rewrite filter_canonical, slice_page by assumption.
  unfold prefix, dropFirst, count.
  rewrite <- !firstn_map, <- !skipn_map, !length_map. reflexivity.
Qed.

(** X24. A search asks the helper for every reminder the (list,
    completion) filter selects, not for a page of them, and keeps those
    whose name holds the query, letters compared in lower case.  For a list
    name that no list has, its answer is the error "Error searching
    reminders: List '...' not found".  When the helper gives the selected
    reminders, for an offset from 0 and a limit from 1, the output has the
    number of matching reminders as total; its page holds the matching
    reminders from the offset on, in sort order, at most limit of them, and
    exactly the smaller of limit and what is left; every reminder of the
    page is a stored one that the filter selects and that matches; hasMore
    says whether reminders are left after the page, and nextOffset is given
    exactly then. *)
Theorem reminders_search_results (now : Date) (store : Helper.EKEventStore)
    (params : SearchRemindersParams) :
  0 <= s_offset params -> 1 <= s_limit params ->
  (forall name,
     s_listName params = Some name ->
     Helper.calendarByName name (Helper.allReminderCalendars store) = None ->
     reminders_search now store params
     = inl ("Error searching reminders: List '" ++ name
            ++ "' not found")%string)
  /\ (forall filtered,
        Helper.filteredReminders store (s_listName params)
          (s_completed params) = inr filtered ->
        let matched :=
          filter (matches (s_query params))
            (Helper.sortReminders filtered) in
        exists output,
          reminders_search now store params = inr output
          /\ so_total output = count matched
          /\ so_reminders output
             = map (Service.canonical now)
                 (prefix (s_limit params)
                    (dropFirst (s_offset params) matched))
          /\ so_count output
             = Z.min (s_limit params)
                 (Z.max 0 (count matched - s_offset params))
          /\ (forall found,
                In found (so_reminders output) ->
                exists r,
                  found = Service.canonical now r
                  /\ Helper.selects store (s_listName params)
                       (s_completed params) r
                  /\ matches (s_query params) r = true)
          /\ (so_hasMore output = true <->
              s_offset params + s_limit params < so_total output)
          /\ so_nextOffset output
             = (if so_hasMore output
                then Some (s_offset params + s_limit params) else None)).
Proof.
  intros Hoffset Hlimit. split.
  - intros name Hname Hunknown.
    unfold reminders_search. rewrite getReminders_all.
    unfold Helper.filteredReminders.
    rewrite selectCalendars_outcome, Hname, Hunknown. reflexivity.
  - intros filtered Hfiltered. simpl. eexists. split;
      [apply (reminders_search_answer now store params filtered);
       [exact Hfiltered|lia|lia]|].
    cbn [so_total so_reminders so_count so_hasMore so_nextOffset].
    split; [reflexivity|]. split; [reflexivity|]. split; [|split; [|split]].
    + unfold count, prefix, dropFirst.
      rewrite length_map, length_firstn, length_skipn. lia.
    + intros found Hin. apply in_map_iff in Hin as (r & <- & Hr).
      apply In_page in Hr. apply filter_In in Hr as [Hr Hmatch].
      exists r. split; [reflexivity|]. split; [|exact Hmatch].
      apply (filteredReminders_selects _ _ _ _ Hfiltered).
      unfold Helper.sortReminders in Hr.
      apply (Permutation_in r
               (Permutation_sym
                  (sorted_permutation Helper.areInIncreasingOrder
                     filtered))).
      exact Hr.
    + apply Z.ltb_lt.
    + reflexivity.
Qed.


End Searching.

Lemma reminders_search_results_witness :
  exists output,
    Tools.reminders_search (Sample.march 6 12) Sample.store Sample.searchCall
    = inr output
    /\ Tools.so_total output = 2
    /\ map Service.id (Tools.so_reminders output) = ["r1"%string]
    /\ Tools.so_hasMore output = false.
Proof.
  destruct (reminders_search_results (F := utc) (J := engine)
              (L := lowerCase) (Sample.march 6 12) Sample.store
              Sample.searchCall ltac:(simpl; lia) ltac:(simpl; lia))
    as (_ & Hsearch).
  destruct (Helper.filteredReminders Sample.store
              (Tools.s_listName Sample.searchCall)
              (Tools.s_completed Sample.searchCall)) as [e|filtered] eqn:Hf;
    [vm_compute in Hf; discriminate|].
  destruct (Hsearch filtered eq_refl)
    as (output & Hrun & Htotal & Hpage & _ & _ & Hmore & _).
  exists output. split; [exact Hrun|].
  vm_compute in Hf. injection Hf as <-.
  split; [rewrite Htotal; vm_compute; reflexivity|].
  split; [rewrite Hpage; vm_compute; reflexivity|].
  destruct (Tools.so_hasMore output); [|reflexivity].
  exfalso. destruct Hmore as [Hmore _].
  specialize (Hmore eq_refl). rewrite Htotal in Hmore.
  vm_compute in Hmore. discriminate.
Defined.


(* ================================================================= *)
(** * Updates and the counts *)

Section UpdateCounts.
Context `{F : Foundation}.
Import Helper.





End UpdateCounts.


(* ================================================================= *)
(** * Results of the helper *)

Section EnvelopeResults.
Context `{J : JSRuntime}.
Import Service.

Lemma parseEnvelope_result_iff (stdout op : string)
    (result : option JSValue) :
  parseEnvelope stdout op = inr result <->
  trim stdout <> EmptyString
  /\ exists fields,
       JSON_parse (trim stdout) = Some (JObject fields)
       /\ truthy (lookupField "ok" fields) = true
       /\ result = lookupField "result" fields.
Proof.
  unfold parseEnvelope.
  destruct (nonEmpty (trim stdout)) eqn:Hblank; cbn [negb].
  - assert (Hne : trim stdout <> EmptyString).
    { intros E. apply nonEmpty_false in E. congruence. }
    destruct (JSON_parse (trim stdout)) as [parsed|].
    + destruct parsed as [| b | n | s | items | fields];
        cbn [getProperty truthy negb];
        try (split; [discriminate|];
             intros (_ & fields & E & _); discriminate E).
      destruct (truthy (lookupField "ok" fields)) eqn:Hok; cbn [negb].
      * split.
        -- intros E. injection E as <-. split; [exact Hne|].
           exists fields. repeat split. exact Hok.
        -- intros (_ & fields' & E & _ & ->). injection E as <-.
           reflexivity.
      * split.
        -- destruct (lookupField "error" fields) as [v|];
             [destruct (truthy (Some v))|]; discriminate.
        -- intros (_ & fields' & E & Hok' & _). injection E as <-.
           congruence.
    + split; [discriminate|].
      intros (_ & fields & E & _). discriminate E.
  - apply nonEmpty_false in Hblank. split; [discriminate|].
    intros (Hne & _). contradiction.
Qed.

(** X27. The service takes a result from the helper exactly when the
    standard output, of a helper that exits with zero or attached to the
    failure of one that does not, holds a JSON object whose [ok] is truthy;
    the result is then the [result] of that object, or undefined when the
    object has none.  Neither the exit status nor the standard error plays
    a part in that case. *)
Theorem runHelper_returns_iff (op : string) (exec : ExecOutcome)
    (result : option JSValue) :
  runHelper op exec = inr result <->
  exists stdout fields,
    (exec = Resolved stdout
     \/ exists err, exec = Rejected err /\ err_stdout err = Some stdout)
    /\ trim stdout <> EmptyString
    /\ JSON_parse (trim stdout) = Some (JObject fields)
    /\ truthy (lookupField "ok" fields) = true
    /\ result = lookupField "result" fields.
Proof.
  split.
  - unfold runHelper. destruct exec as [stdout|err].
    + destruct (parseEnvelope stdout op) as [e|found] eqn:Hparse.
      * unfold Error in *.
        assert (Hnone : err_stdout e = None).
        { unfold parseEnvelope in Hparse.
          destruct (negb (nonEmpty (trim stdout)));
            [injection Hparse as <-; reflexivity|].
          destruct (JSON_parse (trim stdout)) as [parsed|];
            [|injection Hparse as <-; reflexivity].
          destruct parsed as [| b | n | s | items | fields];
            cbn [getProperty truthy negb] in Hparse;
            try (injection Hparse as <-; reflexivity).
          destruct (negb (truthy (lookupField "ok" fields)));
            [|discriminate].
          destruct (lookupField "error" fields) as [v|];
            [destruct (truthy (Some v))|];
            injection Hparse as <-; reflexivity. }
        rewrite Hnone. cbn [trimmedNonEmpty]. discriminate.
      * intros E. injection E as <-.
        apply parseEnvelope_result_iff in Hparse
          as (Hne & fields & Hjson & Hok & Hresult).
        exists stdout, fields. split; [left; reflexivity|].
        repeat split; assumption.
    + destruct (err_stdout err) as [stdout|] eqn:Hout;
        cbn [trimmedNonEmpty orElse]; [|discriminate].
      destruct (nonEmpty (trim stdout)) eqn:Hblank; [|discriminate].
      destruct (parseEnvelope stdout op) as [e|found] eqn:Hparse;
        [discriminate|].
      intros E. injection E as <-.
      apply parseEnvelope_result_iff in Hparse
        as (Hne & fields & Hjson & Hok & Hresult).
      exists stdout, fields. split; [right; exists err; split; auto|].
      repeat split; assumption.
  - intros (stdout & fields & Hexec & Hne & Hjson & Hok & ->).
    assert (Hparse : parseEnvelope stdout op
                     = inr (lookupField "result" fields)).
    { apply parseEnvelope_result_iff. split; [exact Hne|].
      exists fields. repeat split; assumption. }
    destruct Hexec as [->|(err & -> & Hout)].
    + unfold runHelper. rewrite Hparse. reflexivity.
    + rewrite (runHelper_rejected_printed op stdout err Hout Hne).
      rewrite Hparse. reflexivity.
Qed.

End EnvelopeResults.

Lemma runHelper_returns_iff_witness :
  Service.runHelper "countReminders" (Service.Resolved Sample.resultSeven)
  = inr (Some (JNumber 7)).
Proof.
  apply (runHelper_returns_iff (J := engine)).
  exists Sample.resultSeven,
    [("ok"%string, JBool true); ("result"%string, JNumber 7)].
  split; [left; reflexivity|].
  split; [vm_compute; discriminate|].
  split; [vm_compute; reflexivity|].
  split; reflexivity.
Defined.

(* ================================================================= *)
(** * The AppleScript service *)

Section Quoting.
Import AppleScript.

Lemma escapeAppleScriptString_cons (c : ascii) (str : string) :
  escapeAppleScriptString (String c str)
  = if Ascii.eqb c backslash
    then String backslash (String backslash (escapeAppleScriptString str))
    else if Ascii.eqb c doubleQuote
    then String backslash (String doubleQuote (escapeAppleScriptString str))
    else String c (escapeAppleScriptString str).
Proof.
  unfold escapeAppleScriptString. cbn [replaceAll].
  destruct (Ascii.eqb c backslash) eqn:Hb.
  - reflexivity.
  - cbn [replaceAll]. destruct (Ascii.eqb c doubleQuote); reflexivity.
Qed.

(** X28. A text put between quotes after [escapeAppleScriptString] is read
    by AppleScript as a string literal that ends at the closing quote and
    stands for the text itself, whatever quotes and backslashes the text
    holds; the escaping doubles each backslash and puts one before each
    quote, in one pass over the text. *)
Theorem escaped_text_is_read_back (str rest : string) :
  readLiteral (escapeAppleScriptString str ++ String doubleQuote rest)
  = Some (str, rest).
Proof.
  induction str as [|c str IH].
  - reflexivity.
  - rewrite escapeAppleScriptString_cons.
    destruct (Ascii.eqb c backslash) eqn:Hb.
    + apply Ascii.eqb_eq in Hb. subst c.
      cbn [append readLiteral]. rewrite IH. reflexivity.
    + destruct (Ascii.eqb c doubleQuote) eqn:Hq.
      * apply Ascii.eqb_eq in Hq. subst c.
        cbn [append readLiteral]. rewrite IH. reflexivity.
      * cbn [append readLiteral]. rewrite Hq, Hb, IH. reflexivity.
Qed.

Lemma append_empty (s : string) : (s ++ EmptyString)%string = s.
Proof.
  induction s as [|c s IH]; simpl; [reflexivity|]. rewrite IH. reflexivity.
Qed.

Lemma append_shift (a : string) (c : ascii) (b : string) :
  ((a ++ String c EmptyString) ++ b)%string = (a ++ String c b)%string.
Proof.
  induction a as [|x a IH]; simpl; [reflexivity|]. rewrite IH. reflexivity.
Qed.

Lemma readWords_quoted (script : string) :
  forall (words : list string) (word : string),
    readWords true words (Some word)
      (replaceAll singleQuote
         (String singleQuote
            (String backslash
               (String singleQuote (String singleQuote EmptyString))))
         script
       ++ String singleQuote EmptyString)
    = Some (words ++ [(word ++ script)%string]).
Proof.
  induction script as [|c script IH]; intros words word.
  - simpl. rewrite append_empty. reflexivity.
  - cbn [replaceAll]. destruct (Ascii.eqb c singleQuote) eqn:Hq.
    + apply Ascii.eqb_eq in Hq. subst c.
      cbn [append readWords Ascii.eqb Bool.eqb singleQuote backslash
           grown orElse].
      rewrite IH, append_shift. reflexivity.
    + cbn [append readWords]. rewrite Hq. unfold grown, orElse.
      rewrite IH, append_shift. reflexivity.
Qed.

(** X29. The command line of [runAppleScript] is read by the shell as three
    words, [osascript], [-e] and the script itself, whatever the script
    holds: no quote of the script ends the quoting of the command. *)
Theorem osascript_command_is_three_words (script : string) :
  readWords false [] None (osascriptCommand script)
  = Some ["osascript"; "-e"; script]%string.
Proof.
  unfold osascriptCommand.
  change (readWords true ["osascript"; "-e"]%string (Some EmptyString)
            (replaceAll singleQuote
               (String singleQuote
                  (String backslash
                     (String singleQuote (String singleQuote EmptyString))))
               script
             ++ String singleQuote EmptyString)
          = Some ["osascript"; "-e"; script]%string).
  rewrite readWords_quoted. reflexivity.
Qed.

End Quoting.
